(** * time_lapse: event-centred frame selection over a timelapse archive

    Shallow embedding of the four scripts

      - automate_timelapse.py              (module [Timelapse])
      - automate_overlapping_timelapse.py  (module [Overlapping])
      - automate_goldenhour.py             (module [Goldenhour])
      - automate_rewind.py                 (module [Rewind])

    and the properties of their shared engine: the timeline index, the
    timestamp interpolation, the window selection and the sun-event time.

    Conventions.
      - An instant ([datetime]) is an integer number of microseconds; all
        instants of one index carry the same tzinfo, so Python compares and
        subtracts them on that number.  The year range 1..9999 of [datetime]
        and the day range of [timedelta] are not modelled.
      - A frame is the Python tuple [(timestamp, path)].
      - The metadata reader [get_exif_timestamp] runs [exiftool]; it is a
        parameter [exif : string -> option Z] ([None] for a file without a
        readable capture time).
      - [os.walk] is its sequence of [(root, files)] pairs, in the order in
        which the directories are visited.
      - A Python [float] is an IEEE-754 binary64 value, [spec_float] of the
        standard library with [prec = 53] and [emax = 1024].  An operation
        that raises in Python returns [None].
      - The sun-event time is computed with [math.cos], [math.acos], ... of
        the C library; this computation is embedded over the real numbers
        (module [Solar]), not over binary64.
      - The conversions of [pytz] keep the instant; the wall-clock fields of
        an aware [datetime] are not modelled. *)

From Stdlib Require Import ZArith List String Ascii Bool Lia.
From Stdlib Require Import Sorted Permutation.
From Stdlib Require Import SpecFloat.
From Stdlib Require Import Reals Lra.
Import ListNotations.

Local Open Scope Z_scope.

(** ** Python built-ins used by the scripts *)

Module Py.

(** A frame: the tuple [(ts, path)]. *)
Definition frame : Type := Z * string.

Definition ts (f : frame) : Z := fst f.
Definition path (f : frame) : string := snd f.

(** [a < b] on [str]: lexicographic on code points. *)
Definition str_lt (a b : string) : bool := String.ltb a b.

(** [a < b] on tuples [(ts, path)]: the first differing component decides. *)
Definition tuple_lt (a b : frame) : bool :=
  if ts a =? ts b then str_lt (path a) (path b) else ts a <? ts b.

(** [list.sort] and [sorted]: a stable sort that only uses [<].  Any stable
    sort computes the same list; this one inserts from the right, each
    element in front of the first one that is not smaller. *)
Section Sort.
Context {A : Type} (lt : A -> A -> bool).

Fixpoint insert (x : A) (l : list A) : list A :=
  match l with
  | [] => [x]
  | y :: l' => if lt y x then y :: insert x l' else x :: l
  end.

Definition list_sort (l : list A) : list A := fold_right insert [] l.
End Sort.

(** [l.sort(key=lambda x: x[0])] *)
Definition sort_by_ts (l : list frame) : list frame :=
  list_sort (fun a b => ts a <? ts b) l.

(** [l.sort()] on a list of tuples *)
Definition sort_tuples (l : list frame) : list frame := list_sort tuple_lt l.

(** [sorted(names)] on a list of [str] *)
Definition sorted (l : list string) : list string := list_sort str_lt l.

(** [s.endswith(suffix)] *)
Definition endswith (s suffix : string) : bool :=
  let n := String.length s in
  let k := String.length suffix in
  (k <=? n)%nat && String.eqb (substring (n - k) k s) suffix.

(** [s.startswith(p)] *)
Definition startswith (s p : string) : bool := String.prefix p s.

(** [sub in s] *)
Definition contains (sub s : string) : bool :=
  match String.index 0 sub s with
  | Some _ => true
  | None => false
  end.

(** [os.path.join(root, f)] (POSIX) *)
Definition path_join (root f : string) : string :=
  if startswith f "/" then f
  else if String.eqb root "" || endswith root "/" then root ++ f
  else root ++ "/" ++ f.

(** [bisect.bisect_left(a, x)], with [lo = 0] and [hi = len(a)]:
<<
    while lo < hi:
        mid = (lo + hi) // 2
        if a[mid] < x: lo = mid + 1
        else: hi = mid
    return lo
>>
    The loop runs at most [hi - lo] times; [fuel] counts them. *)
Section Bisect.
Context {A : Type} (lt : A -> A -> bool) (a : list A) (x : A).

Fixpoint bisect_loop (fuel lo hi : nat) : nat :=
  match fuel with
  | O => lo
  | S fuel' =>
      if (lo <? hi)%nat then
        let mid := ((lo + hi) / 2)%nat in
        match nth_error a mid with
        | Some y =>
            if lt y x then bisect_loop fuel' (mid + 1)%nat hi
            else bisect_loop fuel' lo mid
        | None => lo
        end
      else lo
  end.

Definition bisect_left : nat := bisect_loop (List.length a) 0%nat (List.length a).
End Bisect.

(** [l[start:stop]]: a negative index counts from the end, both are clipped
    to [0 .. len]. *)
Definition clip_index (len i : Z) : Z :=
  if i <? 0 then Z.max 0 (i + len) else Z.min i len.

Definition slice {A : Type} (l : list A) (start stop : Z) : list A :=
  let len := Z.of_nat (List.length l) in
  let s := clip_index len start in
  let e := clip_index len stop in
  firstn (Z.to_nat (e - s)) (skipn (Z.to_nat s) l).

(** [l[::-step]] for [step > 0]: CPython starts at [len - 1], stops before
    [-1], computes the length of the slice and then copies
    [l[start]], [l[start - step]], ... *)
Section SliceRev.
Context {A : Type} (l : list A) (step : Z).

Fixpoint copy_from (n : nat) (cur : Z) : list A :=
  match n with
  | O => []
  | S n' =>
      match nth_error l (Z.to_nat cur) with
      | Some x => x :: copy_from n' (cur - step)
      | None => []
      end
  end.

Definition slice_rev : list A :=
  let start := Z.of_nat (List.length l) - 1 in
  let stop := -1 in
  let slicelength :=
    if stop <? start then (start - stop - 1) / step + 1 else 0 in
  copy_from (Z.to_nat slicelength) start.
End SliceRev.

(** *** [float] *)

Definition float : Type := spec_float.

Definition prec : Z := 53.
Definition emax : Z := 1024.

Definition fmul : float -> float -> float := SFmul prec emax.
Definition fdiv : float -> float -> float := SFdiv prec emax.

(** [float(n)] for an [int]: rounded to nearest even; [OverflowError] when
    [n] is too large. *)
Definition float_of_int (n : Z) : option float :=
  match binary_normalize prec emax n 0 false with
  | S754_infinity _ => None
  | f => Some f
  end.

(** [a / b] on [int]s: the correctly rounded quotient; [ZeroDivisionError]
    for [b = 0], [OverflowError] when the quotient is too large. *)
Definition int_truediv (a b : Z) : option float :=
  match b with
  | 0 => None
  | _ =>
      match a with
      | 0 => Some (S754_zero (b <? 0))
      | _ =>
          let '(q, e, l) := SFdiv_core_binary prec emax (Z.abs a) 0 (Z.abs b) 0 in
          match binary_round_aux prec emax (xorb (a <? 0) (b <? 0)) q e l with
          | S754_infinity _ => None
          | f => Some f
          end
      end
  end.

(** [x / n] for a [float] and an [int] *)
Definition float_div_int (x : float) (n : Z) : option float :=
  match float_of_int n with
  | None => None
  | Some d =>
      match d with
      | S754_zero _ => None
      | _ => Some (fdiv x d)
      end
  end.

(** [n * x] for an [int] and a [float] *)
Definition int_mul_float (n : Z) (x : float) : option float :=
  match float_of_int n with
  | None => None
  | Some f => Some (fmul f x)
  end.

(** [int(x)]: truncation towards zero; [ValueError] for a NaN,
    [OverflowError] for an infinity. *)
Definition int_of_float (x : float) : option Z :=
  match x with
  | S754_zero _ => Some 0
  | S754_finite s m e =>
      let a := if 0 <=? e then Z.shiftl (Zpos m) e else Z.shiftr (Zpos m) (- e) in
      Some (if s then - a else a)
  | _ => None
  end.

(** C's [modf]: the fractional and the integral part, both with the sign of
    the argument. *)
Definition modf (x : float) : float * float :=
  match x with
  | S754_finite s m e =>
      if 0 <=? e then (S754_zero s, x)
      else
        let ip := Z.shiftr (Zpos m) (- e) in
        let fp := Z.land (Zpos m) (Z.ones (- e)) in
        (binary_normalize prec emax (cond_Zopp s fp) e s,
         binary_normalize prec emax (cond_Zopp s ip) 0 s)
  | S754_infinity s => (S754_zero s, x)
  | _ => (x, x)
  end.

Definition is_zero (x : float) : bool :=
  match x with
  | S754_zero _ => true
  | _ => false
  end.

Definition is_neg (x : float) : bool :=
  match x with
  | S754_zero s | S754_infinity s | S754_finite s _ _ => s
  | S754_nan => false
  end.

Definition one_half : float := S754_finite false 4503599627370496 (-53).

(** *** [timedelta]

    A [timedelta] is its number of microseconds.  [timedelta(unit=x)] for a
    [float] [x] and a unit of [factor] microseconds follows CPython's
    [accum] and [delta_new]: the integral part of [x] is scaled exactly, the
    fractional part is scaled in double precision, and what is left below a
    microsecond is rounded half to even. *)
Definition round_leftover (sofar : Z) (leftover : float) : Z :=
  let unit := if is_neg leftover then -1 else 1 in
  match SFcompare (SFabs leftover) one_half with
  | Some Lt => 0
  | Some Eq => if Z.odd sofar then unit else 0
  | Some Gt => unit
  | None => 0
  end.

Definition timedelta_of_float (factor : Z) (x : float) : option Z :=
  let '(fracpart, intpart) := modf x in
  match int_of_float intpart, float_of_int factor with
  | Some ip, Some ffactor =>
      let sum := ip * factor in
      if is_zero fracpart then Some sum
      else
        let '(leftover, whole) := modf (fmul ffactor fracpart) in
        match int_of_float whole with
        | Some w =>
            let y := sum + w in
            if is_zero leftover then Some y
            else Some (y + round_leftover y leftover)
        | None => None
        end
  | _, _ => None
  end.

(** A number that is an [int] or a [float], for [interval], which is
    [... / (count - 1) if count > 1 else 10]. *)
Inductive num : Type :=
  | Int (n : Z)
  | Float (x : float).

(** [i * x] *)
Definition int_mul (i : Z) (x : num) : option num :=
  match x with
  | Int n => Some (Int (i * n))
  | Float f => option_map Float (int_mul_float i f)
  end.

Definition us_per_second : Z := 1000000.
Definition us_per_minute : Z := 60000000.

(** [timedelta(seconds=x)] *)
Definition timedelta_seconds (x : num) : option Z :=
  match x with
  | Int n => Some (n * us_per_second)
  | Float f => timedelta_of_float us_per_second f
  end.

(** [td.total_seconds()]: [microseconds / 10**6] *)
Definition total_seconds (td : Z) : option float := int_truediv td (10 ^ 6).

(** [enumerate(l)] *)
Definition enumerate {A : Type} (l : list A) : list (Z * A) :=
  combine (map Z.of_nat (seq 0 (List.length l))) l.

(** *** Decimal formatting

    The digits of an [int] [n >= 0], by repeated division by ten, the last
    digit first; the loop runs once for each digit and [fuel] bounds their
    number. *)
Definition digit (d : Z) : ascii := ascii_of_nat (48 + Z.to_nat d).

Fixpoint digits (fuel : nat) (n : Z) (acc : string) : string :=
  match fuel with
  | O => acc
  | S fuel' =>
      let acc' := String (digit (n mod 10)) acc in
      if n <? 10 then acc' else digits fuel' (n / 10) acc'
  end.

Definition decimal (n : Z) : string :=
  digits (S (Z.to_nat (Z.log2 n))) n "".

(** Zeros in front of [s] up to the width [width] *)
Fixpoint zeros (k : nat) (s : string) : string :=
  match k with
  | O => s
  | S k' => String "0" (zeros k' s)
  end.

Definition zero_pad (width : nat) (s : string) : string :=
  zeros (width - String.length s) s.

(** [f"{n:09d}"]: the sign, if any, then zeros, then the digits, nine
    characters at least. *)
Definition format_09d (n : Z) : string :=
  if n <? 0 then String "-" (zero_pad 8 (decimal (- n)))
  else zero_pad 9 (decimal n).

End Py.

(** ** The calendar of [datetime] *)

Module Calendar.

(** A naive [datetime], by its fields. *)
Record datetime : Type := mkDatetime {
  year : Z;
  month : Z;
  day : Z;
  hour : Z;
  minute : Z;
  second : Z;
  microsecond : Z
}.

(** [datetime(y, m, d)] and [datetime(y, m, d, h)] *)
Definition date (y m d : Z) : datetime := mkDatetime y m d 0 0 0 0.
Definition date_hour (y m d h : Z) : datetime := mkDatetime y m d h 0 0 0.

Definition is_leap (y : Z) : bool :=
  (y mod 4 =? 0) && (negb (y mod 100 =? 0) || (y mod 400 =? 0)).

Definition days_before_year (y : Z) : Z :=
  let p := y - 1 in p * 365 + p / 4 - p / 100 + p / 400.

Definition days_before_month (y m : Z) : Z :=
  nth (Z.to_nat m) [0; 0; 31; 59; 90; 120; 151; 181; 212; 243; 273; 304; 334] 0
  + (if (2 <? m) && is_leap y then 1 else 0).

(** [date.toordinal()]: 1 for 0001-01-01 *)
Definition ymd2ord (y m d : Z) : Z :=
  days_before_year y + days_before_month y m + d.

(** [date.timetuple().tm_yday] *)
Definition tm_yday (dt : datetime) : Z :=
  days_before_month (year dt) (month dt) + day dt.

(** [_ord2ymd(n)] of CPython's datetime, for [date.fromordinal] and for the
    date of a [datetime]. *)
Definition ord2ymd (n : Z) : Z * Z * Z :=
  let n := n - 1 in
  let n400 := n / 146097 in
  let n := n mod 146097 in
  let n100 := n / 36524 in
  let n := n mod 36524 in
  let n4 := n / 1461 in
  let n := n mod 1461 in
  let n1 := n / 365 in
  let n := n mod 365 in
  let y := n400 * 400 + 1 + n100 * 100 + n4 * 4 + n1 in
  if (n1 =? 4) || (n100 =? 4) then (y - 1, 12, 31)
  else
    let leapyear := (n1 =? 3) && (negb (n4 =? 24) || (n100 =? 3)) in
    let leap_day (m : Z) := if (2 <? m) && leapyear then 1 else 0 in
    let m := Z.shiftr (n + 50) 5 in
    let preceding :=
      nth (Z.to_nat m) [0; 0; 31; 59; 90; 120; 151; 181; 212; 243; 273; 304; 334] 0
      + leap_day m in
    if n <? preceding then
      let m := m - 1 in
      let preceding :=
        nth (Z.to_nat m) [0; 0; 31; 59; 90; 120; 151; 181; 212; 243; 273; 304; 334] 0
        + leap_day m in
      (y, m, n - preceding + 1)
    else (y, m, n - preceding + 1).

(** [date.weekday()]: Monday is 0 *)
Definition weekday (y m d : Z) : Z := (ymd2ord y m d + 6) mod 7.

(** The instant of a naive [datetime], in microseconds. *)
Definition to_us (dt : datetime) : Z :=
  (((ymd2ord (year dt) (month dt) (day dt) * 24 + hour dt) * 60
    + minute dt) * 60 + second dt) * 1000000 + microsecond dt.

(** [t.date().toordinal()] for the instant [t] of a naive [datetime]. *)
Definition day_of (t : Z) : Z := t / 86400000000.

(** [a < b] and [a <= b] on naive [datetime]s: the tuples of fields are
    compared. *)
Fixpoint lex_compare (a b : list Z) : comparison :=
  match a, b with
  | x :: a', y :: b' =>
      match x ?= y with
      | Eq => lex_compare a' b'
      | c => c
      end
  | [], [] => Eq
  | [], _ :: _ => Lt
  | _ :: _, [] => Gt
  end.

Definition fields (dt : datetime) : list Z :=
  [year dt; month dt; day dt; hour dt; minute dt; second dt; microsecond dt].

Definition dt_lt (a b : datetime) : bool :=
  match lex_compare (fields a) (fields b) with
  | Lt => true
  | _ => false
  end.

Definition dt_le (a b : datetime) : bool :=
  match lex_compare (fields a) (fields b) with
  | Gt => false
  | _ => true
  end.

End Calendar.

(** ** The sun-event time

    The four scripts repeat one computation.  Its floating-point arithmetic
    and the functions of [math] are embedded over the real numbers: [float]
    addition, multiplication, [math.cos], [math.acos], ... are the real
    operations, [a / b] raises for [b = 0], [int(x)] truncates, [x // y] and
    [x % y] are the floored quotient and its remainder. *)

Module Solar.
Import Calendar.
Local Open Scope R_scope.

(** What a call does: it returns a [datetime], it returns [None], or it
    raises. *)
Inductive result (A : Type) : Type :=
  | Instant (t : A)
  | NoEvent
  | Raised.

Arguments Instant {A} t.
Arguments NoEvent {A}.
Arguments Raised {A}.

Definition LATITUDE : R := 37.791667734079596.
Definition LONGITUDE : R := -122.41549323195979.

(** [math.radians] and [math.degrees] *)
Definition radians (x : R) : R := x * (PI / 180).
Definition degrees (x : R) : R := x * (180 / PI).

(** [gamma = (2 * math.pi / 365.0) * (day_of_year - 1)] *)
Definition gamma (day_of_year : Z) : R :=
  (2 * PI / 365) * (IZR day_of_year - 1).

Definition eqtime (g : R) : R :=
  229.18 * (0.000075 + 0.001868 * cos g - 0.032077 * sin g
            - 0.014615 * cos (2 * g) - 0.040849 * sin (2 * g)).

Definition decl (g : R) : R :=
  0.006918 - 0.399912 * cos g + 0.070257 * sin g
  - 0.006758 * cos (2 * g) + 0.000907 * sin (2 * g)
  - 0.002697 * cos (3 * g) + 0.00148 * sin (3 * g).

(** [a / b] on [float]s; [None] is [ZeroDivisionError]. *)
Definition div (a b : R) : option R :=
  if Req_dec_T b 0 then None else Some (a / b).

(** [cos_ha = (math.cos(zenith) / (math.cos(rad_lat) * math.cos(decl)))
             - (math.tan(rad_lat) * math.tan(decl))] *)
Definition cos_ha (zenith_deg : R) (g : R) : option R :=
  let rad_lat := radians LATITUDE in
  let zenith := radians zenith_deg in
  match div (cos zenith) (cos rad_lat * cos (decl g)) with
  | Some q => Some (q - tan rad_lat * tan (decl g))
  | None => None
  end.

(** [solar_noon_utc = 720 - (4 * LONGITUDE) - eqtime] *)
Definition solar_noon_utc (g : R) : R := 720 - 4 * LONGITUDE - eqtime g.

(** [int(x)] *)
Definition int (x : R) : Z := if Rle_dec 0 x then Zfloor x else Zceil x.

(** [x // y] and [x % y] *)
Definition floordiv (x y : R) : R := IZR (Zfloor (x / y)).
Definition modulo (x y : R) : R := x - y * IZR (Zfloor (x / y)).

(** [datetime(year, month, day, hour, minute)] for the fields of a date:
    [ValueError] for an hour outside 0..23 or a minute outside 0..59. *)
Definition make_datetime (date : datetime) (h mi : Z) : result datetime :=
  if ((0 <=? h) && (h <=? 23) && (0 <=? mi) && (mi <=? 59))%Z
  then Instant (mkDatetime (year date) (month date) (day date) h mi 0 0)
  else Raised.

(** The nearest integer, a tie going to the even one. *)
Definition round_half_even (x : R) : Z :=
  let f := Zfloor x in
  if Rlt_dec (x - IZR f) (1 / 2) then f
  else if Rlt_dec (1 / 2) (x - IZR f) then (f + 1)%Z
  else if Z.even f then f else (f + 1)%Z.

(** [datetime(y, m, d, tzinfo=pytz.UTC) + timedelta(minutes=utctime)], and
    then [.astimezone(SF_TZ)], which keeps the instant. *)
Definition utc_instant (date : datetime) (utctime : R) : Z :=
  (to_us (Calendar.date (year date) (month date) (day date))
   + round_half_even (utctime * 60000000))%Z.

(** The hour-angle cosine of a date, for a zenith angle in degrees. *)
Definition hour_angle_cosine (zenith_deg : R) (date : datetime) : R :=
  let g := gamma (tm_yday date) in
  cos (radians zenith_deg) / (cos (radians LATITUDE) * cos (decl g))
  - tan (radians LATITUDE) * tan (decl g).

End Solar.

(** ** automate_timelapse.py *)

Module Timelapse.
Import Calendar Solar.
Local Open Scope R_scope.

(** [get_sun_time(date, event)] *)
Definition get_sun_time (date : datetime) (event : string)
  : result datetime :=
  let lng := LONGITUDE in
  let day_of_year := tm_yday date in
  let gamma := (2 * PI / 365) * (IZR day_of_year - 1 + (12 - 12) / 24) in
  match cos_ha 90.833 gamma with
  | None => Raised
  | Some cos_ha =>
      if Rgt_dec cos_ha 1 then NoEvent
      else if Rlt_dec cos_ha (-1) then NoEvent
      else
        let ha := acos cos_ha in
        let ha := if String.eqb event "sunrise" then - ha else ha in
        let ha_deg := degrees ha in
        let solar_noon_utc := 720 - 4 * lng - eqtime gamma in
        let t1 := solar_noon_utc - 4 * ha_deg in
        let t2 := solar_noon_utc + 4 * ha_deg in
        let morning_utc := Rmin t1 t2 in
        let evening_utc := Rmax t1 t2 in
        let utctime :=
          if String.eqb event "sunrise" then morning_utc else evening_utc in
        let local_time_min := utctime - 8 * 60 in
        let local_time_min := modulo local_time_min 1440 in
        let l_hours := int (floordiv local_time_min 60) in
        let l_minutes := int (modulo local_time_min 60) in
        make_datetime date l_hours l_minutes
  end.

Local Open Scope Z_scope.

(** The call of [./make_timelapse.sh] for one event: the folder, the date
    (its ordinal) and the event that name the output file, and the frame
    range. *)
Record command : Type := mkCommand {
  cmd_folder : string;
  cmd_date : Z;
  cmd_event : string;
  cmd_start : Z;
  cmd_end : Z
}.

(** The [float]s [0.45] and [0.5] *)
Definition ratio_sunrise : Py.float := S754_finite false 8106479329266893 (-54).
Definition ratio_sunset : Py.float := S754_finite false 4503599627370496 (-53).

(** [timedelta(hours=n)] *)
Definition hours (n : Z) : Z := n * 3600000000.

Section Folder.
(** [os.path.exists] on a frame, [os.listdir] ([None] is [OSError]),
    [get_exif_timestamp], [datetime.fromtimestamp(os.path.getmtime(p))],
    and [os.path.exists] on the output file of a date and an event. *)
Variable exists_frame : string -> bool.
Variable listdir : string -> option (list string).
Variable exif : string -> option Z.
Variable mtime : string -> Z.
Variable exists_output : Z -> string -> bool.

(** [find_frames_for_event]: [Some None] is the pair [(None, None)], [None]
    an exception. *)
Definition find_frames_for_event (folder : string) (target_time : Z)
    (duration_seconds fps interval_seconds : Z) (center_ratio : Py.float)
  : option (option (Z * Z)) :=
  let first_frame_path := Py.path_join folder "TLS_000000001.jpg" in
  if negb (exists_frame first_frame_path) then Some None
  else
    let t0 :=
      match exif first_frame_path with
      | Some t0 => t0
      | None => mtime first_frame_path
      end in
    match Py.total_seconds (target_time - t0) with
    | Some target_offset_seconds =>
        match Py.float_div_int target_offset_seconds interval_seconds with
        | Some q =>
            match Py.int_of_float q with
            | Some k =>
                let target_frame := k + 1 in
                let num_frames := duration_seconds * fps in
                match Py.int_mul_float num_frames center_ratio with
                | Some x =>
                    match Py.int_of_float x with
                    | Some frames_before =>
                        let start_frame :=
                          Z.max 1 (target_frame - frames_before) in
                        let end_frame := start_frame + num_frames in
                        Some (Some (start_frame, end_frame))
                    | None => None
                    end
                | None => None
                end
            | None => None
            end
        | None => None
        end
    | None => None
    end.

(** The body of [for event in ["sunrise", "sunset"]], for the date
    [current_date]; [cmds] are the calls made so far. *)
Definition event_step (folder : string) (n_files t_start t_end : Z)
    (cmds : list command) (step : Z * string) : option (list command) :=
  let '(current_date, event) := step in
  let '(y, m, d) := ord2ymd current_date in
  match get_sun_time (Calendar.date y m d) event with
  | Raised => None
  | NoEvent => Some cmds
  | Instant sun =>
      let sun_time := to_us sun in
      if (t_start - hours 2 <=? sun_time) && (sun_time <=? t_end + hours 2)
      then
        let ratio :=
          if String.eqb event "sunrise" then ratio_sunrise else ratio_sunset in
        match find_frames_for_event folder sun_time 60 30 10 ratio with
        | Some (Some (s, e)) =>
            if (s <? n_files) && (1 <? e) then
              if exists_output current_date event then Some cmds
              else Some (cmds ++ [mkCommand folder current_date event s e])
            else Some cmds
        | Some None => Some cmds
        | None => None
        end
      else Some cmds
  end.

Fixpoint run_steps (folder : string) (n_files t_start t_end : Z)
    (steps : list (Z * string)) (cmds : list command)
  : option (list command) :=
  match steps with
  | [] => Some cmds
  | step :: steps' =>
      match event_step folder n_files t_start t_end cmds step with
      | Some cmds' => run_steps folder n_files t_start t_end steps' cmds'
      | None => None
      end
  end.

(** The dates [current_date], [current_date + 1 day], ... up to
    [end_dt_date], each with the two events. *)
Definition steps_between (current_date end_dt_date : Z) : list (Z * string) :=
  flat_map (fun k => [(current_date + Z.of_nat k, "sunrise"%string);
                      (current_date + Z.of_nat k, "sunset"%string)])
    (seq 0 (Z.to_nat (end_dt_date - current_date + 1))).

(** [process_folder]: the calls of [./make_timelapse.sh] it makes. *)
Definition process_folder (folder : string) : option (list command) :=
  let first_frame := Py.path_join folder "TLS_000000001.jpg" in
  if negb (exists_frame first_frame) then Some []
  else
    match listdir folder with
    | None => Some []
    | Some names =>
        let all_files :=
          Py.sorted
            (filter (fun f => Py.startswith f "TLS_" && Py.endswith f ".jpg")
               names) in
        match all_files with
        | [] => Some []
        | f0 :: _ =>
            let last_frame_file := last all_files f0 in
            let t_start := exif first_frame in
            let t_end := exif (Py.path_join folder last_frame_file) in
            match t_start, t_end with
            | Some t_start, Some t_end =>
                run_steps folder (Z.of_nat (List.length all_files))
                  t_start t_end
                  (steps_between (day_of t_start) (day_of t_end)) []
            | _, _ => Some []
            end
        end
    end.
End Folder.

End Timelapse.

(** ** automate_goldenhour.py *)

Module Goldenhour.
Import Py.

(** [get_sunset_time(date)] *)
Definition get_sunset_time (date : Calendar.datetime) : Solar.result Z :=
  let day_of_year := Calendar.tm_yday date in
  let gamma := Solar.gamma day_of_year in
  match Solar.cos_ha 90.833 gamma with
  | None => Solar.Raised
  | Some cos_ha =>
      if Rgt_dec cos_ha 1 then Solar.NoEvent
      else if Rlt_dec cos_ha (-1) then Solar.NoEvent
      else
        let ha_deg := Solar.degrees (acos cos_ha) in
        let utctime := (Solar.solar_noon_utc gamma + 4 * ha_deg)%R in
        Solar.Instant (Solar.utc_instant date utctime)
  end.

Section Index.
(** [get_exif_timestamp] *)
Variable exif : string -> option Z.

Definition is_tls (f : string) : bool :=
  startswith f "TLS_" && endswith f ".jpg".

(** [(tn - t0).total_seconds() / (count - 1) if count > 1 else 10] *)
Definition interval (t0 tn count : Z) : option num :=
  if 1 <? count then
    match total_seconds (tn - t0) with
    | Some s => option_map Float (float_div_int s (count - 1))
    | None => None
    end
  else Some (Int 10).

(** [(t0 + timedelta(seconds=i * interval), os.path.join(root, f))] *)
Definition frame_at (t0 : Z) (iv : num) (root : string) (p : Z * string)
  : option frame :=
  match int_mul (fst p) iv with
  | Some x =>
      match timedelta_seconds x with
      | Some d => Some (t0 + d, path_join root (snd p))
      | None => None
      end
  | None => None
  end.

(** The loop [for i, f in enumerate(tls_files): ... self.frames.append] *)
Fixpoint append_frames (t0 : Z) (iv : num) (root : string)
    (l : list (Z * string)) (frames : list frame) : option (list frame) :=
  match l with
  | [] => Some frames
  | p :: l' =>
      match frame_at t0 iv root p with
      | Some f => append_frames t0 iv root l' (frames ++ [f])
      | None => None
      end
  end.

(** The body of [for root, dirs, files in os.walk(root_dir)]; [frames] is
    [self.frames], and each [continue] leaves it as it is. *)
Definition visit (start_cutoff : option Z) (frames : list frame)
    (d : string * list string) : option (list frame) :=
  let '(root, files) := d in
  if contains "thumbnail" root then Some frames
  else
    let tls_files := sorted (filter is_tls files) in
    match tls_files with
    | [] => Some frames
    | first :: _ =>
        match exif (path_join root first) with
        | None => Some frames
        | Some t0 =>
            if match start_cutoff with
               | Some c => t0 <? c
               | None => false
               end
            then Some frames
            else
              match exif (path_join root (last tls_files first)) with
              | None => Some frames
              | Some tn =>
                  let count := Z.of_nat (List.length tls_files) in
                  match interval t0 tn count with
                  | Some iv =>
                      append_frames t0 iv root (enumerate tls_files) frames
                  | None => None
                  end
              end
        end
    end.

Fixpoint walk_loop (start_cutoff : option Z)
    (walk : list (string * list string)) (frames : list frame)
  : option (list frame) :=
  match walk with
  | [] => Some frames
  | d :: walk' =>
      match visit start_cutoff frames d with
      | Some frames' => walk_loop start_cutoff walk' frames'
      | None => None
      end
  end.

(** [GlobalTimeline.__init__]: the value of [self.frames] it leaves. *)
Definition GlobalTimeline_init (walk : list (string * list string))
    (start_cutoff : option Z) : option (list frame) :=
  option_map sort_by_ts (walk_loop start_cutoff walk []).
End Index.

(** [GlobalTimeline.get_time_window] *)
Definition get_time_window (frames : list frame) (start_time end_time : Z)
  : list frame :=
  filter (fun f => (start_time <=? ts f) && (ts f <=? end_time)) frames.

(** [timedelta(minutes=n)] for an [int] *)
Definition minutes (n : Z) : Z := n * us_per_minute.

(** The window of [__main__] for one date: [sunset] is the sunset instant,
    [target_5pm] and [target_9pm] are 17:00 and 21:00 local of that date. *)
Definition final_window (sunset target_5pm target_9pm : Z) : Z * Z :=
  let s_win := sunset - minutes 150 in
  let e_win := sunset + minutes 120 in
  let final_start := Z.min s_win target_5pm in
  let final_end := Z.min e_win target_9pm in
  (final_start, final_end).

(** [frames = timeline.get_time_window(final_start, final_end)] *)
Definition window_frames (frames : list frame)
    (sunset target_5pm target_9pm : Z) : list frame :=
  let '(final_start, final_end) := final_window sunset target_5pm target_9pm in
  get_time_window frames final_start final_end.

End Goldenhour.

(** ** automate_rewind.py

    [get_exif_timestamp], [GlobalTimeline] and [get_time_window] have the
    text of automate_goldenhour.py. *)

Module Rewind.
Import Py.

(** [get_sun_time(date, zenith_deg)] *)
Definition get_sun_time (date : Calendar.datetime) (zenith_deg : R)
  : Solar.result Z :=
  let day_of_year := Calendar.tm_yday date in
  let gamma := Solar.gamma day_of_year in
  match Solar.cos_ha zenith_deg gamma with
  | None => Solar.Raised
  | Some cos_ha =>
      if Rgt_dec cos_ha 1 then Solar.NoEvent
      else if Rlt_dec cos_ha (-1) then Solar.NoEvent
      else
        let ha_deg := Solar.degrees (acos cos_ha) in
        let utctime := (Solar.solar_noon_utc gamma + 4 * ha_deg)%R in
        Solar.Instant (Solar.utc_instant date utctime)
  end.

Definition GlobalTimeline_init := Goldenhour.GlobalTimeline_init.
Definition get_time_window := Goldenhour.get_time_window.

(** [rewind_frames] of [create_video_with_rewind] *)
Definition rewind_frames (frame_list : list frame) : list frame :=
  let N := Z.of_nat (List.length frame_list) in
  let M := 45 in
  let step := Z.max 1 (N / M) in
  slice_rev frame_list step.

(** [create_video_with_rewind]: the [full_list] it renders. *)
Definition create_video_with_rewind (frame_list : list frame) : list frame :=
  frame_list ++ rewind_frames frame_list.

(** The window of [__main__]: [nautical_dusk] is the second event. *)
Definition final_window (sunset nautical_dusk target_5pm : Z) : Z * Z :=
  let s_win := sunset - Goldenhour.minutes 150 in
  let final_start := Z.min s_win target_5pm in
  let final_end := nautical_dusk in
  (final_start, final_end).

Definition window_frames (frames : list frame)
    (sunset nautical_dusk target_5pm : Z) : list frame :=
  let '(final_start, final_end) := final_window sunset nautical_dusk target_5pm in
  get_time_window frames final_start final_end.

End Rewind.

(** ** automate_overlapping_timelapse.py *)

Module Overlapping.
Import Py.

(** [get_local_offset(dt)] *)
Definition get_local_offset (dt : Calendar.datetime) : Z :=
  let year := Calendar.year dt in
  match
    (if year =? 2025
     then Some (Calendar.date_hour 2025 3 9 2, Calendar.date_hour 2025 11 2 2)
     else if year =? 2026
     then Some (Calendar.date_hour 2026 3 8 2, Calendar.date_hour 2026 11 1 2)
     else None)
  with
  | None => -8
  | Some (dst_start, dst_end) =>
      if Calendar.dt_le dst_start dt && Calendar.dt_lt dt dst_end then -7
      else -8
  end.

(** [get_sun_time(date, event)] *)
Definition get_sun_time (date : Calendar.datetime) (event : string)
  : Solar.result Calendar.datetime :=
  let day_of_year := Calendar.tm_yday date in
  let gamma := Solar.gamma day_of_year in
  match Solar.cos_ha 90.833 gamma with
  | None => Solar.Raised
  | Some cos_ha =>
      if Rgt_dec cos_ha 1 then Solar.NoEvent
      else if Rlt_dec cos_ha (-1) then Solar.NoEvent
      else
        let ha := acos cos_ha in
        let ha_deg := Solar.degrees ha in
        let solar_noon_utc := Solar.solar_noon_utc gamma in
        let t1 := (solar_noon_utc - 4 * ha_deg)%R in
        let t2 := (solar_noon_utc + 4 * ha_deg)%R in
        let morning_utc := Rmin t1 t2 in
        let evening_utc := Rmax t1 t2 in
        let utctime :=
          if String.eqb event "sunrise" then morning_utc else evening_utc in
        let offset := get_local_offset date in
        let local_time_min :=
          Solar.modulo (utctime + IZR offset * 60)%R 1440 in
        Solar.make_datetime date
          (Solar.int (Solar.floordiv local_time_min 60))
          (Solar.int (Solar.modulo local_time_min 60))
  end.

(** [CUTOFF_DATE = datetime(2025, 3, 20)] *)
Definition CUTOFF_DATE : Z := Calendar.to_us (Calendar.date 2025 3 20).

Section Index.
Variable exif : string -> option Z.

Definition is_tls (f : string) : bool :=
  startswith f "TLS_" && endswith f ".jpg".

(** [(t0 + timedelta(seconds=i * 10), os.path.join(root, f))] *)
Definition frame_at (t0 : Z) (root : string) (p : Z * string) : frame :=
  (t0 + (fst p * 10) * us_per_second, path_join root (snd p)).

Definition visit (frames : list frame) (d : string * list string)
  : list frame :=
  let '(root, files) := d in
  if contains "thumbnail" root then frames
  else
    let tls_files := sorted (filter is_tls files) in
    match tls_files with
    | [] => frames
    | first :: _ =>
        match exif (path_join root first) with
        | None => frames
        | Some t0 =>
            if t0 <? CUTOFF_DATE then frames
            else
              match exif (path_join root (last tls_files first)) with
              | None => frames
              | Some tn =>
                  frames ++ map (frame_at t0 root) (enumerate tls_files)
              end
        end
    end.

(** [GlobalTimeline.__init__]: the value of [self.frames] it leaves. *)
Definition GlobalTimeline_init (walk : list (string * list string))
  : list frame :=
  sort_tuples (fold_left visit walk []).
End Index.

(** [frames_before = int(num_frames * center_ratio)] *)
Definition frames_before (num_frames : Z) (center_ratio : float) : option Z :=
  match int_mul_float num_frames center_ratio with
  | Some x => int_of_float x
  | None => None
  end.

(** [idx = bisect.bisect_left(self.frames, (target_time, ""))] *)
Definition anchor_index (frames : list frame) (target_time : Z) : Z :=
  Z.of_nat (bisect_left tuple_lt frames (target_time, ""%string)).

(** The index range [(start_idx, end_idx)] of [get_range]. *)
Definition range_indices (len idx frames_before num_frames : Z) : Z * Z :=
  let start_idx := Z.max 0 (idx - frames_before) in
  let end_idx := start_idx + num_frames in
  if len <? end_idx then (Z.max 0 (len - num_frames), len)
  else (start_idx, end_idx).

(** [GlobalTimeline.get_range]: the value of [self.frames] it leaves (the
    method sorts it again) and the list it returns. *)
Definition get_range (frames : list frame) (target_time duration_sec : Z)
    (center_ratio : float) : option (list frame * list frame) :=
  let num_frames := duration_sec * 30 in
  match frames_before num_frames center_ratio with
  | Some before =>
      let frames := sort_tuples frames in
      let idx := anchor_index frames target_time in
      let '(start_idx, end_idx) :=
        range_indices (Z.of_nat (List.length frames)) idx before num_frames in
      Some (frames, slice frames start_idx end_idx)
  | None => None
  end.

(** The [float]s [0.7] and [0.5] of [__main__] *)
Definition ratio_sunrise : float := S754_finite false 6305039478318694 (-53).
Definition ratio_sunset : float := S754_finite false 4503599627370496 (-53).

(** A call of [create_overlapping_timelapse]: the date (its ordinal) and the
    event that name the output file, and the frames of the clip. *)
Record clip : Type := mkClip {
  clip_date : Z;
  clip_event : string;
  clip_frames : list frame
}.

(** [create_overlapping_timelapse]: the symbolic links it makes, each with
    the path it points to and its own path, and the numbers of the first
    and the last frame it gives to [./make_timelapse.sh]. *)
Definition link_name (i : Z) : string :=
  ("TLS_" ++ format_09d (i + 1) ++ ".jpg")%string.

Definition create_overlapping_timelapse (frame_list : list frame)
  : list (string * string) * (Z * Z) :=
  (map (fun p => (path (snd p), path_join "tmp_frames" (link_name (fst p))))
     (enumerate frame_list),
   (1, Z.of_nat (List.length frame_list))).

Section Main.
(** [os.path.exists] on the output file of a date and an event. *)
Variable exists_output : Z -> string -> bool.

(** The body of [for event in ["sunrise", "sunset"]] for the date [curr]:
    the state is [timeline.frames] and the clips made so far.  [None] is an
    exception. *)
Definition event_step (st : list frame * list clip) (step : Z * string)
  : option (list frame * list clip) :=
  let '(frames, clips) := st in
  let '(curr, event) := step in
  let '(y, m, d) := Calendar.ord2ymd curr in
  match get_sun_time (Calendar.date y m d) event with
  | Solar.Raised => None
  | Solar.NoEvent => Some st
  | Solar.Instant target =>
      let target := Calendar.to_us target in
      match frames with
      | [] => None
      | first :: _ =>
          if (ts first <=? target) && (target <=? ts (last frames first))
          then
            let ratio :=
              if String.eqb event "sunrise" then ratio_sunrise
              else ratio_sunset in
            match get_range frames target 60 ratio with
            | Some (frames', range) =>
                match range with
                | [] => Some (frames', clips)
                | _ :: _ =>
                    if exists_output curr event then Some (frames', clips)
                    else Some (frames', clips ++ [mkClip curr event range])
                end
            | None => None
            end
          else Some st
      end
  end.

Fixpoint run_steps (steps : list (Z * string)) (st : list frame * list clip)
  : option (list frame * list clip) :=
  match steps with
  | [] => Some st
  | step :: steps' =>
      match event_step st step with
      | Some st' => run_steps steps' st'
      | None => None
      end
  end.

End Main.

End Overlapping.

(** * Vocabulary of the properties *)

(** Order on frames: by timestamp, and as tuples. *)
Definition ts_le (a b : Py.frame) : Prop := Py.ts a <= Py.ts b.

Definition tuple_le (a b : Py.frame) : Prop := Py.tuple_lt b a = false.

(** The frames with timestamp [t] *)
Definition has_ts (t : Z) (f : Py.frame) : bool := Py.ts f =? t.

(** A session whose first or last frame has no readable capture time. *)
Definition unreadable (exif : string -> option Z) (root : string)
    (files : list string) : Prop :=
  exists first rest,
    Py.sorted (filter Goldenhour.is_tls files) = first :: rest /\
    (exif (Py.path_join root first) = None \/
     exif (Py.path_join root (last (first :: rest) first)) = None).

(** The same for a folder of automate_timelapse.py, whose first frame is
    [TLS_000000001.jpg] and whose last frame is the last name listed. *)
Definition unreadable_folder (listdir : string -> option (list string))
    (exif : string -> option Z) (folder : string) : Prop :=
  exif (Py.path_join folder "TLS_000000001.jpg") = None \/
  exists names f0 rest,
    listdir folder = Some names /\
    Py.sorted (filter Goldenhour.is_tls names) = f0 :: rest /\
    exif (Py.path_join folder (last (f0 :: rest) f0)) = None.

(** The ceiling of [a / b], for [b > 0]. *)
Definition ceil_div (a b : Z) : Z := - ((- a) / b).

(** A directory that holds a session: its frames [tls_files], in the order
    of their names, and the capture times read from the first and the last
    one. *)
Definition session (exif : string -> option Z) (root : string)
    (files tls_files : list string) (t0 tn : Z) : Prop :=
  Py.contains "thumbnail" root = false /\
  Py.sorted (filter Goldenhour.is_tls files) = tls_files /\
  exists first rest,
    tls_files = first :: rest /\
    exif (Py.path_join root first) = Some t0 /\
    exif (Py.path_join root (last tls_files first)) = Some tn.

(** The test [start_cutoff and t0 < start_cutoff] fails. *)
Definition not_cut_off (cutoff : option Z) (t0 : Z) : Prop :=
  match cutoff with
  | Some c => t0 <? c
  | None => false
  end = false.

(** [t0 + timedelta(seconds=i * ((tn - t0).total_seconds() / (count - 1)))]:
    the value of the claimed formula in the arithmetic of the script, the
    quotient and the product in double precision and the offset rounded to
    a whole microsecond. *)
Definition interpolated (t0 tn count i : Z) : option Z :=
  match Py.total_seconds (tn - t0) with
  | Some s =>
      match Py.float_div_int s (count - 1) with
      | Some iv =>
          match Py.int_mul_float i iv with
          | Some x =>
              match Py.timedelta_of_float Py.us_per_second x with
              | Some d => Some (t0 + d)
              | None => None
              end
          | None => None
          end
      | None => None
      end
  | None => None
  end.

(** [float(n)] for an integer [0 < n < 2^53]: the mantissa of 53 bits and
    the exponent of [n]. *)
Definition canon (n : Z) : Py.float :=
  S754_finite false (Z.to_pos (n * 2 ^ (53 - Zdigits2 n))) (Zdigits2 n - 53).

(** Reference: America/Los_Angeles in the tz database for the years from
    2007 on, on wall-clock times: daylight time, UTC-7, from 02:00 on the
    second Sunday of March until 02:00 on the first Sunday of November, and
    standard time, UTC-8, otherwise. *)
Definition first_sunday (y m : Z) : Z :=
  1 + (6 - Calendar.weekday y m 1) mod 7.

Definition dst_start (y : Z) : Calendar.datetime :=
  Calendar.date_hour y 3 (first_sunday y 3 + 7) 2.

Definition dst_end (y : Z) : Calendar.datetime :=
  Calendar.date_hour y 11 (first_sunday y 11) 2.

Definition los_angeles_offset (dt : Calendar.datetime) : Z :=
  if Calendar.dt_le (dst_start (Calendar.year dt)) dt
     && Calendar.dt_lt dt (dst_end (Calendar.year dt))
  then -7 else -8.





(** The last [k] decimal digits of [n], zeros included, in front of [acc]. *)
Fixpoint fixed_digits (k : nat) (n : Z) (acc : string) : string :=
  match k with
  | O => acc
  | S k' => fixed_digits k' (n / 10) (String (Py.digit (n mod 10)) acc)
  end.

(** * Example inputs *)

Definition noon_2025_10_01 : Z :=
  Calendar.to_us (Calendar.mkDatetime 2025 10 1 12 0 0 0).

(** Two sessions that start at the same instant, the directory [b] visited
    before the directory [a]. *)
Definition tied_exif (p : string) : option Z :=
  if String.eqb p "b/TLS_000000001.jpg" then Some noon_2025_10_01
  else if String.eqb p "a/TLS_000000001.jpg" then Some noon_2025_10_01
  else None.

Definition tied_walk : list (string * list string) :=
  [("b", ["TLS_000000001.jpg"]); ("a", ["TLS_000000001.jpg"])]%string.

(** A reader that finds no capture time in the second frame of the
    directory [b]. *)
Definition gap_exif (p : string) : option Z :=
  if String.eqb p "a/TLS_000000001.jpg" then Some noon_2025_10_01
  else if String.eqb p "b/TLS_000000001.jpg" then Some noon_2025_10_01
  else if String.eqb p "c/TLS_000000001.jpg" then Some noon_2025_10_01
  else None.

Definition three_digits (i : nat) : string :=
  String (ascii_of_nat (48 + i / 100))
    (String (ascii_of_nat (48 + (i / 10) mod 10))
       (String (ascii_of_nat (48 + i mod 10)) EmptyString)).

(** The names [TLS_000000001.jpg], ..., of the [n] frames of a session. *)
Definition session_files (n : nat) : list string :=
  map (fun i => ("TLS_000000" ++ three_digits i ++ ".jpg")%string) (seq 1 n).

(** A session of 33 frames, ten seconds apart, from 12:00:00 to 12:05:20,
    and its index. *)
Definition short_exif (p : string) : option Z :=
  if String.eqb p "a/TLS_000000001.jpg" then Some noon_2025_10_01
  else if String.eqb p "a/TLS_000000033.jpg"
  then Some (Calendar.to_us (Calendar.mkDatetime 2025 10 1 12 5 20 0))
  else None.

Definition short_index : list Py.frame :=
  Overlapping.GlobalTimeline_init short_exif
    [("a"%string, session_files 33)].

(** 12:02:40, the timestamp of the frame 16 of that index, and 12:05:10,
    the timestamp of its frame 31. *)
Definition anchor_12_02_40 : Z :=
  Calendar.to_us (Calendar.mkDatetime 2025 10 1 12 2 40 0).

Definition anchor_12_05_10 : Z :=
  Calendar.to_us (Calendar.mkDatetime 2025 10 1 12 5 10 0).

(** The [float]s [1.0] and [0.5] *)
Definition one : Py.float := S754_finite false 4503599627370496 (-52).

Definition center : Py.float := S754_finite false 4503599627370496 (-53).

(** A session of two frames, twenty seconds apart. *)
Definition twenty_past_noon : Z :=
  Calendar.to_us (Calendar.mkDatetime 2025 10 1 12 0 20 0).

Definition twenty_exif (p : string) : option Z :=
  if String.eqb p "a/TLS_000000001.jpg" then Some noon_2025_10_01
  else if String.eqb p "a/TLS_000000002.jpg" then Some twenty_past_noon
  else None.

Definition twenty_walk : list (string * list string) :=
  [("a", ["TLS_000000001.jpg"; "TLS_000000002.jpg"])]%string.

(** The session of the concrete case: 101 frames, the first at 12:00:00 and
    the last at 12:16:40. *)
Definition sixteen_forty_past_noon : Z :=
  Calendar.to_us (Calendar.mkDatetime 2025 10 1 12 16 40 0).

Definition eight_twenty_past_noon : Z :=
  Calendar.to_us (Calendar.mkDatetime 2025 10 1 12 8 20 0).

Definition hundred_exif (p : string) : option Z :=
  if String.eqb p "s/TLS_000000001.jpg" then Some noon_2025_10_01
  else if String.eqb p "s/TLS_000000101.jpg" then Some sixteen_forty_past_noon
  else None.

Definition hundred_walk : list (string * list string) :=
  [("s"%string, session_files 101)].

(** * Properties *)

(** ** The sort *)

Section SortFacts.
Context {A : Type} (lt : A -> A -> bool).

Lemma insert_perm (x : A) (l : list A) :
  Permutation (x :: l) (Py.insert lt x l).
Proof.
  induction l as [|y l IH]; simpl.
  - apply Permutation_refl.
  - destruct (lt y x).
    + eapply perm_trans; [apply perm_swap|].
      now apply perm_skip.
    + apply Permutation_refl.
Qed.

Lemma list_sort_perm (l : list A) : Permutation l (Py.list_sort lt l).
Proof.
  induction l as [|x l IH]; simpl.
  - constructor.
  - eapply perm_trans; [|apply insert_perm].
    now apply perm_skip.
Qed.

Lemma list_sort_length (l : list A) :
  List.length (Py.list_sort lt l) = List.length l.
Proof. symmetry. apply Permutation_length, list_sort_perm. Qed.

Section Ordered.
Variable le : A -> A -> Prop.
Hypothesis le_trans : forall a b c, le a b -> le b c -> le a c.
Hypothesis lt_le : forall a b, lt a b = true -> le a b.
Hypothesis nlt_le : forall a b, lt a b = false -> le b a.

Lemma insert_hd (x y : A) (l : list A) :
  HdRel le y l -> le y x -> HdRel le y (Py.insert lt x l).
Proof.
  intros Hhd Hyx. destruct l as [|z l]; simpl.
  - now constructor.
  - destruct (lt z x); constructor; auto.
    now inversion Hhd.
Qed.

Lemma insert_sorted (x : A) (l : list A) :
  Sorted le l -> Sorted le (Py.insert lt x l).
Proof.
  induction 1 as [|y l Hs IH Hhd]; simpl.
  - repeat constructor.
  - destruct (lt y x) eqn:E.
    + constructor; [exact IH|].
      apply insert_hd; auto.
    + constructor; [now constructor|].
      constructor. now apply nlt_le.
Qed.

Lemma list_sort_sorted (l : list A) :
  StronglySorted le (Py.list_sort lt l).
Proof.
  apply Sorted_StronglySorted.
  - exact le_trans.
  - induction l as [|x l IH]; simpl.
    + constructor.
    + now apply insert_sorted.
Qed.
End Ordered.

Section Stable.
(** [p] selects a class of elements that [lt] never separates. *)
Variable p : A -> bool.
Hypothesis lt_apart :
  forall a b, lt a b = true -> p a = true -> p b = true -> False.

Lemma insert_filter (x : A) (l : list A) :
  filter p (Py.insert lt x l) = filter p (x :: l).
Proof.
  induction l as [|y l IH]; simpl; [reflexivity|].
  destruct (lt y x) eqn:E; [|reflexivity].
  simpl. rewrite IH. simpl.
  destruct (p y) eqn:Py, (p x) eqn:Px; try reflexivity.
  exfalso. eapply lt_apart; eauto.
Qed.

Lemma list_sort_stable (l : list A) :
  filter p (Py.list_sort lt l) = filter p l.
Proof.
  induction l as [|x l IH]; simpl; [reflexivity|].
  rewrite insert_filter. simpl. now rewrite IH.
Qed.
End Stable.
End SortFacts.

Lemma ts_le_trans (a b c : Py.frame) : ts_le a b -> ts_le b c -> ts_le a c.
Proof. unfold ts_le. lia. Qed.

Lemma str_compare_refl (s : string) : String.compare s s = Eq.
Proof.
  induction s as [|c s IH]; simpl; [reflexivity|].
  unfold Ascii.compare. now rewrite N.compare_refl.
Qed.

Lemma str_compare_trans (c : comparison) (s1 s2 s3 : string) :
  String.compare s1 s2 = c -> String.compare s2 s3 = c ->
  String.compare s1 s3 = c.
Proof.
  revert s2 s3.
  induction s1 as [|a1 s1 IH]; intros [|a2 s2] [|a3 s3]; simpl;
    try congruence.
  unfold Ascii.compare.
  destruct (N.compare_spec (N_of_ascii a1) (N_of_ascii a2)) as [E12|L12|G12];
  destruct (N.compare_spec (N_of_ascii a2) (N_of_ascii a3)) as [E23|L23|G23];
    intros H1 H2; subst; try congruence.
  - rewrite E12, E23, N.compare_refl. eapply IH; eauto.
  - rewrite E12. now apply N.compare_lt_iff in L23; rewrite L23.
  - rewrite E12. now apply N.compare_gt_iff in G23; rewrite G23.
  - rewrite <- E23. now apply N.compare_lt_iff in L12; rewrite L12.
  - assert (L : (N_of_ascii a1 < N_of_ascii a3)%N) by lia.
    now apply N.compare_lt_iff in L; rewrite L.
  - rewrite <- E23. now apply N.compare_gt_iff in G12; rewrite G12.
  - assert (L : (N_of_ascii a3 < N_of_ascii a1)%N) by lia.
    now apply N.compare_gt_iff in L; rewrite L.
Qed.

Lemma str_lt_empty (s : string) : Py.str_lt s "" = false.
Proof. now destruct s. Qed.

Lemma tuple_lt_ts (a b : Py.frame) : Py.tuple_lt a b = true -> ts_le a b.
Proof.
  unfold Py.tuple_lt, ts_le. destruct (Z.eqb_spec (Py.ts a) (Py.ts b)); [lia|].
  intros H. apply Z.ltb_lt in H. lia.
Qed.

Lemma tuple_nlt_ts (a b : Py.frame) : Py.tuple_lt a b = false -> ts_le b a.
Proof.
  unfold Py.tuple_lt, ts_le. destruct (Z.eqb_spec (Py.ts a) (Py.ts b)); [lia|].
  intros H. apply Z.ltb_ge in H. lia.
Qed.

Lemma tuple_le_trans (a b c : Py.frame) :
  tuple_le a b -> tuple_le b c -> tuple_le a c.
Proof.
  unfold tuple_le, Py.tuple_lt, Py.str_lt, String.ltb.
  destruct a as [ta pa], b as [tb pb], c as [tc pc]; simpl.
  destruct (Z.eqb_spec tb ta), (Z.eqb_spec tc tb), (Z.eqb_spec tc ta);
    try lia; subst; intros H1 H2;
    try (apply Z.ltb_ge in H1); try (apply Z.ltb_ge in H2);
    try (apply Z.ltb_ge; lia); try lia; try assumption.
  destruct (String.compare pc pa) eqn:E; try reflexivity.
  destruct (String.compare pb pa) eqn:E1; try discriminate;
  destruct (String.compare pc pb) eqn:E2; try discriminate.
  - apply String.compare_eq_iff in E1, E2. subst.
    now rewrite str_compare_refl in E.
  - apply String.compare_eq_iff in E1. subst. congruence.
  - apply String.compare_eq_iff in E2. subst. congruence.
  - rewrite (str_compare_trans Gt pc pb pa E2 E1) in E. discriminate.
Qed.

Lemma sort_by_ts_sorted (l : list Py.frame) :
  StronglySorted ts_le (Py.sort_by_ts l).
Proof.
  apply list_sort_sorted.
  - exact ts_le_trans.
  - intros a b H. apply Z.ltb_lt in H. unfold ts_le. lia.
  - intros a b H. apply Z.ltb_ge in H. exact H.
Qed.

Lemma sort_by_ts_stable (t : Z) (l : list Py.frame) :
  filter (has_ts t) (Py.sort_by_ts l) = filter (has_ts t) l.
Proof.
  apply list_sort_stable.
  intros a b H Ha Hb. unfold has_ts in *.
  apply Z.ltb_lt in H. apply Z.eqb_eq in Ha, Hb. lia.
Qed.

Lemma sort_tuples_sorted_ts (l : list Py.frame) :
  StronglySorted ts_le (Py.sort_tuples l).
Proof.
  apply list_sort_sorted.
  - exact ts_le_trans.
  - exact tuple_lt_ts.
  - exact tuple_nlt_ts.
Qed.

Lemma sort_tuples_sorted (l : list Py.frame) :
  StronglySorted tuple_le (Py.sort_tuples l).
Proof.
  apply list_sort_sorted.
  - exact tuple_le_trans.
  - intros a b H. unfold tuple_le.
    unfold Py.tuple_lt, Py.str_lt, String.ltb in *.
    destruct (Z.eqb_spec (Py.ts a) (Py.ts b)) as [E|E].
    + rewrite E, Z.eqb_refl. rewrite String.compare_antisym.
      now destruct (String.compare (Py.path a) (Py.path b)).
    + destruct (Z.eqb_spec (Py.ts b) (Py.ts a)); [congruence|].
      apply Z.ltb_lt in H. apply Z.ltb_ge. lia.
  - intros a b H. exact H.
Qed.

(** ** The index after [GlobalTimeline.__init__] *)

Lemma golden_walk_loop_app (exif : string -> option Z) (cutoff : option Z)
    (w1 w2 : list (string * list string)) (frames : list Py.frame) :
  Goldenhour.walk_loop exif cutoff (w1 ++ w2) frames =
  match Goldenhour.walk_loop exif cutoff w1 frames with
  | Some frames' => Goldenhour.walk_loop exif cutoff w2 frames'
  | None => None
  end.
Proof.
  revert frames. induction w1 as [|d w1 IH]; intros frames; simpl.
  - reflexivity.
  - destruct (Goldenhour.visit exif cutoff frames d); [apply IH|reflexivity].
Qed.

Lemma golden_visit_unreadable (exif : string -> option Z) (cutoff : option Z)
    (frames : list Py.frame) (root : string) (files : list string) :
  unreadable exif root files ->
  Goldenhour.visit exif cutoff frames (root, files) = Some frames.
Proof.
  intros (first & rest & Hs & Hnone). unfold Goldenhour.visit.
  destruct (Py.contains "thumbnail" root); [reflexivity|].
  rewrite Hs.
  destruct (exif (Py.path_join root first)) as [t0|] eqn:E0; [|reflexivity].
  destruct Hnone as [H|H]; [discriminate|].
  rewrite H. now destruct (match cutoff with Some c => t0 <? c | None => false end).
Qed.

Lemma overlapping_visit_unreadable (exif : string -> option Z)
    (frames : list Py.frame) (root : string) (files : list string) :
  unreadable exif root files ->
  Overlapping.visit exif frames (root, files) = frames.
Proof.
  intros (first & rest & Hs & Hnone). unfold Overlapping.visit.
  destruct (Py.contains "thumbnail" root); [reflexivity|].
  change Overlapping.is_tls with Goldenhour.is_tls. rewrite Hs.
  destruct (exif (Py.path_join root first)) as [t0|] eqn:E0; [|reflexivity].
  destruct Hnone as [H|H]; [discriminate|].
  rewrite H. now destruct (t0 <? Overlapping.CUTOFF_DATE).
Qed.

(** C3, as stated, fails in automate_overlapping_timelapse.py: the two frames
    have the same timestamp and were appended in the order b, a, and the
    index holds them in the order a, b. *)
Lemma overlapping_ties_not_in_discovery_order :
  fold_left (Overlapping.visit tied_exif) tied_walk [] =
    [(noon_2025_10_01, "b/TLS_000000001.jpg");
     (noon_2025_10_01, "a/TLS_000000001.jpg")]%string /\
  Overlapping.GlobalTimeline_init tied_exif tied_walk =
    [(noon_2025_10_01, "a/TLS_000000001.jpg");
     (noon_2025_10_01, "b/TLS_000000001.jpg")]%string /\
  filter (has_ts noon_2025_10_01)
    (Overlapping.GlobalTimeline_init tied_exif tied_walk) <>
  filter (has_ts noon_2025_10_01)
    (fold_left (Overlapping.visit tied_exif) tied_walk []).
Proof.
  split; [|split]; try (vm_compute; reflexivity).
  vm_compute. discriminate.
Qed.

(** C3 (amended).  After [GlobalTimeline.__init__] the index is a
    rearrangement of the appended frames that is non-decreasing in
    timestamp, for every sequence of visited directories.  In
    automate_goldenhour.py and automate_rewind.py (sort keyed on the
    timestamp) frames with equal timestamps keep the order in which they were
    appended; in automate_overlapping_timelapse.py (sort of the tuples) they
    are ordered by path. *)
Theorem index_sorted_by_timestamp (exif : string -> option Z)
    (walk : list (string * list string)) :
  (forall cutoff raw,
     Goldenhour.walk_loop exif cutoff walk [] = Some raw ->
     exists frames,
       Goldenhour.GlobalTimeline_init exif walk cutoff = Some frames /\
       Rewind.GlobalTimeline_init exif walk cutoff = Some frames /\
       StronglySorted ts_le frames /\
       Permutation raw frames /\
       forall t, filter (has_ts t) frames = filter (has_ts t) raw) /\
  StronglySorted ts_le (Overlapping.GlobalTimeline_init exif walk) /\
  Permutation (fold_left (Overlapping.visit exif) walk [])
    (Overlapping.GlobalTimeline_init exif walk) /\
  StronglySorted tuple_le (Overlapping.GlobalTimeline_init exif walk).
Proof.
  split; [|split; [|split]].
  - intros cutoff raw Hraw. exists (Py.sort_by_ts raw).
    unfold Rewind.GlobalTimeline_init, Goldenhour.GlobalTimeline_init.
    rewrite Hraw. simpl. repeat split.
    + apply sort_by_ts_sorted.
    + apply list_sort_perm.
    + intros t. apply sort_by_ts_stable.
  - apply sort_tuples_sorted_ts.
  - apply list_sort_perm.
  - apply sort_tuples_sorted.
Qed.

Lemma index_sorted_by_timestamp_witness :
  exists frames,
    Goldenhour.GlobalTimeline_init tied_exif tied_walk None = Some frames /\
    Rewind.GlobalTimeline_init tied_exif tied_walk None = Some frames /\
    StronglySorted ts_le frames /\
    Permutation
      [(noon_2025_10_01, "b/TLS_000000001.jpg");
       (noon_2025_10_01, "a/TLS_000000001.jpg")]%string frames /\
    forall t,
      filter (has_ts t) frames =
      filter (has_ts t)
        [(noon_2025_10_01, "b/TLS_000000001.jpg");
         (noon_2025_10_01, "a/TLS_000000001.jpg")]%string.
Proof.
  apply (proj1 (index_sorted_by_timestamp tied_exif tied_walk) None).
  vm_compute. reflexivity.
Defined.

Section FolderFacts.
Variable exists_frame : string -> bool.
Variable listdir : string -> option (list string).
Variable exif : string -> option Z.
Variable exists_output : Z -> string -> bool.

Lemma process_folder_unreadable (mtime : string -> Z) (folder : string) :
  unreadable_folder listdir exif folder ->
  Timelapse.process_folder exists_frame listdir exif mtime exists_output
    folder = Some [].
Proof.
  intros Hu. unfold Timelapse.process_folder.
  destruct (negb (exists_frame (Py.path_join folder "TLS_000000001.jpg")));
    [reflexivity|].
  destruct (listdir folder) as [names|] eqn:El; [|reflexivity].
  change (fun f : string => Py.startswith f "TLS_" && Py.endswith f ".jpg")
    with Goldenhour.is_tls.
  destruct (Py.sorted (filter Goldenhour.is_tls names)) as [|f0 rest] eqn:Es;
    [reflexivity|].
  destruct Hu as [H|(names' & f0' & rest' & Hl & Hs & H)].
  - rewrite H. reflexivity.
  - assert (names' = names) by congruence. subst names'.
    rewrite Es in Hs. injection Hs as <- <-. rewrite H.
    now destruct (exif (Py.path_join folder "TLS_000000001.jpg")).
Qed.

(** Once the first frame was read, the modification time plays no part. *)
Lemma find_frames_mtime (mtime1 mtime2 : string -> Z) (folder : string)
    (target_time duration_seconds fps interval_seconds : Z)
    (center_ratio : Py.float) (t0 : Z) :
  exif (Py.path_join folder "TLS_000000001.jpg") = Some t0 ->
  Timelapse.find_frames_for_event exists_frame exif mtime1 folder target_time
    duration_seconds fps interval_seconds center_ratio =
  Timelapse.find_frames_for_event exists_frame exif mtime2 folder target_time
    duration_seconds fps interval_seconds center_ratio.
Proof.
  intros H. unfold Timelapse.find_frames_for_event. now rewrite H.
Qed.

Lemma run_steps_mtime (mtime1 mtime2 : string -> Z) (folder : string)
    (n_files t_start t_end t0 : Z) (steps : list (Z * string)) :
  exif (Py.path_join folder "TLS_000000001.jpg") = Some t0 ->
  forall cmds,
    Timelapse.run_steps exists_frame exif mtime1 exists_output folder n_files
      t_start t_end steps cmds =
    Timelapse.run_steps exists_frame exif mtime2 exists_output folder n_files
      t_start t_end steps cmds.
Proof.
  intros H. induction steps as [|step steps IH]; intros cmds;
    cbn [Timelapse.run_steps]; [reflexivity|].
  assert (E : Timelapse.event_step exists_frame exif mtime1 exists_output
                folder n_files t_start t_end cmds step =
              Timelapse.event_step exists_frame exif mtime2 exists_output
                folder n_files t_start t_end cmds step).
  { unfold Timelapse.event_step. destruct step as [current_date event].
    destruct (Calendar.ord2ymd current_date) as [[y m] d].
    destruct (Timelapse.get_sun_time (Calendar.date y m d) event);
      try reflexivity.
    now rewrite (find_frames_mtime mtime1 mtime2 folder _ _ _ _ _ t0 H). }
  rewrite E.
  destruct (Timelapse.event_step exists_frame exif mtime2 exists_output folder
              n_files t_start t_end cmds step); [apply IH|reflexivity].
Qed.

(** [process_folder] never uses the fallback of [find_frames_for_event]:
    what it does is the same for every modification time. *)
Lemma process_folder_mtime (mtime1 mtime2 : string -> Z) (folder : string) :
  Timelapse.process_folder exists_frame listdir exif mtime1 exists_output
    folder =
  Timelapse.process_folder exists_frame listdir exif mtime2 exists_output
    folder.
Proof.
  unfold Timelapse.process_folder.
  destruct (negb (exists_frame (Py.path_join folder "TLS_000000001.jpg")));
    [reflexivity|].
  destruct (listdir folder) as [names|]; [|reflexivity].
  destruct (Py.sorted _) as [|f0 rest]; [reflexivity|].
  destruct (exif (Py.path_join folder "TLS_000000001.jpg")) as [t0|] eqn:E0;
    [|reflexivity].
  destruct (exif (Py.path_join folder (last (f0 :: rest) f0))); [|reflexivity].
  now apply run_steps_mtime with t0.
Qed.
End FolderFacts.

(** C9.  A session whose first or last frame has no readable capture time
    is skipped as a whole by [GlobalTimeline.__init__], in all three scripts
    that build the index: the visit of its directory leaves [self.frames]
    as it was, and the index is the one built as if the directory were not
    there, so the sessions after it are processed as usual.
    automate_timelapse.py builds no index; its [process_folder] leaves such
    a folder without a call, and it reaches [find_frames_for_event] only
    after both reads succeeded, so that the modification time this function
    would take in place of a missing capture time plays no part. *)
Theorem unreadable_session_skipped (exif : string -> option Z)
    (pre post : list (string * list string)) (root : string)
    (files : list string) :
  unreadable exif root files ->
  (forall cutoff frames,
     Goldenhour.visit exif cutoff frames (root, files) = Some frames) /\
  (forall frames, Overlapping.visit exif frames (root, files) = frames) /\
  (forall cutoff,
     Goldenhour.GlobalTimeline_init exif (pre ++ (root, files) :: post) cutoff =
     Goldenhour.GlobalTimeline_init exif (pre ++ post) cutoff) /\
  (forall cutoff,
     Rewind.GlobalTimeline_init exif (pre ++ (root, files) :: post) cutoff =
     Rewind.GlobalTimeline_init exif (pre ++ post) cutoff) /\
  Overlapping.GlobalTimeline_init exif (pre ++ (root, files) :: post) =
  Overlapping.GlobalTimeline_init exif (pre ++ post) /\
  (forall exists_frame listdir mtime exists_output folder,
     unreadable_folder listdir exif folder ->
     Timelapse.process_folder exists_frame listdir exif mtime exists_output
       folder = Some []) /\
  (forall exists_frame listdir mtime1 mtime2 exists_output folder,
     Timelapse.process_folder exists_frame listdir exif mtime1 exists_output
       folder =
     Timelapse.process_folder exists_frame listdir exif mtime2 exists_output
       folder).
Proof.
  intros Hu.
  assert (G : forall cutoff,
    Goldenhour.GlobalTimeline_init exif (pre ++ (root, files) :: post) cutoff =
    Goldenhour.GlobalTimeline_init exif (pre ++ post) cutoff).
  { intros cutoff. unfold Goldenhour.GlobalTimeline_init.
    rewrite !golden_walk_loop_app.
    destruct (Goldenhour.walk_loop exif cutoff pre []) as [frames|];
      [|reflexivity].
    cbn [Goldenhour.walk_loop]. now rewrite golden_visit_unreadable. }
  split; [|split; [|split; [|split; [|split; [|split]]]]].
  - intros. now apply golden_visit_unreadable.
  - intros. now apply overlapping_visit_unreadable.
  - exact G.
  - exact G.
  - unfold Overlapping.GlobalTimeline_init.
    rewrite !fold_left_app. cbn [fold_left].
    now rewrite overlapping_visit_unreadable.
  - intros. now apply process_folder_unreadable.
  - intros. apply process_folder_mtime.
Qed.

Lemma unreadable_session_skipped_witness :
  Overlapping.GlobalTimeline_init gap_exif
    (app [("a", ["TLS_000000001.jpg"])]%string
       (("b", ["TLS_000000002.jpg"; "TLS_000000001.jpg"])%string ::
        [("c", ["TLS_000000001.jpg"])]%string)) =
  Overlapping.GlobalTimeline_init gap_exif
    (app [("a", ["TLS_000000001.jpg"])]%string
       [("c", ["TLS_000000001.jpg"])]%string).
Proof.
  apply (unreadable_session_skipped gap_exif
           [("a", ["TLS_000000001.jpg"])]%string
           [("c", ["TLS_000000001.jpg"])]%string
           "b"%string
           ["TLS_000000002.jpg"; "TLS_000000001.jpg"]%string).
  exists "TLS_000000001.jpg"%string, ["TLS_000000002.jpg"%string].
  split; [vm_compute; reflexivity|].
  right. vm_compute. reflexivity.
Defined.

(** ** The rewind transform *)

Lemma ceil_div_spec (a b : Z) :
  0 < b -> (ceil_div a b - 1) * b < a <= ceil_div a b * b.
Proof.
  intros Hb. unfold ceil_div.
  pose proof (Z.div_mod (- a) b ltac:(lia)) as E.
  pose proof (Z.mod_pos_bound (- a) b Hb) as B.
  nia.
Qed.

Lemma ceil_div_pred (a b : Z) : 0 < b -> 0 < a -> ceil_div a b = (a - 1) / b + 1.
Proof.
  intros Hb Ha.
  pose proof (ceil_div_spec a b Hb) as [L U].
  pose proof (Z.div_mod (a - 1) b ltac:(lia)) as E.
  pose proof (Z.mod_pos_bound (a - 1) b Hb) as B.
  nia.
Qed.

Section SliceRevFacts.
Context {A : Type} (l : list A) (step : Z).
Hypothesis step_pos : 0 < step.

Lemma copy_from_nth (n : nat) (cur : Z) :
  cur < Z.of_nat (List.length l) ->
  0 <= cur - (Z.of_nat n - 1) * step ->
  List.length (Py.copy_from l step n cur) = n /\
  forall k : nat, (k < n)%nat ->
    nth_error (Py.copy_from l step n cur) k =
    nth_error l (Z.to_nat (cur - Z.of_nat k * step)).
Proof.
  revert cur. induction n as [|n IH]; intros cur Hlt Hge.
  - split; [reflexivity|]. intros k Hk. lia.
  - cbn [Py.copy_from].
    assert (Hcur : 0 <= cur) by nia.
    destruct (nth_error l (Z.to_nat cur)) as [x|] eqn:E.
    + destruct (IH (cur - step)) as [Hlen Hnth]; [lia|nia|].
      split; [simpl; now rewrite Hlen|].
      intros [|k] Hk.
      * simpl. rewrite Z.sub_0_r. now rewrite E.
      * cbn [nth_error]. rewrite Hnth by lia. f_equal. f_equal.
        rewrite Nat2Z.inj_succ. lia.
    + apply nth_error_None in E. lia.
Qed.

Lemma slice_rev_nth :
  let N := Z.of_nat (List.length l) in
  Z.of_nat (List.length (Py.slice_rev l step)) = ceil_div N step /\
  forall k : nat, Z.of_nat k < ceil_div N step ->
    nth_error (Py.slice_rev l step) k =
    nth_error l (Z.to_nat (N - 1 - Z.of_nat k * step)).
Proof.
  intros N. unfold Py.slice_rev. fold N.
  destruct (Z.ltb_spec (-1) (N - 1)) as [Hpos|Hzero].
  - replace (N - 1 - -1 - 1) with (N - 1) by lia.
    rewrite (ceil_div_pred N step) by lia.
    assert (Hq : 0 <= (N - 1) / step) by (apply Z.div_pos; lia).
    pose proof (Z.mul_div_le (N - 1) step step_pos) as Hle.
    destruct (copy_from_nth (Z.to_nat ((N - 1) / step + 1)) (N - 1))
      as [Hlen Hnth]; [lia|nia|].
    split; [rewrite Hlen; lia|].
    intros k Hk. apply Hnth. lia.
  - assert (HN : N = 0) by lia.
    rewrite HN. unfold ceil_div. simpl.
    split; [reflexivity|]. intros k Hk. lia.
Qed.
End SliceRevFacts.

Lemma rewind_step_pos (N : Z) : 0 < Z.max 1 (N / 45).
Proof. lia. Qed.

(** C4.  With [N = len(frame_list)], [M = 45] and [step = max(1, N // M)],
    [rewind_frames] is the sequence of the frames [N - 1], [N - 1 - step],
    [N - 1 - 2 step], ... of [frame_list]; it has [ceil(N / step)] frames,
    and the rendered list [frame_list + rewind_frames] has
    [N + ceil(N / step)]. *)
Theorem rewind_every_step_th_reversed (frame_list : list Py.frame) :
  let N := Z.of_nat (List.length frame_list) in
  let step := Z.max 1 (N / 45) in
  let rewind := Rewind.rewind_frames frame_list in
  Z.of_nat (List.length rewind) = ceil_div N step /\
  (forall k : nat, Z.of_nat k < ceil_div N step ->
     nth_error rewind k =
     nth_error frame_list (Z.to_nat (N - 1 - Z.of_nat k * step))) /\
  Rewind.create_video_with_rewind frame_list = app frame_list rewind /\
  Z.of_nat (List.length (Rewind.create_video_with_rewind frame_list)) =
    N + ceil_div N step.
Proof.
  intros N step rewind.
  destruct (slice_rev_nth frame_list step (rewind_step_pos N)) as [Hlen Hnth].
  fold N in Hlen, Hnth.
  change (Py.slice_rev frame_list step) with rewind in Hlen, Hnth.
  repeat split.
  - exact Hlen.
  - exact Hnth.
  - unfold Rewind.create_video_with_rewind. fold rewind.
    rewrite length_app, Nat2Z.inj_add. fold N. lia.
Qed.

(** C10.  For a non-empty [frame_list], with last frame [x], the first frame
    of [rewind_frames] is [x], so the rendered list holds [x] at the
    positions [N - 1] and [N]. *)
Theorem rewind_repeats_last_frame (l : list Py.frame) (x : Py.frame) :
  let frame_list := app l [x] in
  let N := List.length frame_list in
  hd_error (Rewind.rewind_frames frame_list) = Some x /\
  nth_error (Rewind.create_video_with_rewind frame_list) (N - 1) = Some x /\
  nth_error (Rewind.create_video_with_rewind frame_list) N = Some x.
Proof.
  intros frame_list N.
  assert (HN : N = S (List.length l)).
  { unfold N, frame_list. rewrite length_app. simpl. lia. }
  assert (Hlast : nth_error frame_list (N - 1) = Some x).
  { unfold frame_list. rewrite nth_error_app2 by lia.
    replace (N - 1 - List.length l)%nat with 0%nat by lia. reflexivity. }
  destruct (slice_rev_nth frame_list (Z.max 1 (Z.of_nat N / 45))
              (rewind_step_pos (Z.of_nat N))) as [Hlen Hnth].
  fold N in Hlen, Hnth.
  assert (Hc : 0 < ceil_div (Z.of_nat N) (Z.max 1 (Z.of_nat N / 45))).
  { pose proof (ceil_div_spec (Z.of_nat N) (Z.max 1 (Z.of_nat N / 45))
                  (rewind_step_pos (Z.of_nat N))). nia. }
  assert (Hhd : nth_error (Rewind.rewind_frames frame_list) 0 = Some x).
  { unfold Rewind.rewind_frames. fold N. rewrite (Hnth 0%nat) by exact Hc.
    rewrite <- Hlast. f_equal. lia. }
  repeat split.
  - destruct (Rewind.rewind_frames frame_list); [discriminate|exact Hhd].
  - unfold Rewind.create_video_with_rewind.
    rewrite nth_error_app1 by (fold N; lia). exact Hlast.
  - unfold Rewind.create_video_with_rewind.
    rewrite nth_error_app2 by (fold N; lia). fold N.
    now rewrite Nat.sub_diag.
Qed.

(** ** The anchor-centred range *)

Section BisectFacts.
Context {A : Type} (lt : A -> A -> bool) (x : A).

(** On a list whose elements below [x] all come first, [bisect_left]
    returns their number. *)
Lemma bisect_loop_partitioned (l1 l2 : list A) :
  Forall (fun y => lt y x = true) l1 ->
  Forall (fun y => lt y x = false) l2 ->
  forall fuel lo hi : nat,
    (lo <= List.length l1 <= hi)%nat ->
    (hi <= List.length (app l1 l2))%nat ->
    (hi - lo <= fuel)%nat ->
    Py.bisect_loop lt (app l1 l2) x fuel lo hi = List.length l1.
Proof.
  intros H1 H2.
  induction fuel as [|fuel IH]; intros lo hi Hb Hhi Hf; cbn [Py.bisect_loop].
  - lia.
  - destruct (Nat.ltb_spec lo hi) as [Hlt|Hge]; [|lia].
    pose proof (Nat.div_mod_eq (lo + hi) 2) as Hdm.
    pose proof (Nat.mod_upper_bound (lo + hi) 2 ltac:(lia)) as Hm.
    set (mid := ((lo + hi) / 2)%nat) in *.
    assert (Hmid : (lo <= mid < hi)%nat) by lia.
    destruct (nth_error (app l1 l2) mid) as [y|] eqn:E.
    + destruct (lt y x) eqn:Ey.
      * apply IH; try lia.
        destruct (Nat.lt_ge_cases mid (List.length l1)) as [Hin|Hout]; [lia|].
        rewrite nth_error_app2 in E by lia.
        apply nth_error_In in E. rewrite Forall_forall in H2.
        rewrite (H2 y E) in Ey. discriminate.
      * apply IH; try lia.
        destruct (Nat.lt_ge_cases mid (List.length l1)) as [Hin|Hout]; [|lia].
        rewrite nth_error_app1 in E by lia.
        apply nth_error_In in E. rewrite Forall_forall in H1.
        rewrite (H1 y E) in Ey. discriminate.
    + apply nth_error_None in E. lia.
Qed.

Lemma bisect_left_partitioned (l1 l2 : list A) :
  Forall (fun y => lt y x = true) l1 ->
  Forall (fun y => lt y x = false) l2 ->
  Py.bisect_left lt (app l1 l2) x = List.length l1.
Proof.
  intros H1 H2. unfold Py.bisect_left.
  apply bisect_loop_partitioned; auto; rewrite length_app; lia.
Qed.
End BisectFacts.

Lemma tuple_lt_anchor (f : Py.frame) (T : Z) :
  Py.tuple_lt f (T, ""%string) = (Py.ts f <? T).
Proof.
  unfold Py.tuple_lt. simpl.
  destruct (Z.eqb_spec (Py.ts f) T) as [E|E]; [|reflexivity].
  rewrite str_lt_empty. symmetry. apply Z.ltb_ge. lia.
Qed.

Lemma sorted_split (T : Z) (a : list Py.frame) :
  StronglySorted ts_le a ->
  exists l1 l2,
    a = app l1 l2 /\
    Forall (fun f => Py.ts f < T) l1 /\
    Forall (fun f => T <= Py.ts f) l2.
Proof.
  induction 1 as [|y a Hs IH Hall].
  - exists [], []. repeat split; constructor.
  - destruct (Z.lt_ge_cases (Py.ts y) T) as [Hlt|Hge].
    + destruct IH as (l1 & l2 & E & F1 & F2).
      exists (y :: l1), l2. subst a. repeat split; auto.
    + exists [], (y :: a). repeat split; [constructor|].
      constructor; [exact Hge|].
      eapply Forall_impl; [|exact Hall].
      intros f Hf. unfold ts_le in Hf. lia.
Qed.

(** In a list sorted by timestamp, [anchor_index] is the position of the
    first frame with timestamp [>= T]: exactly the frames before it are
    earlier than [T]. *)
Lemma anchor_index_first (T : Z) (a : list Py.frame) :
  StronglySorted ts_le a ->
  0 <= Overlapping.anchor_index a T <= Z.of_nat (List.length a) /\
  forall (j : nat) (f : Py.frame),
    nth_error a j = Some f ->
    (Z.of_nat j < Overlapping.anchor_index a T <-> Py.ts f < T).
Proof.
  intros Hs. destruct (sorted_split T a Hs) as (l1 & l2 & E & F1 & F2).
  unfold Overlapping.anchor_index. subst a.
  rewrite bisect_left_partitioned.
  - split; [rewrite length_app; lia|].
    intros j f Hj.
    destruct (Nat.lt_ge_cases j (List.length l1)) as [Hin|Hout].
    + rewrite nth_error_app1 in Hj by lia. apply nth_error_In in Hj.
      rewrite Forall_forall in F1. specialize (F1 f Hj). lia.
    + rewrite nth_error_app2 in Hj by lia. apply nth_error_In in Hj.
      rewrite Forall_forall in F2. specialize (F2 f Hj). lia.
  - eapply Forall_impl; [|exact F1].
    intros f Hf. rewrite tuple_lt_anchor. apply Z.ltb_lt. exact Hf.
  - eapply Forall_impl; [|exact F2].
    intros f Hf. rewrite tuple_lt_anchor. apply Z.ltb_ge. exact Hf.
Qed.

Lemma slice_in_range {A : Type} (l : list A) (s e : Z) :
  0 <= s <= e -> e <= Z.of_nat (List.length l) ->
  Z.of_nat (List.length (Py.slice l s e)) = e - s /\
  forall k : nat, Z.of_nat k < e - s ->
    nth_error (Py.slice l s e) k = nth_error l (Z.to_nat s + k).
Proof.
  intros Hse He. unfold Py.slice, Py.clip_index.
  destruct (Z.ltb_spec s 0) as [?|_]; [lia|].
  destruct (Z.ltb_spec e 0) as [?|_]; [lia|].
  rewrite !Z.min_l by lia.
  split.
  - rewrite length_firstn, length_skipn. lia.
  - intros k Hk. rewrite nth_error_firstn.
    destruct (Nat.ltb_spec k (Z.to_nat (e - s))) as [_|?]; [|lia].
    apply nth_error_skipn.
Qed.

Lemma range_indices_bounds (len idx before num : Z) :
  0 <= len -> 0 <= num ->
  let '(s, e) := Overlapping.range_indices len idx before num in
  0 <= s <= e /\ e <= len /\ e - s = Z.min num len.
Proof.
  intros Hlen Hnum. unfold Overlapping.range_indices.
  destruct (Z.ltb_spec len (Z.max 0 (idx - before) + num)); lia.
Qed.

Lemma range_indices_unclamped (len idx before num : Z) :
  0 <= idx - before -> idx - before + num <= len ->
  Overlapping.range_indices len idx before num =
  (idx - before, idx - before + num).
Proof.
  intros H0 H1. unfold Overlapping.range_indices.
  rewrite Z.max_r by lia.
  destruct (Z.ltb_spec len (idx - before + num)); [lia|reflexivity].
Qed.

(** C1, as stated, fails for [centerRatio = 1]: with 30 frames asked for
    around 12:05:10 in the index of 33 frames, [frames_before] is 30, the
    anchor frame is the frame 31 of the index, the start 1 is not floored
    and the end 31 is not shifted, and the range is the frames 1..30: it has
    no position 30 and does not hold the anchor frame. *)
Lemma anchor_outside_range_at_ratio_one :
  SFleb (S754_zero false) one = true /\
  SFleb one one = true /\
  Overlapping.frames_before (1 * 30) one = Some 30 /\
  Z.of_nat (List.length short_index) = 33 /\
  Overlapping.anchor_index short_index anchor_12_05_10 = 31 /\
  nth_error short_index 31 =
    Some (anchor_12_05_10, "a/TLS_000000032.jpg"%string) /\
  0 < 31 - 30 /\
  31 - 30 + 1 * 30 < 33 /\
  Overlapping.get_range short_index anchor_12_05_10 1 one =
    Some (short_index, Py.slice short_index 1 31) /\
  List.length (Py.slice short_index 1 31) = 30%nat /\
  nth_error (Py.slice short_index 1 31) 30 = None /\
  ~ In (anchor_12_05_10, "a/TLS_000000032.jpg"%string)
      (Py.slice short_index 1 31).
Proof.
  repeat split; try (vm_compute; reflexivity); try lia.
  intros H. vm_compute in H.
  repeat (destruct H as [H|H]; [discriminate H|]). exact H.
Qed.

(** C1 (amended).  [get_range] sorts the index and returns exactly
    [min(num_frames, len)] frames, for every target time, every
    [duration_sec > 0] and every [center_ratio] for which
    [frames_before = int(num_frames * center_ratio)] is defined.  The anchor
    index [idx] is the position of the first frame with timestamp [>= T] in
    the sorted index.  When neither the floor at 0 nor the shift at the end
    applies and [0 <= frames_before < num_frames] (so not for
    [center_ratio = 1]), that frame is at position [frames_before] of the
    returned range. *)
Theorem get_range_anchored (frames : list Py.frame) (T duration_sec : Z)
    (center_ratio : Py.float) (before : Z) :
  0 < duration_sec ->
  Overlapping.frames_before (duration_sec * 30) center_ratio = Some before ->
  let num_frames := duration_sec * 30 in
  let index := Py.sort_tuples frames in
  let len := Z.of_nat (List.length frames) in
  let idx := Overlapping.anchor_index index T in
  exists range,
    Overlapping.get_range frames T duration_sec center_ratio =
      Some (index, range) /\
    Z.of_nat (List.length range) = Z.min num_frames len /\
    (forall (j : nat) (f : Py.frame),
       nth_error index j = Some f -> (Z.of_nat j < idx <-> Py.ts f < T)) /\
    (0 <= idx - before ->
     idx - before + num_frames <= len ->
     0 <= before < num_frames ->
     exists f,
       nth_error range (Z.to_nat before) = Some f /\
       nth_error index (Z.to_nat idx) = Some f /\
       T <= Py.ts f).
Proof.
  intros Hdur Hbefore num_frames index len idx.
  assert (Hlen : Z.of_nat (List.length index) = len).
  { unfold index, Py.sort_tuples. now rewrite list_sort_length. }
  pose proof (sort_tuples_sorted_ts frames) as Hsorted. fold index in Hsorted.
  destruct (anchor_index_first T index Hsorted) as [Hidx Hfirst].
  fold idx in Hidx, Hfirst.
  unfold Overlapping.get_range. rewrite Hbefore. cbv zeta.
  fold num_frames. fold index. fold idx. rewrite Hlen.
  pose proof (range_indices_bounds len idx before num_frames
                ltac:(lia) ltac:(lia)) as Hb.
  destruct (Overlapping.range_indices len idx before num_frames)
    as [s e] eqn:Er.
  destruct Hb as (Hse & He & Hdiff).
  destruct (slice_in_range index s e Hse ltac:(lia)) as [Hl Hn].
  exists (Py.slice index s e). repeat split.
  - lia.
  - apply Hfirst; assumption.
  - apply Hfirst; assumption.
  - intros H0 H1 Hin.
    rewrite range_indices_unclamped in Er by assumption.
    injection Er as <- <-.
    assert (Hex : (Z.to_nat idx < List.length index)%nat) by lia.
    apply nth_error_Some in Hex.
    destruct (nth_error index (Z.to_nat idx)) as [f|] eqn:Ef; [|congruence].
    exists f. repeat split.
    + rewrite Hn by lia. rewrite <- Ef. f_equal. lia.
    + destruct (Z.le_gt_cases T (Py.ts f)) as [Hle|Hgt]; [exact Hle|].
      apply (Hfirst (Z.to_nat idx) f Ef) in Hgt. lia.
Qed.

Lemma get_range_anchored_witness :
  exists range f,
    Overlapping.get_range short_index anchor_12_02_40 1 center =
      Some (Py.sort_tuples short_index, range) /\
    Z.of_nat (List.length range) =
      Z.min (1 * 30) (Z.of_nat (List.length short_index)) /\
    nth_error range (Z.to_nat 15) = Some f /\
    nth_error (Py.sort_tuples short_index)
      (Z.to_nat (Overlapping.anchor_index (Py.sort_tuples short_index)
                   anchor_12_02_40)) = Some f /\
    anchor_12_02_40 <= Py.ts f.
Proof.
  destruct (get_range_anchored short_index anchor_12_02_40 1 center 15)
    as (range & Hget & Hlen & _ & Hanchor).
  - lia.
  - vm_compute. reflexivity.
  - destruct Hanchor as (f & Hf).
    + vm_compute. discriminate.
    + vm_compute. discriminate.
    + lia.
    + exists range, f. split; [exact Hget|]. split; [exact Hlen|]. exact Hf.
Defined.

(** ** The sun-event time *)

Section SolarFacts.
Import Solar.
Local Open Scope R_scope.

Lemma PI_gt_3 : 3 < PI.
Proof. pose proof PI2_3_2. lra. Qed.

Lemma sin_sqr_le (x : R) : sin x * sin x <= x * x.
Proof.
  assert (H : - Rabs x <= sin x <= Rabs x).
  { destruct (Rtotal_order x 0) as [Hn|[Hz|Hp]].
    - rewrite Rabs_left by lra. pose proof (sin_gt_x x Hn).
      destruct (Rle_lt_dec x (-1)) as [H1|H1].
      + pose proof (SIN_bound x). lra.
      + assert (sin (- x) > 0).
        { apply sin_gt_0; [lra|]. pose proof PI_gt_3. lra. }
        rewrite sin_neg in H0. lra.
    - subst. rewrite sin_0, Rabs_R0. lra.
    - rewrite Rabs_right by lra. pose proof (sin_lt_x x Hp).
      destruct (Rle_lt_dec 1 x) as [H1|H1].
      + pose proof (SIN_bound x). lra.
      + assert (sin x > 0).
        { apply sin_gt_0; [lra|]. pose proof PI_gt_3. lra. }
        lra. }
  assert (Hx : Rabs x * Rabs x = x * x).
  { unfold Rabs. destruct (Rcase_abs x); lra. }
  rewrite <- Hx. pose proof (Rabs_pos x). nra.
Qed.

Lemma cos_ge_parabola (x : R) : 1 - x * x / 2 <= cos x.
Proof.
  replace x with (2 * (x / 2)) at 3 by lra.
  rewrite cos_2a_sin.
  pose proof (sin_sqr_le (x / 2)). nra.
Qed.

Lemma eqtime_bound (g : R) : -20.6 <= eqtime g <= 20.6.
Proof.
  unfold eqtime.
  pose proof (SIN_bound g). pose proof (COS_bound g).
  pose proof (SIN_bound (2 * g)). pose proof (COS_bound (2 * g)).
  lra.
Qed.

Lemma decl_bound (g : R) : -0.49 <= decl g <= 0.49.
Proof.
  unfold decl.
  pose proof (SIN_bound g). pose proof (COS_bound g).
  pose proof (SIN_bound (2 * g)). pose proof (COS_bound (2 * g)).
  pose proof (SIN_bound (3 * g)). pose proof (COS_bound (3 * g)).
  lra.
Qed.

Lemma cos_decl_bound (g : R) : 0.87 <= cos (decl g) <= 1.
Proof.
  pose proof (decl_bound g). pose proof (cos_ge_parabola (decl g)).
  pose proof (COS_bound (decl g)). nra.
Qed.

Lemma tan_decl_bound (g : R) : -0.57 <= tan (decl g) <= 0.57.
Proof.
  pose proof (cos_decl_bound g) as Hc.
  assert (Hs : -0.49 <= sin (decl g) <= 0.49).
  { pose proof (decl_bound g). pose proof (sin_sqr_le (decl g)). nra. }
  unfold tan.
  assert (Hi : 0 < / cos (decl g)) by (apply Rinv_0_lt_compat; lra).
  assert (Hu : / cos (decl g) * cos (decl g) = 1) by (apply Rinv_l; lra).
  unfold Rdiv. nra.
Qed.

Lemma rad_lat_bound : 0.62 <= radians LATITUDE <= 0.84.
Proof.
  unfold radians, LATITUDE. pose proof PI_gt_3. pose proof PI_4. lra.
Qed.

Lemma cos_lat_bound : 0.64 <= cos (radians LATITUDE) <= 1.
Proof.
  pose proof rad_lat_bound. pose proof (cos_ge_parabola (radians LATITUDE)).
  pose proof (COS_bound (radians LATITUDE)). nra.
Qed.

Lemma tan_lat_bound : 0 <= tan (radians LATITUDE) <= 1.32.
Proof.
  pose proof cos_lat_bound as Hc. pose proof rad_lat_bound as Hr.
  assert (Hs : 0 <= sin (radians LATITUDE) <= 0.84).
  { split.
    - apply sin_ge_0; [lra|]. pose proof PI_gt_3. lra.
    - pose proof (sin_lt_x (radians LATITUDE)). lra. }
  unfold tan.
  assert (Hi : 0 < / cos (radians LATITUDE)) by (apply Rinv_0_lt_compat; lra).
  assert (Hu : / cos (radians LATITUDE) * cos (radians LATITUDE) = 1)
    by (apply Rinv_l; lra).
  unfold Rdiv. nra.
Qed.

Lemma cos_zenith_bound : -0.02 <= cos (radians 90.833) <= 0.
Proof.
  assert (E : radians 90.833 = PI / 2 + radians 0.833) by (unfold radians; lra).
  rewrite E, <- (Ropp_involutive (cos _)), <- sin_cos.
  assert (Hr : 0 < radians 0.833 <= 0.019).
  { unfold radians. pose proof PI_gt_3. pose proof PI_4. lra. }
  pose proof (sin_lt_x (radians 0.833) ltac:(lra)).
  assert (0 < sin (radians 0.833)).
  { apply sin_gt_0; [lra|]. pose proof PI_gt_3. lra. }
  lra.
Qed.

(** The denominator of [cos_ha] is never zero. *)
Lemma cos_ha_defined (zenith_deg g : R) :
  cos_ha zenith_deg g =
  Some (cos (radians zenith_deg) / (cos (radians LATITUDE) * cos (decl g))
        - tan (radians LATITUDE) * tan (decl g)).
Proof.
  unfold cos_ha, div.
  pose proof cos_lat_bound. pose proof (cos_decl_bound g).
  destruct (Req_dec_T (cos (radians LATITUDE) * cos (decl g)) 0) as [E|_];
    [nra|reflexivity].
Qed.

Lemma cos_ha_sunset_bound (g c : R) :
  cos_ha 90.833 g = Some c -> -0.8 <= c <= 0.8.
Proof.
  rewrite cos_ha_defined. intros [= <-].
  pose proof cos_lat_bound as Hl. pose proof (cos_decl_bound g) as Hd.
  pose proof tan_lat_bound as Htl. pose proof (tan_decl_bound g) as Htd.
  pose proof cos_zenith_bound as Hz.
  set (den := cos (radians LATITUDE) * cos (decl g)) in *.
  assert (Hden : 0.55 <= den) by (unfold den; nra).
  assert (Hi : 0 < / den) by (apply Rinv_0_lt_compat; lra).
  assert (Hu : / den * den = 1) by (apply Rinv_l; lra).
  assert (Hq : -0.04 <= cos (radians 90.833) / den <= 0).
  { unfold Rdiv. split; nra. }
  assert (Ht : -0.76 <= tan (radians LATITUDE) * tan (decl g) <= 0.76) by nra.
  lra.
Qed.

Lemma degrees_spec (x : R) : degrees x * PI = 180 * x.
Proof. unfold degrees. pose proof PI_gt_3. field. lra. Qed.

Lemma ha_deg_bound (c : R) :
  -0.8 <= c <= 0.8 -> 23 <= degrees (acos c) <= 157.
Proof.
  intros Hc. pose proof PI_gt_3 as P3. pose proof PI_4 as P4.
  set (th := 23 * (PI / 180)).
  assert (Hth : 0 < th <= 0.52) by (unfold th; lra).
  assert (Hcos : 0.8 < cos th).
  { pose proof (cos_ge_parabola th). nra. }
  pose proof (acos_bound c) as Hb.
  pose proof (cos_acos c ltac:(lra)) as Hca.
  assert (Hlo : th <= acos c).
  { destruct (Rle_lt_dec th (acos c)) as [H|H]; [exact H|].
    pose proof (cos_decreasing_1 (acos c) th ltac:(lra) ltac:(lra)
                  ltac:(lra) ltac:(lra) H). lra. }
  assert (Hhi : acos c <= PI - th).
  { destruct (Rle_lt_dec (acos c) (PI - th)) as [H|H]; [exact H|].
    pose proof (cos_decreasing_1 (PI - th) (acos c) ltac:(lra) ltac:(lra)
                  ltac:(lra) ltac:(lra) H) as Hd.
    replace (PI - th) with (- th + PI) in Hd by lra.
    rewrite neg_cos, cos_neg in Hd. lra. }
  pose proof (degrees_spec (acos c)) as Hd. unfold th in *. nra.
Qed.

Lemma modulo_bound (x y : R) : 0 < y -> 0 <= modulo x y < y.
Proof.
  intros Hy. unfold modulo.
  pose proof (Zfloor_bound (x / y)) as [Hl Hu].
  assert (E : x = y * (x / y)) by (field; lra).
  split; nra.
Qed.

Lemma modulo_small (x y : R) : 0 <= x < y -> modulo x y = x.
Proof.
  intros Hx. unfold modulo.
  assert (Hy : 0 < y) by lra.
  assert (H : Zfloor (x / y) = 0%Z).
  { apply Zfloor_eq. simpl.
    assert (Hi : 0 < / y) by (apply Rinv_0_lt_compat; lra).
    assert (Hu : / y * y = 1) by (apply Rinv_l; lra).
    unfold Rdiv. split; nra. }
  rewrite H. simpl. lra.
Qed.

Lemma int_IZR (z : Z) : int (IZR z) = z.
Proof.
  unfold int. destruct (Rle_dec 0 (IZR z)).
  - apply ZfloorZ.
  - unfold Zceil. replace (- IZR z) with (IZR (- z)) by (now rewrite opp_IZR).
    rewrite ZfloorZ. lia.
Qed.

Lemma int_nonneg (x : R) : 0 <= x -> int x = Zfloor x.
Proof. intros H. unfold int. destruct (Rle_dec 0 x); [reflexivity|lra]. Qed.

(** The hour and the minute of a time of day, given in minutes. *)
Lemma clock_fields (x : R) :
  0 <= x < 1440 ->
  let h := int (floordiv x 60) in
  let mi := int (modulo x 60) in
  (0 <= h <= 23)%Z /\ (0 <= mi <= 59)%Z /\
  IZR h * 60 <= x < IZR h * 60 + 60.
Proof.
  intros Hx h mi.
  assert (Hh : h = Zfloor (x / 60)) by (unfold h, floordiv; apply int_IZR).
  pose proof (Zfloor_bound (x / 60)) as [Hl Hu]. rewrite <- Hh in Hl, Hu.
  assert (Hh0 : (0 <= h)%Z).
  { rewrite Hh. apply Zfloor_lub. simpl. lra. }
  assert (Hh23 : (h <= 23)%Z).
  { apply le_IZR. enough (IZR h < 24) by (apply lt_IZR in H; apply IZR_le; lia).
    lra. }
  pose proof (modulo_bound x 60 ltac:(lra)) as Hm.
  assert (Hmi : mi = Zfloor (modulo x 60)) by (unfold mi; apply int_nonneg; lra).
  pose proof (Zfloor_bound (modulo x 60)) as [Hml Hmu]. rewrite <- Hmi in Hml, Hmu.
  repeat split; try assumption; try lra.
  - rewrite Hmi. apply Zfloor_lub. simpl. lra.
  - apply le_IZR. enough (IZR mi < 60) by (apply lt_IZR in H; apply IZR_le; lia).
    lra.
Qed.

Lemma make_datetime_clock (date : Calendar.datetime) (x : R) :
  0 <= x < 1440 ->
  make_datetime date (int (floordiv x 60)) (int (modulo x 60)) =
  Instant (Calendar.mkDatetime (Calendar.year date) (Calendar.month date)
             (Calendar.day date) (int (floordiv x 60)) (int (modulo x 60)) 0 0).
Proof.
  intros Hx. destruct (clock_fields x Hx) as (Hh & Hm & _).
  unfold make_datetime.
  destruct (Z.leb_spec 0 (int (floordiv x 60))); [|lia].
  destruct (Z.leb_spec (int (floordiv x 60)) 23); [|lia].
  destruct (Z.leb_spec 0 (int (modulo x 60))); [|lia].
  destruct (Z.leb_spec (int (modulo x 60)) 59); [|lia].
  reflexivity.
Qed.

Lemma timelapse_gamma (d : Z) :
  (2 * PI / 365) * (IZR d - 1 + (12 - 12) / 24) = gamma d.
Proof. unfold gamma. f_equal. lra. Qed.

Lemma degrees_opp (x : R) : degrees (- x) = - degrees x.
Proof. unfold degrees. lra. Qed.

Lemma local_offset_cases (dt : Calendar.datetime) :
  Overlapping.get_local_offset dt = (-7)%Z \/
  Overlapping.get_local_offset dt = (-8)%Z.
Proof.
  unfold Overlapping.get_local_offset.
  destruct (Calendar.year dt =? 2025)%Z;
    [|destruct (Calendar.year dt =? 2026)%Z; [|now right]];
    match goal with |- context [if ?b then _ else _] => destruct b end;
    auto.
Qed.

Lemma same_day_lt (y m d h1 m1 h2 m2 : Z) :
  (h1 < h2)%Z ->
  Calendar.dt_lt (Calendar.mkDatetime y m d h1 m1 0 0)
    (Calendar.mkDatetime y m d h2 m2 0 0) = true.
Proof.
  intros H. unfold Calendar.dt_lt, Calendar.fields. simpl.
  rewrite !Z.compare_refl. apply Z.compare_lt_iff in H. now rewrite H.
Qed.

(** The two crossings at zenith 90.833, in local minutes of the day, for an
    offset of 7 or 8 hours: both fall within the day, the morning one at
    least 184 minutes before the evening one. *)
Lemma crossings_within_day (g c off : R) :
  cos_ha 90.833 g = Some c ->
  off = 420 \/ off = 480 ->
  let D := degrees (acos c) in
  -1 <= c <= 1 /\
  23 <= D /\
  0 <= solar_noon_utc g - 4 * D - off /\
  solar_noon_utc g + 4 * D - off < 1440.
Proof.
  intros Hc Hoff D.
  pose proof (cos_ha_sunset_bound g c Hc) as Hb.
  pose proof (ha_deg_bound c Hb) as HD. fold D in HD.
  pose proof (eqtime_bound g) as He.
  unfold solar_noon_utc, LONGITUDE.
  destruct Hoff; subst off; repeat split; lra.
Qed.

Lemma Rmin_Rmax_sym (n x : R) :
  0 <= x -> Rmin (n - x) (n + x) = n - x /\ Rmax (n - x) (n + x) = n + x.
Proof.
  intros Hx. split.
  - apply Rmin_left. lra.
  - apply Rmax_right. lra.
Qed.

Lemma Rmin_Rmax_sym_opp (n x : R) :
  0 <= x -> Rmin (n - - x) (n + - x) = n - x /\ Rmax (n - - x) (n + - x) = n + x.
Proof.
  intros Hx. split.
  - rewrite Rmin_right by lra. lra.
  - rewrite Rmax_left by lra. lra.
Qed.

Lemma timelapse_sunrise_sunset (date : Calendar.datetime) :
  let g := gamma (Calendar.tm_yday date) in
  let D := degrees (acos (hour_angle_cosine 90.833 date)) in
  let sunrise := solar_noon_utc g - 4 * D - 480 in
  let sunset := solar_noon_utc g + 4 * D - 480 in
  Timelapse.get_sun_time date "sunrise" =
    make_datetime date (int (floordiv sunrise 60)) (int (modulo sunrise 60)) /\
  Timelapse.get_sun_time date "sunset" =
    make_datetime date (int (floordiv sunset 60)) (int (modulo sunset 60)) /\
  23 <= D /\ 0 <= sunrise /\ sunset < 1440.
Proof.
  intros g D sunrise sunset. subst sunrise sunset.
  pose proof (cos_ha_defined 90.833 g) as Hc.
  destruct (crossings_within_day g _ 480 Hc ltac:(now right))
    as (Hr & HD & Hlo & Hhi).
  change (cos (radians 90.833) / (cos (radians LATITUDE) * cos (decl g))
          - tan (radians LATITUDE) * tan (decl g))
    with (hour_angle_cosine 90.833 date) in Hc, Hr, HD, Hlo, Hhi.
  fold D in HD, Hlo, Hhi.
  unfold Timelapse.get_sun_time.
  rewrite timelapse_gamma. fold g. rewrite Hc.
  destruct (Rgt_dec (hour_angle_cosine 90.833 date) 1) as [?|_]; [lra|].
  destruct (Rlt_dec (hour_angle_cosine 90.833 date) (-1)) as [?|_]; [lra|].
  change (720 - 4 * LONGITUDE - eqtime g) with (solar_noon_utc g).
  repeat split; try assumption.
  - cbv zeta. replace (String.eqb "sunrise" "sunrise") with true by reflexivity.
    rewrite degrees_opp. fold D.
    replace (4 * - D) with (- (4 * D)) by lra.
    destruct (Rmin_Rmax_sym_opp (solar_noon_utc g) (4 * D) ltac:(lra)) as [-> _].
    replace (8 * 60) with 480 by lra.
    rewrite (modulo_small (solar_noon_utc g - 4 * D - 480) 1440) by lra.
    reflexivity.
  - cbv zeta. replace (String.eqb "sunset" "sunrise") with false by reflexivity.
    fold D.
    destruct (Rmin_Rmax_sym (solar_noon_utc g) (4 * D) ltac:(lra)) as [_ ->].
    replace (8 * 60) with 480 by lra.
    rewrite (modulo_small (solar_noon_utc g + 4 * D - 480) 1440) by lra.
    reflexivity.
Qed.

Lemma overlapping_sunrise_sunset (date : Calendar.datetime) :
  let g := gamma (Calendar.tm_yday date) in
  let D := degrees (acos (hour_angle_cosine 90.833 date)) in
  let off := - (IZR (Overlapping.get_local_offset date) * 60) in
  let sunrise := solar_noon_utc g - 4 * D - off in
  let sunset := solar_noon_utc g + 4 * D - off in
  Overlapping.get_sun_time date "sunrise" =
    make_datetime date (int (floordiv sunrise 60)) (int (modulo sunrise 60)) /\
  Overlapping.get_sun_time date "sunset" =
    make_datetime date (int (floordiv sunset 60)) (int (modulo sunset 60)) /\
  23 <= D /\ 0 <= sunrise /\ sunset < 1440.
Proof.
  intros g D off sunrise sunset. subst sunrise sunset.
  pose proof (cos_ha_defined 90.833 g) as Hc.
  assert (Hoff : off = 420 \/ off = 480).
  { unfold off. destruct (local_offset_cases date) as [-> | ->]; [left|right]; lra. }
  destruct (crossings_within_day g _ off Hc Hoff) as (Hr & HD & Hlo & Hhi).
  change (cos (radians 90.833) / (cos (radians LATITUDE) * cos (decl g))
          - tan (radians LATITUDE) * tan (decl g))
    with (hour_angle_cosine 90.833 date) in Hc, Hr, HD, Hlo, Hhi.
  fold D in HD, Hlo, Hhi.
  unfold Overlapping.get_sun_time. fold g. rewrite Hc.
  destruct (Rgt_dec (hour_angle_cosine 90.833 date) 1) as [?|_]; [lra|].
  destruct (Rlt_dec (hour_angle_cosine 90.833 date) (-1)) as [?|_]; [lra|].
  fold D.
  destruct (Rmin_Rmax_sym (solar_noon_utc g) (4 * D) ltac:(lra)) as [Emin Emax].
  repeat split; try assumption.
  - cbv zeta. replace (String.eqb "sunrise" "sunrise") with true by reflexivity.
    rewrite Emin.
    replace (solar_noon_utc g - 4 * D + IZR (Overlapping.get_local_offset date) * 60)
      with (solar_noon_utc g - 4 * D - off) by (unfold off; lra).
    rewrite (modulo_small (solar_noon_utc g - 4 * D - off) 1440) by lra.
    reflexivity.
  - cbv zeta. replace (String.eqb "sunset" "sunrise") with false by reflexivity.
    rewrite Emax.
    replace (solar_noon_utc g + 4 * D + IZR (Overlapping.get_local_offset date) * 60)
      with (solar_noon_utc g + 4 * D - off) by (unfold off; lra).
    rewrite (modulo_small (solar_noon_utc g + 4 * D - off) 1440) by lra.
    reflexivity.
Qed.

(** Two times of the same day at least an hour apart have different
    hours. *)
Lemma clock_lt (date : Calendar.datetime) (x y : R) :
  0 <= x -> x + 60 <= y -> y < 1440 ->
  exists a b,
    make_datetime date (int (floordiv x 60)) (int (modulo x 60)) = Instant a /\
    make_datetime date (int (floordiv y 60)) (int (modulo y 60)) = Instant b /\
    Calendar.dt_lt a b = true.
Proof.
  intros Hx Hxy Hy.
  rewrite !make_datetime_clock by lra.
  eexists; eexists. repeat split.
  apply same_day_lt.
  destruct (clock_fields x ltac:(lra)) as (_ & _ & Hxh).
  destruct (clock_fields y ltac:(lra)) as (_ & _ & Hyh).
  cbv zeta in Hxh, Hyh. apply lt_IZR. lra.
Qed.

(** C7.  At zenith 90.833 both crossings exist on every date, and the
    [datetime] that [get_sun_time] returns for "sunrise" is earlier than
    the one it returns for "sunset". *)
Theorem sunrise_before_sunset (date : Calendar.datetime) :
  (exists a b,
     Timelapse.get_sun_time date "sunrise" = Instant a /\
     Timelapse.get_sun_time date "sunset" = Instant b /\
     Calendar.dt_lt a b = true) /\
  (exists a b,
     Overlapping.get_sun_time date "sunrise" = Instant a /\
     Overlapping.get_sun_time date "sunset" = Instant b /\
     Calendar.dt_lt a b = true).
Proof.
  split.
  - destruct (timelapse_sunrise_sunset date) as (-> & -> & HD & Hlo & Hhi).
    apply clock_lt; lra.
  - destruct (overlapping_sunrise_sunset date) as (-> & -> & HD & Hlo & Hhi).
    apply clock_lt; lra.
Qed.




(** The [None] outcome occurs: the sun is never at the zenith of the
    location, so [get_sun_time(date, 0.0)] is [None] on every date. *)
Lemma no_event_overhead (date : Calendar.datetime) :
  1 < hour_angle_cosine 0 date /\ Rewind.get_sun_time date 0 = NoEvent.
Proof.
  assert (H : 1 < hour_angle_cosine 0 date).
  { unfold hour_angle_cosine. cbv zeta.
    set (g := gamma (Calendar.tm_yday date)).
    replace (radians 0) with 0 by (unfold radians; lra). rewrite cos_0.
    pose proof cos_lat_bound as Hl. pose proof (cos_decl_bound g) as Hd.
    pose proof rad_lat_bound as Hr. pose proof (decl_bound g) as Hdb.
    pose proof PI_gt_3 as P3.
    assert (Hlt : cos (radians LATITUDE - decl g) < 1).
    { rewrite <- cos_0. apply cos_decreasing_1; lra. }
    rewrite cos_minus in Hlt.
    unfold tan.
    set (cl := cos (radians LATITUDE)) in *. set (cd := cos (decl g)) in *.
    set (sl := sin (radians LATITUDE)) in *. set (sd := sin (decl g)) in *.
    replace (1 / (cl * cd) - sl / cl * (sd / cd))
      with ((1 - sl * sd) / (cl * cd)) by (field; lra).
    apply Rmult_lt_reg_r with (cl * cd); [nra|].
    unfold Rdiv. rewrite Rmult_assoc, Rinv_l by nra. lra. }
  split; [exact H|].
  unfold Rewind.get_sun_time. rewrite cos_ha_defined.
  fold (hour_angle_cosine 0 date).
  destruct (Rgt_dec (hour_angle_cosine 0 date) 1) as [_|N]; [reflexivity|lra].
Qed.
End SolarFacts.

(** ** The window around the event *)

(** C5.  The window that [__main__] queries has, on each capped side, the
    earlier of the raw bound and the wall-clock bound.  In
    automate_goldenhour.py the raw window is
    [[sunset - 150 min, sunset + 120 min]] and the bounds are 17:00 and
    21:00; in automate_rewind.py the start is capped in the same way and
    the end is the second event, nautical dusk, itself.  A start earlier
    than the bound is kept, a later one is replaced by the bound. *)
Theorem window_takes_earlier_bounds (frames : list Py.frame)
    (sunset target_5pm target_9pm nautical_dusk : Z) :
  let rs := sunset - Goldenhour.minutes 150 in
  let re := sunset + Goldenhour.minutes 120 in
  Goldenhour.final_window sunset target_5pm target_9pm =
    (Z.min rs target_5pm, Z.min re target_9pm) /\
  Goldenhour.window_frames frames sunset target_5pm target_9pm =
    Goldenhour.get_time_window frames
      (Z.min rs target_5pm) (Z.min re target_9pm) /\
  (forall f,
     In f (Goldenhour.window_frames frames sunset target_5pm target_9pm) <->
     In f frames /\
     Z.min rs target_5pm <= Py.ts f <= Z.min re target_9pm) /\
  fst (Goldenhour.final_window sunset target_5pm target_9pm) =
    (if rs <? target_5pm then rs else target_5pm) /\
  snd (Goldenhour.final_window sunset target_5pm target_9pm) =
    (if re <? target_9pm then re else target_9pm) /\
  Rewind.final_window sunset nautical_dusk target_5pm =
    (Z.min rs target_5pm, nautical_dusk) /\
  Rewind.window_frames frames sunset nautical_dusk target_5pm =
    Rewind.get_time_window frames (Z.min rs target_5pm) nautical_dusk.
Proof.
  intros rs re. repeat split.
  - unfold Goldenhour.window_frames, Goldenhour.final_window,
      Goldenhour.get_time_window in H.
    apply filter_In in H. tauto.
  - unfold Goldenhour.window_frames, Goldenhour.final_window,
      Goldenhour.get_time_window in H.
    apply filter_In in H. destruct H as [_ H].
    apply andb_prop in H. destruct H as [H _]. apply Z.leb_le in H. exact H.
  - unfold Goldenhour.window_frames, Goldenhour.final_window,
      Goldenhour.get_time_window in H.
    apply filter_In in H. destruct H as [_ H].
    apply andb_prop in H. destruct H as [_ H]. apply Z.leb_le in H. exact H.
  - intros (Hin & Hlo & Hhi).
    unfold Goldenhour.window_frames, Goldenhour.final_window,
      Goldenhour.get_time_window.
    apply filter_In. split; [exact Hin|].
    apply andb_true_intro. split; apply Z.leb_le; assumption.
  - unfold Goldenhour.final_window. cbn [fst]. fold rs.
    destruct (Z.ltb_spec rs target_5pm); lia.
  - unfold Goldenhour.final_window. cbn [snd]. fold re.
    destruct (Z.ltb_spec re target_9pm); lia.
Qed.

(** 15 December 2025, sunset at 16:53: the raw start 14:23 is before 17:00
    and is kept. *)
Example window_start_not_capped :
  Goldenhour.final_window
    (Calendar.to_us (Calendar.mkDatetime 2025 12 15 16 53 0 0))
    (Calendar.to_us (Calendar.date_hour 2025 12 15 17))
    (Calendar.to_us (Calendar.date_hour 2025 12 15 21)) =
  (Calendar.to_us (Calendar.mkDatetime 2025 12 15 14 23 0 0),
   Calendar.to_us (Calendar.mkDatetime 2025 12 15 18 53 0 0)).
Proof. vm_compute. reflexivity. Qed.

(** 21 June 2025, sunset at 20:35: the raw start 18:05 is after 17:00 and
    the raw end 22:35 after 21:00; both are replaced by the bounds. *)
Example window_capped :
  Goldenhour.final_window
    (Calendar.to_us (Calendar.mkDatetime 2025 6 21 20 35 0 0))
    (Calendar.to_us (Calendar.date_hour 2025 6 21 17))
    (Calendar.to_us (Calendar.date_hour 2025 6 21 21)) =
  (Calendar.to_us (Calendar.date_hour 2025 6 21 17),
   Calendar.to_us (Calendar.date_hour 2025 6 21 21)).
Proof. vm_compute. reflexivity. Qed.

(** ** The local offset *)



Lemma table_is_the_rule :
  dst_start 2025 = Calendar.date_hour 2025 3 9 2 /\
  dst_end 2025 = Calendar.date_hour 2025 11 2 2 /\
  dst_start 2026 = Calendar.date_hour 2026 3 8 2 /\
  dst_end 2026 = Calendar.date_hour 2026 11 1 2.
Proof. repeat split. Qed.



(** ** Double-precision arithmetic on integers *)

Lemma digits2_pos_size (p : positive) : digits2_pos p = Pos.size p.
Proof. induction p; simpl; congruence. Qed.

Lemma Zdigits2_log2 (z : Z) : 0 < z -> Zdigits2 z = Z.log2 z + 1.
Proof.
  destruct z as [|p|p]; try lia. intros _. simpl.
  rewrite digits2_pos_size. destruct p; simpl; lia.
Qed.

Lemma Zdigits2_mul_pow2 (z a : Z) :
  0 < z -> 0 <= a -> Zdigits2 (z * 2 ^ a) = Zdigits2 z + a.
Proof.
  intros Hz Ha. rewrite !Zdigits2_log2 by (try apply Z.mul_pos_pos; lia).
  rewrite Z.log2_mul_pow2 by lia. lia.
Qed.

Lemma shr_1_even (m : Z) :
  0 <= m -> shr_1 (Build_shr_record (2 * m) false false) = Build_shr_record m false false.
Proof. destruct m as [|p|p]; try lia; reflexivity. Qed.

Lemma pow2_xI (p : positive) : 2 ^ Zpos p~1 = 2 * (2 ^ Zpos p * 2 ^ Zpos p).
Proof.
  rewrite (Pos2Z.inj_xI p). replace (2 * Zpos p + 1) with (Zpos p + Zpos p + 1) by lia.
  rewrite Z.pow_add_r by lia. rewrite Z.pow_add_r by lia.
  rewrite Z.pow_1_r. ring.
Qed.

Lemma pow2_xO (p : positive) : 2 ^ Zpos p~0 = 2 ^ Zpos p * 2 ^ Zpos p.
Proof.
  rewrite (Pos2Z.inj_xO p), <- Z.add_diag.
  rewrite Z.pow_add_r by lia. ring.
Qed.

Lemma iter_pos_shr (p : positive) :
  forall m, 0 <= m ->
  SpecFloat.iter_pos shr_1 p (Build_shr_record (m * 2 ^ Zpos p) false false) =
  Build_shr_record m false false.
Proof.
  induction p as [p IH|p IH|]; intros m Hm; cbn [SpecFloat.iter_pos].
  - assert (Hp : 0 < 2 ^ Zpos p) by (apply Z.pow_pos_nonneg; lia).
    replace (m * 2 ^ Z.pos p~1) with (2 * ((m * 2 ^ Zpos p) * 2 ^ Zpos p))
      by (rewrite pow2_xI; ring).
    rewrite shr_1_even by nia. rewrite IH by nia. apply IH, Hm.
  - assert (Hp : 0 < 2 ^ Zpos p) by (apply Z.pow_pos_nonneg; lia).
    replace (m * 2 ^ Z.pos p~0) with ((m * 2 ^ Zpos p) * 2 ^ Zpos p)
      by (rewrite pow2_xO; ring).
    rewrite IH by nia. apply IH, Hm.
  - rewrite Z.pow_1_r, Z.mul_comm. apply shr_1_even, Hm.
Qed.


(** binary_round_aux on an exactly representable value *)
Lemma binary_round_aux_exact (s : bool) (k : positive) (a e : Z) :
  let dk := Zdigits2 (Zpos k) in
  dk <= 53 -> 0 <= a -> 53 <= dk + a ->
  -1074 <= e + a + dk - 53 <= 971 ->
  binary_round_aux Py.prec Py.emax s (Zpos k * 2 ^ a) e loc_Exact =
  S754_finite s (Z.to_pos (Zpos k * 2 ^ (53 - dk))) (e + a + dk - 53).
Proof.
  intros dk Hdk Ha Hsum He.
  assert (Hdk1 : 1 <= dk).
  { unfold dk. rewrite Zdigits2_log2 by lia. pose proof (Z.log2_nonneg (Zpos k)). lia. }
  unfold binary_round_aux, shr_fexp.
  rewrite Zdigits2_mul_pow2 by lia. fold dk.
  unfold fexp, emin, Py.prec, Py.emax.
  rewrite Z.max_l by lia.
  set (n := dk + a + e - 53 - e).
  assert (Hn : n = dk + a - 53) by (unfold n; lia).
  cbn [shr_record_of_loc].
  assert (Hval : Zpos k * 2 ^ a = (Zpos k * 2 ^ (53 - dk)) * 2 ^ n).
  { rewrite <- Z.mul_assoc, <- Z.pow_add_r by lia. f_equal. f_equal. lia. }
  assert (Hshr : shr (Build_shr_record (Zpos k * 2 ^ a) false false) e n =
                 (Build_shr_record (Zpos k * 2 ^ (53 - dk)) false false, e + n)).
  { unfold shr. destruct n as [|p|p] eqn:En; try lia.
    - rewrite Hval. rewrite Z.pow_0_r, Z.mul_1_r. f_equal. lia.
    - rewrite Hval. rewrite iter_pos_shr; [reflexivity|].
      apply Z.mul_nonneg_nonneg; [lia|]. apply Z.pow_nonneg. lia. }
  rewrite Hshr. cbn [shr_m loc_of_shr_record round_nearest_even].
  set (m1 := Zpos k * 2 ^ (53 - dk)).
  assert (Hm1 : 0 < m1) by (unfold m1; apply Z.mul_pos_pos; [lia|apply Z.pow_pos_nonneg; lia]).
  assert (Hd1 : Zdigits2 m1 = 53).
  { unfold m1. rewrite Zdigits2_mul_pow2 by lia. fold dk. lia. }
  rewrite Hd1. rewrite Z.max_l by lia.
  replace (53 + (e + n) - 53 - (e + n)) with 0 by lia.
  cbn [shr shr_m].
  destruct m1 as [|p1|p1] eqn:Em; try lia.
  destruct (Z.leb_spec (e + n) (1024 - 53)); [|lia].
  simpl Z.to_pos. f_equal. lia.
Qed.

Lemma Zdigits2_bounds (n : Z) : 0 < n -> n < 2 ^ 53 -> 1 <= Zdigits2 n <= 53.
Proof.
  intros H0 H1. rewrite Zdigits2_log2 by lia.
  pose proof (Z.log2_nonneg n).
  assert (Z.log2 n < 53) by (apply Z.log2_lt_pow2; lia). lia.
Qed.

Lemma Zdigits2_mul (x y : Z) :
  0 < x -> 0 < y ->
  Zdigits2 x + Zdigits2 y - 1 <= Zdigits2 (x * y) <= Zdigits2 x + Zdigits2 y.
Proof.
  intros Hx Hy. rewrite !Zdigits2_log2 by nia.
  pose proof (Z.log2_mul_below x y Hx Hy).
  pose proof (Z.log2_mul_above x y ltac:(lia) ltac:(lia)). lia.
Qed.

Lemma iter_xO_pow2 (k d : positive) :
  Zpos (Pos.iter xO k d) = Zpos k * 2 ^ Zpos d.
Proof.
  induction d as [|d IH] using Pos.peano_ind.
  - simpl. lia.
  - rewrite Pos.iter_succ, Pos2Z.inj_xO, IH, Pos2Z.inj_succ, Z.pow_succ_r by lia.
    ring.
Qed.

Lemma round_canon (k : positive) (a e : Z) :
  Zpos k < 2 ^ 53 -> 0 <= a -> 53 <= Zdigits2 (Zpos k) + a -> e + a = 0 ->
  binary_round_aux Py.prec Py.emax false (Zpos k * 2 ^ a) e loc_Exact = canon (Zpos k).
Proof.
  intros Hk Ha Hs He.
  pose proof (Zdigits2_bounds (Zpos k) ltac:(lia) Hk) as Hd.
  rewrite binary_round_aux_exact by lia.
  unfold canon. f_equal. lia.
Qed.

Lemma binary_normalize_canon (n : Z) :
  0 < n -> n < 2 ^ 53 -> binary_normalize Py.prec Py.emax n 0 false = canon n.
Proof.
  intros H0 H1. destruct n as [|k|k]; try lia.
  pose proof (Zdigits2_bounds (Zpos k) ltac:(lia) H1) as Hd.
  unfold binary_normalize, binary_round.
  change (Zpos (digits2_pos k)) with (Zdigits2 (Zpos k)).
  unfold fexp, emin, Py.prec, Py.emax. rewrite Z.add_0_r.
  rewrite Z.max_l by lia.
  unfold shl_align.
  destruct (Zdigits2 (Zpos k) - 53 - 0) as [|d|d] eqn:Ed; try lia.
  - replace (Zpos k) with (Zpos k * 2 ^ 0) at 1 by (rewrite Z.pow_0_r; lia).
    apply round_canon; lia.
  - rewrite iter_xO_pow2. apply round_canon; lia.
Qed.

Lemma canon_mantissa (n : Z) :
  0 < n -> n < 2 ^ 53 ->
  Zpos (Z.to_pos (n * 2 ^ (53 - Zdigits2 n))) = n * 2 ^ (53 - Zdigits2 n).
Proof.
  intros H0 H1. pose proof (Zdigits2_bounds n H0 H1).
  apply Z2Pos.id. apply Z.mul_pos_pos; [lia|]. apply Z.pow_pos_nonneg; lia.
Qed.

Lemma SFmul_canon (i d : Z) :
  0 < i -> 0 < d -> i * d < 2 ^ 53 ->
  SFmul Py.prec Py.emax (canon i) (canon d) = canon (i * d).
Proof.
  intros Hi Hd Hid.
  assert (Hi53 : i < 2 ^ 53) by nia. assert (Hd53 : d < 2 ^ 53) by nia.
  pose proof (Zdigits2_bounds i Hi Hi53) as Bi.
  pose proof (Zdigits2_bounds d Hd Hd53) as Bd.
  pose proof (Zdigits2_bounds (i * d) ltac:(nia) Hid) as Bid.
  pose proof (Zdigits2_mul i d Hi Hd) as Bm.
  unfold canon at 1 2. cbn [SFmul xorb].
  rewrite Pos2Z.inj_mul, !canon_mantissa by assumption.
  destruct (i * d) as [|k|k] eqn:Ek; try lia.
  replace (i * 2 ^ (53 - Zdigits2 i) * (d * 2 ^ (53 - Zdigits2 d)))
    with (Zpos k * 2 ^ (106 - Zdigits2 i - Zdigits2 d)).
  - apply round_canon; lia.
  - rewrite <- Ek.
    replace (106 - Zdigits2 i - Zdigits2 d)
      with ((53 - Zdigits2 i) + (53 - Zdigits2 d)) by lia.
    rewrite Z.pow_add_r by lia. ring.
Qed.

Lemma div_eucl_exact (q b : Z) : 0 < b -> Z.div_eucl (q * b) b = (q, 0).
Proof.
  intros Hb.
  assert (E : Z.div_eucl (q * b) b = ((q * b) / b, (q * b) mod b)).
  { unfold Z.div, Z.modulo. now destruct (Z.div_eucl (q * b) b). }
  rewrite E, Z.div_mul, Z.mod_mul by lia. reflexivity.
Qed.

Lemma new_location_exact (n : Z) : new_location n 0 = loc_Exact.
Proof. unfold new_location. destruct (Z.even n); reflexivity. Qed.

Lemma canon_digits (n : Z) :
  0 < n -> n < 2 ^ 53 -> Zdigits2 (n * 2 ^ (53 - Zdigits2 n)) = 53.
Proof.
  intros H0 H1. pose proof (Zdigits2_bounds n H0 H1).
  rewrite Zdigits2_mul_pow2 by lia. lia.
Qed.

Lemma SFdiv_canon (n d : Z) :
  0 < n -> 0 < d -> n * d < 2 ^ 53 ->
  SFdiv Py.prec Py.emax (canon (n * d)) (canon n) = canon d.
Proof.
  intros Hn Hd Hnd.
  assert (Hn53 : n < 2 ^ 53) by nia. assert (Hd53 : d < 2 ^ 53) by nia.
  pose proof (Zdigits2_bounds n Hn Hn53) as Bn.
  pose proof (Zdigits2_bounds d Hd Hd53) as Bd.
  pose proof (Zdigits2_bounds (n * d) ltac:(nia) Hnd) as Bnd.
  pose proof (Zdigits2_mul n d Hn Hd) as Bm.
  unfold canon at 1 2. cbn [SFdiv xorb].
  unfold SFdiv_core_binary.
  rewrite !canon_mantissa by (assumption || nia).
  rewrite !canon_digits by (assumption || nia).
  set (DN := Zdigits2 (n * d)) in *. set (Dn := Zdigits2 n) in *.
  unfold fexp, emin, Py.prec, Py.emax.
  replace (53 + (DN - 53) - (53 + (Dn - 53))) with (DN - Dn) by lia.
  rewrite Z.max_l by lia. rewrite Z.min_l by lia.
  replace (DN - 53 - (Dn - 53) - (DN - Dn - 53)) with 53 by lia.
  cbv iota beta.
  rewrite Z.shiftl_mul_pow2 by lia.
  replace (n * d * 2 ^ (53 - DN) * 2 ^ 53)
    with ((d * 2 ^ (53 - DN + Dn)) * (n * 2 ^ (53 - Dn))).
  - rewrite div_eucl_exact
      by (apply Z.mul_pos_pos; [lia|apply Z.pow_pos_nonneg; lia]).
    rewrite new_location_exact.
    destruct d as [|k|k]; try lia.
    apply round_canon; lia.
  - replace (53 - DN + Dn) with ((53 - DN) + 53 - (53 - Dn)) by lia.
    assert (E : 2 ^ (53 - DN + 53) = 2 ^ (53 - DN + 53 - (53 - Dn)) * 2 ^ (53 - Dn)).
    { rewrite <- Z.pow_add_r by lia. f_equal. lia. }
    rewrite (Z.pow_add_r 2 (53 - DN) 53) in E by lia.
    nia.
Qed.

Lemma float_of_int_canon (n : Z) :
  0 < n -> n < 2 ^ 53 -> Py.float_of_int n = Some (canon n).
Proof.
  intros H0 H1. unfold Py.float_of_int.
  rewrite binary_normalize_canon by assumption. reflexivity.
Qed.

Lemma int_truediv_canon (n : Z) :
  0 < n -> n < 2 ^ 53 -> Py.int_truediv (n * 10 ^ 6) (10 ^ 6) = Some (canon n).
Proof.
  intros H0 H1.
  pose proof (Zdigits2_bounds n H0 H1) as Bn.
  pose proof (Zdigits2_mul n (10 ^ 6) H0 ltac:(reflexivity)) as Bm.
  change (Zdigits2 (10 ^ 6)) with 20 in Bm.
  unfold Py.int_truediv.
  change (10 ^ 6) with 1000000 in *.
  destruct (n * 1000000) as [|a|a] eqn:Ea; try lia.
  cbn [Z.abs Z.ltb Z.compare xorb].
  unfold SFdiv_core_binary.
  change (Zdigits2 1000000) with 20.
  set (D1 := Zdigits2 (Zpos a)) in *.
  unfold fexp, emin, Py.prec, Py.emax.
  replace (D1 + 0 - (20 + 0)) with (D1 - 20) by lia.
  rewrite Z.max_l by lia.
  assert (Hres : forall s : Z, s = 73 - D1 ->
    binary_round_aux 53 1024 false (n * 2 ^ s) (- s) loc_Exact = canon n).
  { intros s ->. destruct n as [|k|k]; try lia.
    apply (round_canon k); lia. }
  rewrite Z.min_l by lia.
  change (binary_round_aux Py.prec Py.emax) with (binary_round_aux 53 1024).
  remember (73 - D1) as s eqn:Es.
  replace (D1 - 20 - 53) with (- s) by lia.
  replace (0 - 0 - - s) with s by lia.
  specialize (Hres s eq_refl).
  destruct s as [|s|s]; try lia; cbv beta iota.
  - rewrite <- Ea, div_eucl_exact by lia. rewrite new_location_exact.
    rewrite Z.pow_0_r, Z.mul_1_r in Hres.
    rewrite Hres. reflexivity.
  - rewrite Z.shiftl_mul_pow2 by lia.
    rewrite <- Ea.
    replace (n * 1000000 * 2 ^ Zpos s) with ((n * 2 ^ Zpos s) * 1000000) by ring.
    rewrite div_eucl_exact by lia. rewrite new_location_exact.
    rewrite Hres. reflexivity.
Qed.

Lemma int_of_float_canon (k : Z) :
  0 < k -> k < 2 ^ 53 -> Py.int_of_float (canon k) = Some k.
Proof.
  intros H0 H1. pose proof (Zdigits2_bounds k H0 H1) as B.
  unfold canon, Py.int_of_float. rewrite canon_mantissa by assumption.
  destruct (Z.leb_spec 0 (Zdigits2 k - 53)) as [H|H].
  - replace (Zdigits2 k) with 53 by lia. simpl. f_equal. lia.
  - rewrite Z.shiftr_div_pow2 by lia.
    replace (- (Zdigits2 k - 53)) with (53 - Zdigits2 k) by lia.
    rewrite Z.div_mul; [reflexivity|].
    apply Z.pow_nonzero; lia.
Qed.

Lemma modf_canon (k : Z) :
  0 < k -> k < 2 ^ 53 -> Py.modf (canon k) = (S754_zero false, canon k).
Proof.
  intros H0 H1. pose proof (Zdigits2_bounds k H0 H1) as B.
  unfold Py.modf. unfold canon at 1.
  destruct (Z.leb_spec 0 (Zdigits2 k - 53)) as [H|H]; [reflexivity|].
  rewrite canon_mantissa by assumption.
  replace (- (Zdigits2 k - 53)) with (53 - Zdigits2 k) by lia.
  rewrite Z.land_ones by lia. rewrite Z.mod_mul by (apply Z.pow_nonzero; lia).
  rewrite Z.shiftr_div_pow2 by lia.
  rewrite Z.div_mul by (apply Z.pow_nonzero; lia).
  cbn [cond_Zopp]. rewrite binary_normalize_canon by assumption.
  reflexivity.
Qed.

Lemma timedelta_of_float_canon (k : Z) :
  0 < k -> k < 2 ^ 53 ->
  Py.timedelta_of_float Py.us_per_second (canon k) =
  Some (k * Py.us_per_second).
Proof.
  intros H0 H1. unfold Py.timedelta_of_float.
  rewrite modf_canon, int_of_float_canon by assumption.
  reflexivity.
Qed.

Lemma int_mul_float_canon (i d : Z) :
  0 < i -> 0 < d -> i * d < 2 ^ 53 ->
  Py.int_mul_float i (canon d) = Some (canon (i * d)).
Proof.
  intros Hi Hd Hid. unfold Py.int_mul_float.
  rewrite float_of_int_canon by nia.
  unfold Py.fmul. now rewrite SFmul_canon.
Qed.

Lemma float_div_int_canon (n d : Z) :
  0 < n -> 0 < d -> n * d < 2 ^ 53 ->
  Py.float_div_int (canon (n * d)) n = Some (canon d).
Proof.
  intros Hn Hd Hnd. unfold Py.float_div_int.
  rewrite float_of_int_canon by nia.
  unfold canon at 2. unfold Py.fdiv.
  fold (canon n). now rewrite SFdiv_canon.
Qed.

(** A session captured at a uniform rate of one frame every [d] seconds:
    the interpolation is exact. *)
Lemma interpolated_uniform (t0 n d i : Z) :
  1 <= n -> 1 <= d -> n * d < 2 ^ 53 -> 0 <= i <= n ->
  interpolated t0 (t0 + n * d * Py.us_per_second) (n + 1) i =
  Some (t0 + i * d * Py.us_per_second).
Proof.
  intros Hn Hd Hnd Hi. unfold interpolated, Py.total_seconds.
  replace (t0 + n * d * Py.us_per_second - t0) with ((n * d) * 10 ^ 6)
    by (unfold Py.us_per_second; change (10 ^ 6) with 1000000; ring).
  rewrite int_truediv_canon by nia.
  replace (n + 1 - 1) with n by lia.
  rewrite float_div_int_canon by lia.
  destruct (Z.eq_dec i 0) as [->|Hi0].
  - reflexivity.
  - rewrite int_mul_float_canon by nia.
    rewrite timedelta_of_float_canon by nia.
    reflexivity.
Qed.

(** ** The interpolated timestamps *)

Lemma combine_nth_error {A B : Type} (l1 : list A) (l2 : list B) (i : nat)
    (a : A) (b : B) :
  nth_error l1 i = Some a -> nth_error l2 i = Some b ->
  nth_error (combine l1 l2) i = Some (a, b).
Proof.
  revert l2 i. induction l1 as [|x l1 IH]; intros [|y l2] [|i] H1 H2;
    try discriminate; simpl in *.
  - congruence.
  - now apply IH.
Qed.

Lemma enumerate_nth {A : Type} (l : list A) (i : nat) (x : A) :
  nth_error l i = Some x ->
  nth_error (Py.enumerate l) i = Some (Z.of_nat i, x).
Proof.
  intros H. unfold Py.enumerate.
  assert (Hi : (i < List.length l)%nat) by (apply nth_error_Some; congruence).
  apply combine_nth_error; [|exact H].
  rewrite nth_error_map, nth_error_seq.
  destruct (Nat.ltb_spec i (List.length l)); [reflexivity|lia].
Qed.

Lemma append_frames_app (t0 : Z) (iv : Py.num) (root : string)
    (l : list (Z * string)) :
  forall frames out,
    Goldenhour.append_frames t0 iv root l frames = Some out ->
    exists fs,
      out = app frames fs /\
      Forall2 (fun p f => Goldenhour.frame_at t0 iv root p = Some f) l fs.
Proof.
  induction l as [|q l IH]; intros frames out H.
  - injection H as <-. exists []. split; [now rewrite app_nil_r|constructor].
  - cbn [Goldenhour.append_frames] in H.
    destruct (Goldenhour.frame_at t0 iv root q) as [f|] eqn:Eq; [|discriminate].
    destruct (IH _ _ H) as (fs & -> & Hall).
    exists (f :: fs). split; [now rewrite <- app_assoc|].
    now constructor.
Qed.

Lemma Forall2_nth {A B : Type} (R : A -> B -> Prop) (l1 : list A) (l2 : list B) :
  Forall2 R l1 l2 ->
  forall (k : nat) (a : A),
    nth_error l1 k = Some a -> exists b, nth_error l2 k = Some b /\ R a b.
Proof.
  induction 1 as [|x y l1 l2 Hxy Hall IH]; intros [|k] a Hk; try discriminate.
  - injection Hk as <-. exists y. now split.
  - now apply IH.
Qed.

Lemma append_frames_map (t0 : Z) (iv : Py.num) (root : string)
    (g : Z * string -> Py.frame) (l : list (Z * string)) :
  (forall p, In p l -> Goldenhour.frame_at t0 iv root p = Some (g p)) ->
  forall frames,
    Goldenhour.append_frames t0 iv root l frames = Some (app frames (map g l)).
Proof.
  induction l as [|p l IH]; intros Hall frames.
  - simpl. now rewrite app_nil_r.
  - cbn [Goldenhour.append_frames map].
    rewrite (Hall p (or_introl eq_refl)).
    rewrite IH by (intros q Hq; apply Hall; now right).
    now rewrite <- app_assoc.
Qed.

Lemma enumerate_In {A : Type} (l : list A) (i : Z) (x : A) :
  In (i, x) (Py.enumerate l) -> 0 <= i < Z.of_nat (List.length l).
Proof.
  intros H. unfold Py.enumerate in H. apply in_combine_l in H.
  apply in_map_iff in H. destruct H as (k & <- & Hk).
  apply in_seq in Hk. lia.
Qed.

Lemma frame_at_uniform (t0 d i : Z) (root f : string) :
  1 <= d -> 0 <= i -> i * d < 2 ^ 53 ->
  Goldenhour.frame_at t0 (Py.Float (canon d)) root (i, f) =
  Some (t0 + i * d * Py.us_per_second, Py.path_join root f).
Proof.
  intros Hd Hi Hid. unfold Goldenhour.frame_at. cbn [fst snd Py.int_mul].
  destruct (Z.eq_dec i 0) as [->|Hi0].
  - reflexivity.
  - rewrite int_mul_float_canon by lia.
    cbn [option_map Py.timedelta_seconds].
    rewrite timedelta_of_float_canon by nia. reflexivity.
Qed.

(** The visit of a session captured at one frame every [d] seconds
    completes, and gives frame [i] the timestamp [t0 + i d] seconds. *)
Lemma golden_visit_uniform (exif : string -> option Z) (cutoff : option Z)
    (root : string) (files tls_files : list string) (t0 tn d : Z)
    (frames : list Py.frame) :
  session exif root files tls_files t0 tn ->
  2 <= Z.of_nat (List.length tls_files) ->
  1 <= d ->
  tn = t0 + (Z.of_nat (List.length tls_files) - 1) * d * Py.us_per_second ->
  (Z.of_nat (List.length tls_files) - 1) * d < 2 ^ 53 ->
  not_cut_off cutoff t0 ->
  Goldenhour.visit exif cutoff frames (root, files) =
  Some (app frames
          (map (fun p => (t0 + fst p * d * Py.us_per_second,
                          Py.path_join root (snd p)))
             (Py.enumerate tls_files))).
Proof.
  intros (Hth & Hs & first & rest & Htl & H0 & Hn) Hcount Hd Htn Hbound Hcut.
  unfold Goldenhour.visit. rewrite Hth, Hs.
  rewrite Htl. rewrite <- Htl. rewrite H0, Hn.
  unfold not_cut_off in Hcut. rewrite Hcut.
  set (n := Z.of_nat (List.length tls_files) - 1) in *.
  unfold Goldenhour.interval.
  destruct (Z.ltb_spec 1 (Z.of_nat (List.length tls_files))) as [_|?]; [|lia].
  unfold Py.total_seconds.
  replace (tn - t0) with ((n * d) * 10 ^ 6)
    by (rewrite Htn; unfold Py.us_per_second; change (10 ^ 6) with 1000000; ring).
  rewrite int_truediv_canon by nia. fold n.
  rewrite float_div_int_canon by lia.
  cbn [option_map].
  apply append_frames_map.
  intros [i f] Hin. apply enumerate_In in Hin.
  cbv beta. cbn [fst snd]. apply frame_at_uniform; [lia|lia|].
  apply Z.le_lt_trans with (n * d); [|exact Hbound].
  apply Z.mul_le_mono_nonneg_r; unfold n; lia.
Qed.

(** C2, as stated, fails in automate_overlapping_timelapse.py: for a session
    of two frames read at 12:00:00 and 12:00:20 the claimed timestamp of
    frame 1 is 12:00:20, and the index gives it 12:00:10. *)
Lemma overlapping_ignores_last_timestamp :
  Overlapping.GlobalTimeline_init twenty_exif twenty_walk =
    [(noon_2025_10_01, "a/TLS_000000001.jpg");
     (noon_2025_10_01 + 10 * Py.us_per_second, "a/TLS_000000002.jpg")]%string /\
  noon_2025_10_01 + 1 * (twenty_past_noon - noon_2025_10_01) / (2 - 1) =
    twenty_past_noon /\
  noon_2025_10_01 + 10 * Py.us_per_second <> twenty_past_noon.
Proof.
  repeat split. vm_compute. discriminate.
Qed.

(** C2 (amended).  For a session of [count >= 2] frames whose first and
    last capture times [t0] and [tn] were read:
    in automate_goldenhour.py and automate_rewind.py a visit that completes
    gives frame [i] the timestamp
    [t0 + timedelta(seconds=i * ((tn - t0).total_seconds() / (count - 1)))],
    the claimed value evaluated in double precision and rounded to the
    microsecond; when the frames are a whole number [d] of seconds apart the
    visit completes and the timestamp is exactly
    [t0 + i (tn - t0) / (count - 1)];
    in automate_overlapping_timelapse.py frame [i] gets [t0 + 10 i]
    seconds, whatever [tn] is.  For 101 frames from 12:00:00 to 12:16:40
    both give frame 50 the timestamp 12:08:20. *)
Theorem session_timestamps (exif : string -> option Z) (cutoff : option Z)
    (root : string) (files tls_files : list string) (t0 tn : Z)
    (frames : list Py.frame) :
  session exif root files tls_files t0 tn ->
  2 <= Z.of_nat (List.length tls_files) ->
  let count := Z.of_nat (List.length tls_files) in
  (forall out,
     not_cut_off cutoff t0 ->
     Goldenhour.visit exif cutoff frames (root, files) = Some out ->
     forall (i : nat) (f : string),
       nth_error tls_files i = Some f ->
       exists t,
         interpolated t0 tn count (Z.of_nat i) = Some t /\
         nth_error out (List.length frames + i) =
           Some (t, Py.path_join root f)) /\
  (forall d,
     1 <= d ->
     tn = t0 + (count - 1) * d * Py.us_per_second ->
     (count - 1) * d < 2 ^ 53 ->
     not_cut_off cutoff t0 ->
     exists out,
       Goldenhour.visit exif cutoff frames (root, files) = Some out /\
       forall (i : nat) (f : string),
         nth_error tls_files i = Some f ->
         nth_error out (List.length frames + i) =
           Some (t0 + Z.of_nat i * (tn - t0) / (count - 1),
                 Py.path_join root f)) /\
  (Overlapping.CUTOFF_DATE <= t0 ->
   forall (i : nat) (f : string),
     nth_error tls_files i = Some f ->
     nth_error (Overlapping.visit exif frames (root, files))
       (List.length frames + i) =
       Some (t0 + (Z.of_nat i * 10) * Py.us_per_second,
             Py.path_join root f)) /\
  interpolated noon_2025_10_01 sixteen_forty_past_noon 101 50 =
    Some eight_twenty_past_noon /\
  noon_2025_10_01 + (50 * 10) * Py.us_per_second = eight_twenty_past_noon.
Proof.
  intros Hsession Hcount count.
  split; [|split; [|split; [|split; vm_compute; reflexivity]]].
  - destruct Hsession as (Hth & Hs & first & rest & Htl & H0 & Hn).
    intros out Hcut Hv i f Hi.
    unfold Goldenhour.visit in Hv. rewrite Hth, Hs in Hv.
    rewrite Htl in Hv. rewrite <- Htl in Hv. rewrite H0, Hn in Hv.
    unfold not_cut_off in Hcut. rewrite Hcut in Hv.
    unfold Goldenhour.interval in Hv. fold count in Hv.
    destruct (Z.ltb_spec 1 count) as [_|?]; [|lia].
    unfold interpolated.
    destruct (Py.total_seconds (tn - t0)) as [s|]; [|discriminate].
    destruct (Py.float_div_int s (count - 1)) as [iv|]; [|discriminate].
    cbn [option_map] in Hv.
    destruct (append_frames_app _ _ _ _ _ _ Hv) as (fs & -> & Hall).
    destruct (Forall2_nth _ _ _ Hall i (Z.of_nat i, f) (enumerate_nth _ _ _ Hi))
      as (fr & Hfr & Hat).
    unfold Goldenhour.frame_at in Hat. cbn [fst snd Py.int_mul] in Hat.
    destruct (Py.int_mul_float (Z.of_nat i) iv) as [x|]; [|discriminate].
    cbn [option_map Py.timedelta_seconds] in Hat.
    destruct (Py.timedelta_of_float Py.us_per_second x) as [d|]; [|discriminate].
    injection Hat as <-.
    exists (t0 + d). split; [reflexivity|].
    rewrite nth_error_app2 by lia.
    replace (List.length frames + i - List.length frames)%nat with i by lia.
    exact Hfr.
  - intros d Hd Htn Hbound Hcut.
    eexists. split.
    + apply (golden_visit_uniform exif cutoff root files tls_files t0 tn d);
        assumption.
    + intros i f Hi.
      rewrite nth_error_app2 by lia.
      replace (List.length frames + i - List.length frames)%nat with i by lia.
      rewrite nth_error_map, (enumerate_nth _ _ _ Hi). cbn [option_map fst snd].
      f_equal. f_equal. f_equal.
      replace (Z.of_nat i * (tn - t0))
        with ((Z.of_nat i * d * Py.us_per_second) * (count - 1))
        by (rewrite Htn; ring).
      rewrite Z.div_mul by lia. reflexivity.
  - destruct Hsession as (Hth & Hs & first & rest & Htl & H0 & Hn).
    intros Hcut i f Hi.
    unfold Overlapping.visit. rewrite Hth.
    change Overlapping.is_tls with Goldenhour.is_tls. rewrite Hs.
    rewrite Htl. rewrite <- Htl. rewrite H0, Hn.
    destruct (Z.ltb_spec t0 Overlapping.CUTOFF_DATE) as [?|_]; [lia|].
    rewrite nth_error_app2 by lia.
    replace (List.length frames + i - List.length frames)%nat with i by lia.
    rewrite nth_error_map, (enumerate_nth _ _ _ Hi). reflexivity.
Qed.

Lemma hundred_session :
  session hundred_exif "s" (session_files 101) (session_files 101)
    noon_2025_10_01 sixteen_forty_past_noon.
Proof.
  split; [vm_compute; reflexivity|]. split; [vm_compute; reflexivity|].
  exists "TLS_000000001.jpg"%string, (tl (session_files 101)).
  repeat split; vm_compute; reflexivity.
Qed.

Lemma session_timestamps_witness :
  exists out,
    Goldenhour.visit hundred_exif None [] ("s"%string, session_files 101) =
      Some out /\
    forall (i : nat) (f : string),
      nth_error (session_files 101) i = Some f ->
      nth_error out (List.length (@nil Py.frame) + i) =
        Some (noon_2025_10_01
              + Z.of_nat i * (sixteen_forty_past_noon - noon_2025_10_01)
                / (Z.of_nat (List.length (session_files 101)) - 1),
              Py.path_join "s" f).
Proof.
  apply (proj1 (proj2 (session_timestamps hundred_exif None "s"%string
                         (session_files 101) (session_files 101)
                         noon_2025_10_01 sixteen_forty_past_noon []
                         hundred_session ltac:(vm_compute; discriminate)))
           10).
  - lia.
  - vm_compute. reflexivity.
  - vm_compute. reflexivity.
  - reflexivity.
Defined.

(** Where the quotient is not a whole number of microseconds the timestamp
    is the rounded one: four frames over one second, frame 1 at a third of
    a second. *)
Example interpolated_rounds :
  interpolated 0 1000000 4 1 = Some 333333 /\
  interpolated 0 1000000 4 2 = Some 666667.
Proof. split; vm_compute; reflexivity. Qed.

(** The concrete case on the whole index, in the three scripts. *)
Example frame_50_at_12_08_20 :
  option_map (fun frames => nth_error frames 50)
    (Goldenhour.GlobalTimeline_init hundred_exif hundred_walk None) =
    Some (Some (eight_twenty_past_noon, "s/TLS_000000051.jpg"%string)) /\
  option_map (fun frames => nth_error frames 50)
    (Rewind.GlobalTimeline_init hundred_exif hundred_walk None) =
    Some (Some (eight_twenty_past_noon, "s/TLS_000000051.jpg"%string)) /\
  nth_error (Overlapping.GlobalTimeline_init hundred_exif hundred_walk) 50 =
    Some (eight_twenty_past_noon, "s/TLS_000000051.jpg"%string).
Proof. repeat split; vm_compute; reflexivity. Qed.

(** * Further properties of the code *)

(** ** The time window *)

Lemma filter_all {A : Type} (p : A -> bool) (l : list A) :
  Forall (fun x => p x = true) l -> filter p l = l.
Proof.
  induction 1 as [|x l Hx _ IH]; simpl; [reflexivity|].
  rewrite Hx, IH. reflexivity.
Qed.

Lemma filter_none {A : Type} (p : A -> bool) (l : list A) :
  Forall (fun x => p x = false) l -> filter p l = [].
Proof.
  induction 1 as [|x l Hx _ IH]; simpl; [reflexivity|].
  rewrite Hx, IH. reflexivity.
Qed.

Lemma sorted_app_l {A : Type} (R : A -> A -> Prop) (l1 l2 : list A) :
  StronglySorted R (app l1 l2) -> StronglySorted R l1.
Proof.
  induction l1 as [|x l1 IH]; simpl; intros H; [constructor|].
  inversion H as [|? ? Hs Hf]; subst. constructor.
  - apply IH, Hs.
  - apply Forall_app in Hf. apply Hf.
Qed.

Lemma sorted_app_r {A : Type} (R : A -> A -> Prop) (l1 l2 : list A) :
  StronglySorted R (app l1 l2) -> StronglySorted R l2.
Proof.
  induction l1 as [|x l1 IH]; simpl; intros H; [exact H|].
  inversion H; subst. apply IH. assumption.
Qed.

Lemma time_window_block (frames : list Py.frame) (start_time end_time : Z) :
  StronglySorted ts_le frames ->
  exists before after,
    frames =
      app before
        (app (Goldenhour.get_time_window frames start_time end_time) after) /\
    Forall (fun f => Py.ts f < start_time) before /\
    Forall (fun f => end_time < Py.ts f) after.
Proof.
  intros Hs.
  destruct (sorted_split start_time frames Hs) as (l1 & l2 & E & H1 & H2).
  assert (Hs2 : StronglySorted ts_le l2).
  { rewrite E in Hs. apply sorted_app_r in Hs. exact Hs. }
  destruct (sorted_split (end_time + 1) l2 Hs2) as (m & r & E2 & Hm & Hr).
  exists l1, r. subst frames l2.
  unfold Goldenhour.get_time_window.
  rewrite !filter_app.
  rewrite (filter_none _ l1), (filter_all _ m), (filter_none _ r).
  - simpl. rewrite app_nil_r. split; [reflexivity|]. split; [exact H1|].
    eapply Forall_impl; [|exact Hr]. cbv beta. intros; lia.
  - eapply Forall_impl; [|exact Hr]. cbv beta. intros f Hf.
    apply andb_false_iff. right. apply Z.leb_gt. lia.
  - apply Forall_app in H2. destruct H2 as [H2 _].
    rewrite Forall_forall in *. intros f Hf.
    specialize (H2 f Hf). specialize (Hm f Hf). cbv beta in *.
    apply andb_true_iff. split; apply Z.leb_le; lia.
  - eapply Forall_impl; [|exact H1]. cbv beta. intros f Hf.
    apply andb_false_iff. left. apply Z.leb_gt. lia.
Qed.

(** X1.  On an index built by [GlobalTimeline.__init__] of
    automate_goldenhour.py or automate_rewind.py, [get_time_window] returns
    one contiguous run of the index: every frame in front of it is earlier
    than [start_time], every frame behind it is later than [end_time], and
    the run is itself in timestamp order. *)
Theorem time_window_is_contiguous (exif : string -> option Z)
    (walk : list (string * list string)) (cutoff : option Z)
    (frames : list Py.frame) (start_time end_time : Z) :
  Goldenhour.GlobalTimeline_init exif walk cutoff = Some frames ->
  exists before after,
    frames =
      app before
        (app (Goldenhour.get_time_window frames start_time end_time) after) /\
    Rewind.get_time_window frames start_time end_time =
      Goldenhour.get_time_window frames start_time end_time /\
    Forall (fun f => Py.ts f < start_time) before /\
    Forall (fun f => end_time < Py.ts f) after /\
    StronglySorted ts_le
      (Goldenhour.get_time_window frames start_time end_time).
Proof.
  unfold Goldenhour.GlobalTimeline_init. intros H.
  destruct (Goldenhour.walk_loop exif cutoff walk []) as [raw|];
    [|discriminate].
  injection H as <-.
  pose proof (sort_by_ts_sorted raw) as Hs.
  destruct (time_window_block _ start_time end_time Hs)
    as (before & after & E & Hb & Ha).
  exists before, after. split; [exact E|]. split; [reflexivity|].
  split; [exact Hb|]. split; [exact Ha|].
  rewrite E in Hs. apply sorted_app_r in Hs. apply sorted_app_l in Hs.
  exact Hs.
Qed.

Lemma time_window_is_contiguous_witness :
  exists frames before after,
    Goldenhour.GlobalTimeline_init hundred_exif hundred_walk None = Some frames /\
    frames =
      app before
        (app (Goldenhour.get_time_window frames eight_twenty_past_noon
                sixteen_forty_past_noon) after) /\
    Forall (fun f => Py.ts f < eight_twenty_past_noon) before /\
    Forall (fun f => sixteen_forty_past_noon < Py.ts f) after.
Proof.
  destruct (Goldenhour.GlobalTimeline_init hundred_exif hundred_walk None)
    as [frames|] eqn:E; [|vm_compute in E; discriminate].
  destruct (time_window_is_contiguous hundred_exif hundred_walk None frames
              eight_twenty_past_noon sixteen_forty_past_noon E)
    as (before & after & H1 & _ & H2 & H3 & _).
  exists frames, before, after. repeat split; assumption.
Defined.

(** X2.  A window whose end is before its start selects nothing, and a window
    that lies inside another one selects a part of what the other selects:
    selecting with the inner window after the outer one changes nothing. *)
Theorem time_window_nested (frames : list Py.frame) (s1 e1 s2 e2 : Z) :
  (e1 < s1 -> Goldenhour.get_time_window frames s1 e1 = []) /\
  (s1 <= s2 -> e2 <= e1 ->
   Goldenhour.get_time_window (Goldenhour.get_time_window frames s1 e1) s2 e2 =
   Goldenhour.get_time_window frames s2 e2).
Proof.
  split.
  - intros H. unfold Goldenhour.get_time_window. apply filter_none.
    apply Forall_forall. intros f _. cbv beta.
    destruct (s1 <=? Py.ts f) eqn:E1; [|reflexivity].
    apply Z.leb_le in E1. simpl. apply Z.leb_gt. lia.
  - intros Hs He. unfold Goldenhour.get_time_window.
    induction frames as [|f frames IH]; simpl; [reflexivity|].
    destruct ((s1 <=? Py.ts f) && (Py.ts f <=? e1)) eqn:E1; simpl.
    + rewrite IH. reflexivity.
    + rewrite IH.
      destruct ((s2 <=? Py.ts f) && (Py.ts f <=? e2)) eqn:E2; [|reflexivity].
      apply andb_true_iff in E2. destruct E2 as [A B].
      apply Z.leb_le in A, B.
      apply andb_false_iff in E1. destruct E1 as [E1|E1];
        apply Z.leb_gt in E1; lia.
Qed.

(** ** The frames that enter the index *)

Lemma overlapping_visit_app (exif : string -> option Z)
    (frames : list Py.frame) (d : string * list string) :
  Overlapping.visit exif frames d = app frames (Overlapping.visit exif [] d).
Proof.
  destruct d as [root files]. unfold Overlapping.visit.
  destruct (Py.contains "thumbnail" root); [rewrite app_nil_r; reflexivity|].
  destruct (Py.sorted (filter Overlapping.is_tls files)) as [|first rest];
    [rewrite app_nil_r; reflexivity|].
  destruct (exif (Py.path_join root first)) as [t0|];
    [|rewrite app_nil_r; reflexivity].
  destruct (t0 <? Overlapping.CUTOFF_DATE); [rewrite app_nil_r; reflexivity|].
  destruct (exif (Py.path_join root (last (first :: rest) first)));
    [reflexivity|rewrite app_nil_r; reflexivity].
Qed.

Lemma overlapping_walk_flat_map (exif : string -> option Z)
    (walk : list (string * list string)) :
  forall frames,
    fold_left (Overlapping.visit exif) walk frames =
    app frames (flat_map (Overlapping.visit exif []) walk).
Proof.
  induction walk as [|d walk IH]; intros frames; simpl.
  - rewrite app_nil_r. reflexivity.
  - rewrite IH, overlapping_visit_app, app_assoc. reflexivity.
Qed.

Lemma tuple_le_antisym (a b : Py.frame) : tuple_le a b -> tuple_le b a -> a = b.
Proof.
  unfold tuple_le, Py.tuple_lt, Py.str_lt, String.ltb.
  destruct a as [ta pa], b as [tb pb]. unfold Py.ts, Py.path. simpl.
  intros H1 H2.
  destruct (Z.eqb_spec tb ta) as [E|NE].
  - subst tb. rewrite Z.eqb_refl in H2.
    destruct (String.compare pa pb) eqn:C; try discriminate.
    + apply String.compare_eq_iff in C. subst. reflexivity.
    + rewrite String.compare_antisym, C in H1. discriminate.
  - destruct (Z.eqb_spec ta tb) as [E|_]; [congruence|].
    apply Z.ltb_ge in H1, H2. lia.
Qed.

Lemma sorted_perm_eq {A : Type} (le : A -> A -> Prop) :
  (forall a b, le a b -> le b a -> a = b) ->
  forall l1 l2 : list A,
    StronglySorted le l1 -> StronglySorted le l2 -> Permutation l1 l2 ->
    l1 = l2.
Proof.
  intros antisym. induction l1 as [|x l1 IH]; intros l2 H1 H2 P.
  - apply Permutation_nil in P. subst. reflexivity.
  - destruct l2 as [|y l2].
    + apply Permutation_sym, Permutation_nil in P. discriminate.
    + inversion H1 as [|? ? S1 F1]; subst. inversion H2 as [|? ? S2 F2]; subst.
      assert (E : x = y).
      { assert (Ix : In x (y :: l2))
          by (eapply Permutation_in; [exact P|left; reflexivity]).
        assert (Iy : In y (x :: l1))
          by (eapply Permutation_in;
              [apply Permutation_sym; exact P|left; reflexivity]).
        destruct Ix as [Ix|Ix]; [congruence|].
        destruct Iy as [Iy|Iy]; [congruence|].
        rewrite Forall_forall in F1, F2.
        apply antisym; [apply F1, Iy|apply F2, Ix]. }
      subst y. f_equal. apply IH; try assumption.
      eapply Permutation_cons_inv. exact P.
Qed.

Lemma sort_tuples_perm_eq (l1 l2 : list Py.frame) :
  Permutation l1 l2 -> Py.sort_tuples l1 = Py.sort_tuples l2.
Proof.
  intros P. apply (sorted_perm_eq tuple_le tuple_le_antisym).
  - apply sort_tuples_sorted.
  - apply sort_tuples_sorted.
  - eapply perm_trans; [apply Permutation_sym, list_sort_perm|].
    eapply perm_trans; [exact P|]. apply list_sort_perm.
Qed.

Lemma sort_tuples_idem (l : list Py.frame) :
  Py.sort_tuples (Py.sort_tuples l) = Py.sort_tuples l.
Proof.
  apply (sorted_perm_eq tuple_le tuple_le_antisym).
  - apply sort_tuples_sorted.
  - apply sort_tuples_sorted.
  - apply Permutation_sym, list_sort_perm.
Qed.

(** X3.  The index of automate_overlapping_timelapse.py does not depend on
    the order in which [os.walk] visits the directories. *)
Theorem overlapping_index_order_independent (exif : string -> option Z)
    (walk walk' : list (string * list string)) :
  Permutation walk walk' ->
  Overlapping.GlobalTimeline_init exif walk =
  Overlapping.GlobalTimeline_init exif walk'.
Proof.
  intros P. unfold Overlapping.GlobalTimeline_init.
  apply sort_tuples_perm_eq.
  rewrite !overlapping_walk_flat_map. simpl.
  apply Permutation_flat_map. exact P.
Qed.

Lemma overlapping_index_order_independent_witness :
  Overlapping.GlobalTimeline_init tied_exif tied_walk =
  Overlapping.GlobalTimeline_init tied_exif
    [("a", ["TLS_000000001.jpg"]); ("b", ["TLS_000000001.jpg"])]%string.
Proof.
  apply overlapping_index_order_independent. apply perm_swap.
Defined.

Lemma sorted_In (l : list string) (x : string) :
  In x (Py.sorted l) <-> In x l.
Proof.
  split; intros H.
  - eapply Permutation_in; [apply Permutation_sym, list_sort_perm|exact H].
  - eapply Permutation_in; [apply list_sort_perm|exact H].
Qed.

Lemma enumerate_snd_In {A : Type} (l : list A) (p : Z * A) :
  In p (Py.enumerate l) -> In (snd p) l.
Proof.
  unfold Py.enumerate. destruct p as [i x]. intros H.
  apply in_combine_r in H. exact H.
Qed.

Lemma overlapping_visit_members (exif : string -> option Z) (root : string)
    (files : list string) (f : Py.frame) :
  In f (Overlapping.visit exif [] (root, files)) ->
  Overlapping.CUTOFF_DATE <= Py.ts f /\
  exists tls_files t0 tn name,
    session exif root files tls_files t0 tn /\
    Overlapping.CUTOFF_DATE <= t0 /\
    In name tls_files /\
    Py.path f = Py.path_join root name.
Proof.
  unfold Overlapping.visit.
  destruct (Py.contains "thumbnail" root) eqn:Ec; [intros []|].
  change Overlapping.is_tls with Goldenhour.is_tls.
  destruct (Py.sorted (filter Goldenhour.is_tls files)) as [|first rest] eqn:Es;
    [intros []|].
  destruct (exif (Py.path_join root first)) as [t0|] eqn:E0; [|intros []].
  destruct (t0 <? Overlapping.CUTOFF_DATE) eqn:Et; [intros []|].
  destruct (exif (Py.path_join root (last (first :: rest) first))) as [tn|] eqn:En;
    [|intros []].
  rewrite app_nil_l. intros H. apply in_map_iff in H. destruct H as (p & <- & Hp).
  apply Z.ltb_ge in Et.
  assert (Hi : 0 <= fst p).
  { destruct p as [i x]. apply enumerate_In in Hp. simpl. lia. }
  apply enumerate_snd_In in Hp.
  split.
  - unfold Overlapping.frame_at, Py.ts, Py.us_per_second. simpl. lia.
  - exists (first :: rest), t0, tn, (snd p).
    split; [|split; [exact Et|split; [exact Hp|reflexivity]]].
    split; [exact Ec|]. split; [exact Es|].
    exists first, rest. split; [reflexivity|]. split; assumption.
Qed.

Lemma golden_visit_members (exif : string -> option Z) (cutoff : option Z)
    (frames out : list Py.frame) (root : string) (files : list string) :
  Goldenhour.visit exif cutoff frames (root, files) = Some out ->
  exists fs,
    out = app frames fs /\
    forall f, In f fs ->
      exists tls_files t0 tn name,
        session exif root files tls_files t0 tn /\
        not_cut_off cutoff t0 /\
        In name tls_files /\
        Py.path f = Py.path_join root name.
Proof.
  unfold Goldenhour.visit.
  assert (Skip : Some frames = Some out ->
    exists fs, out = app frames fs /\
      forall f, In f fs ->
        exists tls_files t0 tn name,
          session exif root files tls_files t0 tn /\
          not_cut_off cutoff t0 /\
          In name tls_files /\
          Py.path f = Py.path_join root name).
  { intros [= <-]. exists []. rewrite app_nil_r. split; [reflexivity|].
    intros f []. }
  destruct (Py.contains "thumbnail" root) eqn:Ec; [exact Skip|].
  destruct (Py.sorted (filter Goldenhour.is_tls files)) as [|first rest] eqn:Es;
    [exact Skip|].
  destruct (exif (Py.path_join root first)) as [t0|] eqn:E0; [|exact Skip].
  destruct (match cutoff with Some c => t0 <? c | None => false end) eqn:Ecut;
    [exact Skip|].
  destruct (exif (Py.path_join root (last (first :: rest) first))) as [tn|] eqn:En;
    [|exact Skip].
  destruct (Goldenhour.interval t0 tn _) as [iv|]; [|discriminate].
  intros H. apply append_frames_app in H. destruct H as (fs & -> & HF).
  exists fs. split; [reflexivity|]. intros f Hf.
  apply In_nth_error in Hf. destruct Hf as [k Hk].
  apply Forall2_flip in HF.
  destruct (Forall2_nth _ _ _ HF k f Hk) as (p & Hp & Hfr).
  cbv beta in Hfr. unfold Goldenhour.frame_at in Hfr.
  destruct (Py.int_mul (fst p) iv) as [x|]; [|discriminate].
  destruct (Py.timedelta_seconds x) as [dl|]; [|discriminate].
  injection Hfr as <-.
  apply nth_error_In, enumerate_snd_In in Hp.
  exists (first :: rest), t0, tn, (snd p).
  split; [|split; [exact Ecut|split; [exact Hp|reflexivity]]].
  split; [exact Ec|]. split; [exact Es|].
  exists first, rest. split; [reflexivity|]. split; assumption.
Qed.

Lemma golden_walk_members (exif : string -> option Z) (cutoff : option Z)
    (walk : list (string * list string)) :
  forall frames out,
    Goldenhour.walk_loop exif cutoff walk frames = Some out ->
    forall f, In f out ->
      In f frames \/
      exists root files tls_files t0 tn name,
        In (root, files) walk /\
        session exif root files tls_files t0 tn /\
        not_cut_off cutoff t0 /\
        In name tls_files /\
        Py.path f = Py.path_join root name.
Proof.
  induction walk as [|[root files] walk IH]; intros frames out H f Hf.
  - injection H as <-. left. exact Hf.
  - cbn [Goldenhour.walk_loop] in H.
    destruct (Goldenhour.visit exif cutoff frames (root, files)) as [fr|] eqn:Ev;
      [|discriminate].
    destruct (IH _ _ H f Hf)
      as [Hin|(r & fl & tls & t0 & tn & name & Hw & Rest)].
    + apply golden_visit_members in Ev. destruct Ev as (fs & -> & Hfs).
      apply in_app_or in Hin. destruct Hin as [Hin|Hin]; [left; exact Hin|].
      right. destruct (Hfs f Hin) as (tls & t0 & tn & name & Hn).
      exists root, files, tls, t0, tn, name.
      split; [left; reflexivity|exact Hn].
    + right. exists r, fl, tls, t0, tn, name.
      split; [right; exact Hw|exact Rest].
Qed.

(** X4.  Every frame of the index is a [TLS_*.jpg] file of a visited
    directory that holds a session: the directory is not a "thumbnail" one,
    the capture times of its first and of its last frame were read, and the
    first one is not before the cut-off; the path of the frame is the
    directory joined with the file name.  In
    automate_overlapping_timelapse.py, moreover, no indexed frame is
    earlier than the cut-off date. *)
Theorem index_holds_only_session_frames (exif : string -> option Z)
    (walk : list (string * list string)) (f : Py.frame) :
  (forall cutoff frames,
     Goldenhour.GlobalTimeline_init exif walk cutoff = Some frames ->
     In f frames ->
     exists root files tls_files t0 tn name,
       In (root, files) walk /\
       session exif root files tls_files t0 tn /\
       not_cut_off cutoff t0 /\
       In name tls_files /\ In name files /\
       Goldenhour.is_tls name = true /\
       Py.path f = Py.path_join root name) /\
  (In f (Overlapping.GlobalTimeline_init exif walk) ->
   Overlapping.CUTOFF_DATE <= Py.ts f /\
   exists root files tls_files t0 tn name,
     In (root, files) walk /\
     session exif root files tls_files t0 tn /\
     Overlapping.CUTOFF_DATE <= t0 /\
     In name tls_files /\ In name files /\
     Overlapping.is_tls name = true /\
     Py.path f = Py.path_join root name).
Proof.
  assert (Htls : forall root files tls_files t0 tn name,
            session exif root files tls_files t0 tn ->
            In name tls_files ->
            In name files /\ Goldenhour.is_tls name = true).
  { intros root files tls_files t0 tn name (_ & Hs & _) Hin.
    rewrite <- Hs in Hin. apply sorted_In, filter_In in Hin. exact Hin. }
  split.
  - intros cutoff frames H Hf. unfold Goldenhour.GlobalTimeline_init in H.
    destruct (Goldenhour.walk_loop exif cutoff walk []) as [raw|] eqn:Ew;
      [|discriminate].
    injection H as <-.
    assert (Hraw : In f raw).
    { eapply Permutation_in; [apply Permutation_sym, list_sort_perm|exact Hf]. }
    destruct (golden_walk_members _ _ _ _ _ Ew f Hraw)
      as [[]|(root & files & tls & t0 & tn & name & Hw & Hs & Hc & Hn & Hp)].
    destruct (Htls _ _ _ _ _ _ Hs Hn) as [Hin Ht].
    exists root, files, tls, t0, tn, name. tauto.
  - unfold Overlapping.GlobalTimeline_init. intros Hf.
    assert (Hraw : In f (fold_left (Overlapping.visit exif) walk [])).
    { eapply Permutation_in; [apply Permutation_sym, list_sort_perm|exact Hf]. }
    rewrite overlapping_walk_flat_map in Hraw. simpl in Hraw.
    apply in_flat_map in Hraw. destruct Hraw as ([root files] & Hw & Hv).
    apply overlapping_visit_members in Hv.
    destruct Hv as (Hc & tls & t0 & tn & name & Hs & Hc0 & Hn & Hp).
    destruct (Htls _ _ _ _ _ _ Hs Hn) as [Hin Ht].
    split; [exact Hc|]. exists root, files, tls, t0, tn, name. tauto.
Qed.

(** ** The order of the directories, for the index sorted by its key *)

Lemma append_frames_from_empty (t0 : Z) (iv : Py.num) (root : string)
    (l : list (Z * string)) :
  forall frames,
    Goldenhour.append_frames t0 iv root l frames =
    option_map (app frames) (Goldenhour.append_frames t0 iv root l []).
Proof.
  induction l as [|p l IH]; intros frames; cbn [Goldenhour.append_frames].
  - simpl. rewrite app_nil_r. reflexivity.
  - destruct (Goldenhour.frame_at t0 iv root p) as [f|]; [|reflexivity].
    rewrite (IH (app frames [f])), (IH (app [] [f])).
    destruct (Goldenhour.append_frames t0 iv root l []) as [fs|];
      [|reflexivity].
    simpl. rewrite <- app_assoc. reflexivity.
Qed.

Lemma golden_visit_from_empty (exif : string -> option Z) (cutoff : option Z)
    (frames : list Py.frame) (d : string * list string) :
  Goldenhour.visit exif cutoff frames d =
  option_map (app frames) (Goldenhour.visit exif cutoff [] d).
Proof.
  destruct d as [root files]. unfold Goldenhour.visit.
  assert (Skip : Some frames = option_map (app frames) (Some []))
    by (simpl; rewrite app_nil_r; reflexivity).
  destruct (Py.contains "thumbnail" root); [exact Skip|].
  destruct (Py.sorted (filter Goldenhour.is_tls files)) as [|first rest];
    [exact Skip|].
  destruct (exif (Py.path_join root first)) as [t0|]; [|exact Skip].
  destruct (match cutoff with Some c => t0 <? c | None => false end);
    [exact Skip|].
  destruct (exif (Py.path_join root (last (first :: rest) first))) as [tn|];
    [|exact Skip].
  destruct (Goldenhour.interval t0 tn _) as [iv|]; [|reflexivity].
  apply append_frames_from_empty.
Qed.

(** The frames that each directory of [walk] contributes, when no visit
    raises. *)
Lemma golden_walk_sessions (exif : string -> option Z) (cutoff : option Z)
    (walk : list (string * list string)) :
  forall frames out,
    Goldenhour.walk_loop exif cutoff walk frames = Some out <->
    exists parts,
      Forall2 (fun d fs => Goldenhour.visit exif cutoff [] d = Some fs)
        walk parts /\
      out = app frames (List.concat parts).
Proof.
  induction walk as [|d walk IH]; intros frames out;
    cbn [Goldenhour.walk_loop].
  - split.
    + intros [= <-]. exists []. split; [constructor|].
      simpl. rewrite app_nil_r. reflexivity.
    + intros (parts & HF & ->). inversion HF; subst. simpl.
      rewrite app_nil_r. reflexivity.
  - rewrite golden_visit_from_empty.
    destruct (Goldenhour.visit exif cutoff [] d) as [fs|] eqn:Ev; simpl.
    + rewrite IH. split.
      * intros (parts & HF & ->). exists (fs :: parts).
        split; [constructor; assumption|]. simpl. rewrite app_assoc.
        reflexivity.
      * intros (parts & HF & ->). inversion HF as [|? b ? parts' Hb HF']; subst.
        assert (b = fs) by congruence. subst b.
        exists parts'. split; [exact HF'|]. simpl. rewrite app_assoc.
        reflexivity.
    + split; [discriminate|].
      intros (parts & HF & _). inversion HF as [|? b ? parts' Hb HF']; subst.
      congruence.
Qed.

Lemma Forall2_perm {A B : Type} (R : A -> B -> Prop) (l1 l1' : list A) :
  Permutation l1 l1' ->
  forall l2, Forall2 R l1 l2 ->
  exists l2', Forall2 R l1' l2' /\ Permutation l2 l2'.
Proof.
  induction 1 as [|x l1 l1' P IH|x y l1|l1 l1' l1'' P1 IH1 P2 IH2];
    intros l2 HF.
  - inversion HF; subst. exists []. split; constructor.
  - inversion HF as [|? b ? l2t Hb HFt]; subst.
    destruct (IH l2t HFt) as (l2' & HF' & P').
    exists (b :: l2'). split; [constructor; assumption|].
    apply perm_skip. exact P'.
  - inversion HF as [|? b ? l2t Hb HFt]; subst.
    inversion HFt as [|? c ? l2u Hc HFu]; subst.
    exists (c :: b :: l2u). split; [repeat constructor; assumption|].
    apply perm_swap.
  - destruct (IH1 l2 HF) as (l2' & HF' & P').
    destruct (IH2 l2' HF') as (l2'' & HF'' & P'').
    exists l2''. split; [exact HF''|]. eapply perm_trans; eassumption.
Qed.

Lemma concat_perm {A : Type} (l l' : list (list A)) :
  Permutation l l' -> Permutation (List.concat l) (List.concat l').
Proof.
  induction 1 as [|x l l' P IH|x y l|l l' l'' P1 IH1 P2 IH2]; simpl.
  - constructor.
  - apply Permutation_app_head. exact IH.
  - rewrite !app_assoc. apply Permutation_app_tail. apply Permutation_app_comm.
  - eapply perm_trans; eassumption.
Qed.

Lemma sort_by_ts_perm_ts (l1 l2 : list Py.frame) :
  Permutation l1 l2 ->
  map Py.ts (Py.sort_by_ts l1) = map Py.ts (Py.sort_by_ts l2).
Proof.
  intros P. apply (sorted_perm_eq Z.le Z.le_antisymm).
  - pose proof (sort_by_ts_sorted l1) as H.
    induction H as [|x l Hs IH Hf]; simpl; constructor; [exact IH|].
    rewrite Forall_map. exact Hf.
  - pose proof (sort_by_ts_sorted l2) as H.
    induction H as [|x l Hs IH Hf]; simpl; constructor; [exact IH|].
    rewrite Forall_map. exact Hf.
  - apply Permutation_map.
    eapply perm_trans; [apply Permutation_sym, list_sort_perm|].
    eapply perm_trans; [exact P|]. apply list_sort_perm.
Qed.

Lemma sorted_nodup_strict (l : list Py.frame) :
  StronglySorted ts_le l -> NoDup (map Py.ts l) ->
  StronglySorted (fun a b => Py.ts a < Py.ts b) l.
Proof.
  induction 1 as [|x l Hs IH Hf]; intros Hnd; constructor.
  - apply IH. simpl in Hnd. inversion Hnd; assumption.
  - simpl in Hnd. inversion Hnd as [|? ? Hx _]; subst.
    rewrite Forall_forall in *. intros y Hy.
    specialize (Hf y Hy). unfold ts_le in Hf.
    assert (Py.ts x <> Py.ts y).
    { intros E. apply Hx. rewrite E. apply in_map. exact Hy. }
    lia.
Qed.

(** X19.  In automate_goldenhour.py and automate_rewind.py the order in which
    [os.walk] visits the directories changes neither whether the index is
    built, nor the frames it holds, nor the sequence of its timestamps:
    only frames with equal timestamps can change places. *)
Theorem golden_index_order_independent (exif : string -> option Z)
    (cutoff : option Z) (walk walk' : list (string * list string))
    (frames : list Py.frame) :
  Permutation walk walk' ->
  Goldenhour.GlobalTimeline_init exif walk cutoff = Some frames ->
  exists frames',
    Goldenhour.GlobalTimeline_init exif walk' cutoff = Some frames' /\
    Rewind.GlobalTimeline_init exif walk' cutoff = Some frames' /\
    Permutation frames frames' /\
    map Py.ts frames = map Py.ts frames' /\
    (NoDup (map Py.ts frames) -> frames = frames').
Proof.
  intros P. unfold Rewind.GlobalTimeline_init, Goldenhour.GlobalTimeline_init.
  destruct (Goldenhour.walk_loop exif cutoff walk []) as [raw|] eqn:Ew;
    [|discriminate].
  intros [= <-].
  apply golden_walk_sessions in Ew. destruct Ew as (parts & HF & ->).
  destruct (Forall2_perm _ _ _ P parts HF) as (parts' & HF' & Pp).
  assert (Ew' : Goldenhour.walk_loop exif cutoff walk' [] =
                Some (app [] (List.concat parts'))).
  { apply golden_walk_sessions. exists parts'. split; [exact HF'|reflexivity]. }
  rewrite Ew'. simpl.
  assert (Pc : Permutation (List.concat parts) (List.concat parts'))
    by (apply concat_perm; exact Pp).
  assert (Ps : Permutation (Py.sort_by_ts (List.concat parts))
                 (Py.sort_by_ts (List.concat parts'))).
  { eapply perm_trans; [apply Permutation_sym, list_sort_perm|].
    eapply perm_trans; [exact Pc|]. apply list_sort_perm. }
  pose proof (sort_by_ts_perm_ts _ _ Pc) as Hts.
  eexists. split; [reflexivity|]. split; [reflexivity|].
  split; [exact Ps|]. split; [exact Hts|].
  intros Hnd.
  apply (sorted_perm_eq (fun a b => Py.ts a < Py.ts b)).
  - intros a b H1 H2. lia.
  - apply sorted_nodup_strict; [apply sort_by_ts_sorted|exact Hnd].
  - apply sorted_nodup_strict; [apply sort_by_ts_sorted|].
    rewrite <- Hts. exact Hnd.
  - exact Ps.
Qed.

Lemma golden_index_order_independent_witness :
  exists frames',
    Goldenhour.GlobalTimeline_init tied_exif
      [("a", ["TLS_000000001.jpg"]); ("b", ["TLS_000000001.jpg"])]%string
      None = Some frames' /\
    map Py.ts
      [(noon_2025_10_01, "b/TLS_000000001.jpg");
       (noon_2025_10_01, "a/TLS_000000001.jpg")]%string =
    map Py.ts frames'.
Proof.
  destruct (golden_index_order_independent tied_exif None tied_walk
              [("a", ["TLS_000000001.jpg"]); ("b", ["TLS_000000001.jpg"])]%string
              [(noon_2025_10_01, "b/TLS_000000001.jpg");
               (noon_2025_10_01, "a/TLS_000000001.jpg")]%string)
    as (frames' & H1 & _ & _ & H2 & _).
  - apply perm_swap.
  - vm_compute. reflexivity.
  - exists frames'. split; assumption.
Defined.

(** ** A session whose first and last capture times coincide *)

Lemma float_of_int_nonneg (i : Z) :
  0 <= i -> i < 2 ^ 53 ->
  Py.float_of_int i = Some (S754_zero false) \/ Py.float_of_int i = Some (canon i).
Proof.
  intros H0 H1. destruct (Z.eq_dec i 0) as [->|NE].
  - left. reflexivity.
  - right. apply float_of_int_canon; lia.
Qed.

Lemma frame_at_zero_interval (t0 i : Z) (root f : string) (sg : bool) :
  0 <= i -> i < 2 ^ 53 ->
  Goldenhour.frame_at t0 (Py.Float (S754_zero sg)) root (i, f) =
  Some (t0, Py.path_join root f).
Proof.
  intros H0 H1. unfold Goldenhour.frame_at, Py.int_mul, Py.int_mul_float.
  cbn [fst snd].
  destruct (float_of_int_nonneg i H0 H1) as [E|E]; rewrite E.
  - destruct sg; cbn; rewrite Z.add_0_r; reflexivity.
  - unfold canon. destruct sg; cbn; rewrite Z.add_0_r; reflexivity.
Qed.

Lemma interval_zero_span (t0 count : Z) :
  count - 1 < 2 ^ 53 ->
  exists iv,
    Goldenhour.interval t0 t0 count = Some iv /\
    (iv = Py.Int 10 /\ count <= 1 \/ iv = Py.Float (S754_zero false)).
Proof.
  intros Hc. unfold Goldenhour.interval.
  destruct (1 <? count) eqn:E.
  - apply Z.ltb_lt in E. rewrite Z.sub_diag.
    unfold Py.total_seconds, Py.float_div_int.
    change (Py.int_truediv 0 (10 ^ 6)) with (Some (S754_zero false)).
    rewrite (float_of_int_canon (count - 1)) by lia.
    eexists. split; [reflexivity|]. right. reflexivity.
  - apply Z.ltb_ge in E. eexists. split; [reflexivity|]. left. split; [reflexivity|lia].
Qed.

Lemma combine_map_snd {A B : Type} (l1 : list A) (l2 : list B) :
  List.length l1 = List.length l2 -> map snd (combine l1 l2) = l2.
Proof.
  revert l2. induction l1 as [|a l1 IH]; intros [|b l2] H; try discriminate.
  - reflexivity.
  - simpl. f_equal. apply IH. simpl in H. lia.
Qed.

(** X5.  In automate_goldenhour.py and automate_rewind.py a session whose
    first and last frames carry the same capture time (a session of one
    frame among them) enters the index with that time on every frame, in the
    order of the file names; the division by [count - 1] is not reached for
    one frame and divides zero otherwise. *)
Theorem zero_span_session_keeps_first_time (exif : string -> option Z)
    (cutoff : option Z) (root : string) (files tls_files : list string)
    (t0 : Z) (frames : list Py.frame) :
  session exif root files tls_files t0 t0 ->
  Z.of_nat (List.length tls_files) - 1 < 2 ^ 53 ->
  not_cut_off cutoff t0 ->
  Goldenhour.visit exif cutoff frames (root, files) =
  Some (app frames (map (fun f => (t0, Py.path_join root f)) tls_files)).
Proof.
  intros (Hth & Hs & first & rest & Htl & H0 & Hn) Hc Hcut.
  unfold Goldenhour.visit. rewrite Hth, Hs.
  destruct tls_files as [|f0 r]; [discriminate|].
  injection Htl as -> ->. rewrite H0. unfold not_cut_off in Hcut. rewrite Hcut.
  rewrite Hn.
  destruct (interval_zero_span t0 (Z.of_nat (List.length (first :: rest))) Hc)
    as (iv & Ei & Hiv).
  rewrite Ei.
  rewrite (append_frames_map t0 iv root
             (fun p => (t0, Py.path_join root (snd p)))).
  - f_equal. f_equal. unfold Py.enumerate.
    rewrite <- (map_map snd (fun f => (t0, Py.path_join root f))).
    f_equal. rewrite combine_map_snd; [reflexivity|].
    rewrite length_map, length_seq. reflexivity.
  - intros [i f] Hin. pose proof (enumerate_In _ _ _ Hin) as Hi.
    destruct Hiv as [[-> Hone]| ->].
    + assert (i = 0) by lia. subst i.
      unfold Goldenhour.frame_at. cbn. rewrite Z.add_0_r. reflexivity.
    + apply frame_at_zero_interval; lia.
Qed.

Lemma zero_span_session_keeps_first_time_witness :
  Goldenhour.visit tied_exif None []
    ("b"%string, ["notes.txt"; "TLS_000000001.jpg"]%string) =
  Some [(noon_2025_10_01, "b/TLS_000000001.jpg"%string)].
Proof.
  apply (zero_span_session_keeps_first_time tied_exif None "b"%string
           ["notes.txt"; "TLS_000000001.jpg"]%string
           ["TLS_000000001.jpg"]%string noon_2025_10_01 []).
  - split; [reflexivity|]. split; [reflexivity|].
    exists "TLS_000000001.jpg"%string, []. repeat split; reflexivity.
  - vm_compute. reflexivity.
  - reflexivity.
Defined.

(** ** The range of [get_range] *)

Lemma slice_block {A : Type} (l : list A) (s e : Z) :
  exists pre post, l = app pre (app (Py.slice l s e) post).
Proof.
  unfold Py.slice.
  set (k := Z.to_nat (Py.clip_index (Z.of_nat (List.length l)) s)).
  set (n := Z.to_nat (Py.clip_index (Z.of_nat (List.length l)) e
                      - Py.clip_index (Z.of_nat (List.length l)) s)).
  exists (firstn k l), (skipn n (skipn k l)).
  rewrite firstn_skipn, firstn_skipn. reflexivity.
Qed.

Lemma slice_first {A : Type} (l : list A) (n : Z) :
  0 <= n <= Z.of_nat (List.length l) ->
  Py.slice l 0 n = firstn (Z.to_nat n) l.
Proof.
  intros H. unfold Py.slice, Py.clip_index.
  replace (0 <? 0) with false by reflexivity.
  destruct (Z.ltb_spec n 0); [lia|].
  rewrite Z.min_l, Z.min_l by lia. rewrite Z.sub_0_r. reflexivity.
Qed.

Lemma slice_last {A : Type} (l : list A) (s : Z) :
  0 <= s <= Z.of_nat (List.length l) ->
  Py.slice l s (Z.of_nat (List.length l)) = skipn (Z.to_nat s) l.
Proof.
  intros H. unfold Py.slice, Py.clip_index.
  destruct (Z.ltb_spec s 0); [lia|].
  destruct (Z.ltb_spec (Z.of_nat (List.length l)) 0); [lia|].
  rewrite Z.min_l, Z.min_l by lia.
  apply firstn_all2. rewrite length_skipn. lia.
Qed.

Lemma get_range_unfold (frames : list Py.frame) (T duration_sec : Z)
    (center_ratio : Py.float) (before : Z) :
  Overlapping.frames_before (duration_sec * 30) center_ratio = Some before ->
  Overlapping.get_range frames T duration_sec center_ratio =
  Some (Py.sort_tuples frames,
        Py.slice (Py.sort_tuples frames)
          (fst (Overlapping.range_indices
                  (Z.of_nat (List.length (Py.sort_tuples frames)))
                  (Overlapping.anchor_index (Py.sort_tuples frames) T)
                  before (duration_sec * 30)))
          (snd (Overlapping.range_indices
                  (Z.of_nat (List.length (Py.sort_tuples frames)))
                  (Overlapping.anchor_index (Py.sort_tuples frames) T)
                  before (duration_sec * 30)))).
Proof.
  intros Hb. unfold Overlapping.get_range. rewrite Hb. cbv zeta.
  destruct (Overlapping.range_indices _ _ _ _) as [s e]. reflexivity.
Qed.

(** X6.  [get_range] returns one contiguous run of the sorted index, so a clip
    never skips a frame and never reorders frames; the index it leaves is
    the sorted rearrangement of the one it found, and asking again, on the
    index it left, gives the same answer and leaves the index as it is. *)
Theorem get_range_is_contiguous (frames : list Py.frame) (T duration_sec : Z)
    (center_ratio : Py.float) (before : Z) :
  Overlapping.frames_before (duration_sec * 30) center_ratio = Some before ->
  exists index range pre post,
    Overlapping.get_range frames T duration_sec center_ratio =
      Some (index, range) /\
    Permutation frames index /\
    StronglySorted tuple_le index /\
    index = app pre (app range post) /\
    StronglySorted tuple_le range /\
    StronglySorted ts_le range /\
    Overlapping.get_range index T duration_sec center_ratio =
      Some (index, range).
Proof.
  intros Hb.
  pose proof (slice_block (Py.sort_tuples frames)
    (fst (Overlapping.range_indices
            (Z.of_nat (List.length (Py.sort_tuples frames)))
            (Overlapping.anchor_index (Py.sort_tuples frames) T)
            before (duration_sec * 30)))
    (snd (Overlapping.range_indices
            (Z.of_nat (List.length (Py.sort_tuples frames)))
            (Overlapping.anchor_index (Py.sort_tuples frames) T)
            before (duration_sec * 30)))) as (pre & post & E).
  eexists _, _, pre, post.
  split; [apply (get_range_unfold _ _ _ _ _ Hb)|].
  split; [apply list_sort_perm|].
  split; [apply sort_tuples_sorted|].
  split; [exact E|].
  split.
  { pose proof (sort_tuples_sorted frames) as Hs. rewrite E in Hs.
    apply sorted_app_r, sorted_app_l in Hs. exact Hs. }
  split.
  { pose proof (sort_tuples_sorted_ts frames) as Hs. rewrite E in Hs.
    apply sorted_app_r, sorted_app_l in Hs. exact Hs. }
  rewrite (get_range_unfold _ _ _ _ _ Hb), sort_tuples_idem. reflexivity.
Qed.

Lemma get_range_is_contiguous_witness :
  exists index range pre post,
    Overlapping.get_range short_index anchor_12_02_40 1 center =
      Some (index, range) /\
    Permutation short_index index /\
    index = app pre (app range post) /\
    Overlapping.get_range index anchor_12_02_40 1 center = Some (index, range).
Proof.
  destruct (get_range_is_contiguous short_index anchor_12_02_40 1 center 15)
    as (index & range & pre & post & H1 & H2 & _ & H3 & _ & _ & H4).
  - vm_compute. reflexivity.
  - exists index, range, pre, post. repeat split; assumption.
Defined.

(** X7.  At the two ends of the archive the range is shifted, not shortened:
    an anchor with fewer than [frames_before] frames in front of it gets the
    first [num_frames] frames of the index, and an anchor too close to the
    end gets the last [num_frames] frames (all frames, when the index holds
    fewer). *)
Theorem get_range_at_the_ends (frames : list Py.frame) (T duration_sec : Z)
    (center_ratio : Py.float) (before : Z) :
  0 < duration_sec ->
  Overlapping.frames_before (duration_sec * 30) center_ratio = Some before ->
  let num_frames := duration_sec * 30 in
  let index := Py.sort_tuples frames in
  let len := Z.of_nat (List.length frames) in
  let idx := Overlapping.anchor_index index T in
  (idx <= before -> num_frames <= len ->
   Overlapping.get_range frames T duration_sec center_ratio =
     Some (index, firstn (Z.to_nat num_frames) index)) /\
  (len < Z.max 0 (idx - before) + num_frames ->
   Overlapping.get_range frames T duration_sec center_ratio =
     Some (index, skipn (Z.to_nat (len - Z.min num_frames len)) index)).
Proof.
  intros Hd Hb num_frames index len idx.
  assert (Hlen : Z.of_nat (List.length index) = len).
  { unfold index, Py.sort_tuples. rewrite list_sort_length. reflexivity. }
  split.
  - intros Hi Hn. rewrite (get_range_unfold _ _ _ _ _ Hb).
    fold index. rewrite Hlen. fold idx. fold num_frames.
    unfold Overlapping.range_indices.
    rewrite Z.max_l by lia.
    destruct (Z.ltb_spec len (0 + num_frames)); [lia|].
    cbn [fst snd]. rewrite slice_first by lia. reflexivity.
  - intros Hi. rewrite (get_range_unfold _ _ _ _ _ Hb).
    fold index. rewrite Hlen. fold idx. fold num_frames.
    unfold Overlapping.range_indices.
    destruct (Z.ltb_spec len (Z.max 0 (idx - before) + num_frames)); [|lia].
    cbn [fst snd]. rewrite <- Hlen at 2. rewrite slice_last by lia.
    f_equal. f_equal. f_equal. f_equal. lia.
Qed.

Lemma get_range_at_the_ends_witness :
  Overlapping.get_range short_index noon_2025_10_01 1 center =
    Some (Py.sort_tuples short_index,
          firstn (Z.to_nat (1 * 30)) (Py.sort_tuples short_index)) /\
  Overlapping.get_range short_index anchor_12_05_10 1 center =
    Some (Py.sort_tuples short_index,
          skipn (Z.to_nat (Z.of_nat (List.length short_index)
                           - Z.min (1 * 30)
                               (Z.of_nat (List.length short_index))))
            (Py.sort_tuples short_index)).
Proof.
  split.
  - apply (get_range_at_the_ends short_index noon_2025_10_01 1 center 15).
    + lia.
    + vm_compute. reflexivity.
    + vm_compute. discriminate.
    + vm_compute. discriminate.
  - apply (get_range_at_the_ends short_index anchor_12_05_10 1 center 15).
    + lia.
    + vm_compute. reflexivity.
    + vm_compute. reflexivity.
Defined.

(** ** The clips of automate_overlapping_timelapse.py *)






(** ** The length and the order of the rewind *)

Lemma sorted_nth {A : Type} (R : A -> A -> Prop) (l : list A) :
  StronglySorted R l ->
  forall (i j : nat) (a b : A),
    (i < j)%nat -> nth_error l i = Some a -> nth_error l j = Some b -> R a b.
Proof.
  induction 1 as [|x l Hs IH Hf]; intros i j a b Hij Ha Hb.
  - destruct i; discriminate.
  - destruct j as [|j]; [lia|]. cbn [nth_error] in Hb.
    destruct i as [|i].
    + injection Ha as <-. rewrite Forall_forall in Hf.
      apply Hf. eapply nth_error_In. exact Hb.
    + cbn [nth_error] in Ha. apply (IH i j); [lia|assumption|assumption].
Qed.

Lemma sorted_of_nth {A : Type} (R : A -> A -> Prop) (l : list A) :
  (forall (i j : nat) (a b : A),
     (i < j)%nat -> nth_error l i = Some a -> nth_error l j = Some b ->
     R a b) ->
  StronglySorted R l.
Proof.
  induction l as [|x l IH]; intros H; constructor.
  - apply IH. intros i j a b Hij Ha Hb. apply (H (S i) (S j)); [lia|exact Ha|exact Hb].
  - apply Forall_forall. intros y Hy. apply In_nth_error in Hy.
    destruct Hy as [k Hk]. apply (H 0%nat (S k)); [lia|reflexivity|exact Hk].
Qed.

Lemma rewind_count_bounds (N : Z) :
  45 <= N -> 45 <= ceil_div N (Z.max 1 (N / 45)) <= 89.
Proof.
  intros HN.
  assert (Hq : 1 <= N / 45) by (apply Z.div_le_lower_bound; lia).
  rewrite Z.max_r by lia.
  rewrite ceil_div_pred by lia.
  pose proof (Z.div_mod N 45 ltac:(lia)) as Hdm.
  pose proof (Z.mod_pos_bound N 45 ltac:(lia)) as Hm.
  set (q := N / 45) in *. set (r := N mod 45) in *.
  assert (44 <= (N - 1) / q) by (apply Z.div_le_lower_bound; nia).
  assert ((N - 1) / q < 89) by (apply Z.div_lt_upper_bound; nia).
  lia.
Qed.

Lemma rewind_positions (frame_list : list Py.frame) :
  let N := Z.of_nat (List.length frame_list) in
  let step := Z.max 1 (N / 45) in
  let rewind := Rewind.rewind_frames frame_list in
  Z.of_nat (List.length rewind) = ceil_div N step /\
  forall k : nat,
    (k < List.length rewind)%nat ->
    0 <= N - 1 - Z.of_nat k * step /\
    nth_error rewind k =
      nth_error frame_list (Z.to_nat (N - 1 - Z.of_nat k * step)).
Proof.
  intros N step rewind.
  pose proof (rewind_step_pos N) as Hstep.
  destruct (slice_rev_nth frame_list step Hstep) as [Hlen Hnth].
  fold N in Hlen, Hnth.
  change (Py.slice_rev frame_list step) with rewind in Hlen, Hnth.
  split; [exact Hlen|]. intros k Hk. split; [|apply Hnth; lia].
  destruct (Z.le_gt_cases N 0) as [H0|H0].
  - unfold ceil_div in Hlen.
    assert (0 <= (- N) / step) by (apply Z.div_pos; lia).
    lia.
  - pose proof (ceil_div_spec N _ Hstep) as [Hlo _]. fold step in Hlo. nia.
Qed.

(** X9.  The rewind of [create_video_with_rewind] plays the window
    backwards: every frame of the rewind is a frame of the window, and
    whatever order relates each frame of the window to the frames after it
    relates, the other way round, each frame of the rewind to the frames
    after it; so on a window in timestamp order the rewind never steps
    forward in time, and it shows no frame twice unless the window does. *)
Theorem rewind_plays_backwards (frame_list : list Py.frame) :
  let rewind := Rewind.rewind_frames frame_list in
  incl rewind frame_list /\
  (forall R : Py.frame -> Py.frame -> Prop,
     StronglySorted R frame_list ->
     StronglySorted (fun a b => R b a) rewind) /\
  (StronglySorted ts_le frame_list ->
   StronglySorted (fun a b => Py.ts b <= Py.ts a) rewind) /\
  (NoDup frame_list -> NoDup rewind).
Proof.
  intros rewind.
  destruct (rewind_positions frame_list) as [Hlen Hnth].
  cbv zeta in Hlen, Hnth. fold rewind in Hlen, Hnth.
  assert (Hrel : forall R : Py.frame -> Py.frame -> Prop,
            StronglySorted R frame_list ->
            StronglySorted (fun a b => R b a) rewind).
  { intros R Hs. apply sorted_of_nth. intros i j a b Hij Ha Hb.
    assert (Hj : (j < List.length rewind)%nat)
      by (apply nth_error_Some; congruence).
    destruct (Hnth i ltac:(lia)) as [Pi Ei].
    destruct (Hnth j Hj) as [Pj Ej].
    rewrite Ei in Ha. rewrite Ej in Hb.
    refine (sorted_nth R frame_list Hs _ _ b a _ Hb Ha).
    apply Z2Nat.inj_lt; nia. }
  split; [|split; [exact Hrel|split]].
  - intros f Hf. apply In_nth_error in Hf. destruct Hf as [k Hk].
    assert (Hk' : (k < List.length rewind)%nat)
      by (apply nth_error_Some; congruence).
    destruct (Hnth k Hk') as [_ Ek]. rewrite Ek in Hk.
    eapply nth_error_In. exact Hk.
  - intros Hs. apply (Hrel ts_le Hs).
  - intros Hnd.
    assert (Hs : StronglySorted (fun a b => a <> b) frame_list).
    { clear - Hnd. induction Hnd as [|x l Hx _ IH]; constructor;
        [exact IH|].
      apply Forall_forall. intros y Hy E. subst y. contradiction. }
    apply Hrel in Hs. clear - Hs.
    induction Hs as [|x l _ IH Hf]; constructor; [|exact IH].
    intros Hin. rewrite Forall_forall in Hf. apply (Hf x Hin). reflexivity.
Qed.

(** X10.  A window of fewer than 90 frames is rewound frame by frame, the
    rewind being the whole window reversed; from 45 frames on the rewind
    has at least 45 and at most 89 frames, so the rendered list has at most
    89 frames more than the window. *)
Theorem rewind_length_bounds (frame_list : list Py.frame) :
  let N := Z.of_nat (List.length frame_list) in
  let rewind := Rewind.rewind_frames frame_list in
  (N < 90 -> rewind = rev frame_list) /\
  (45 <= N -> 45 <= Z.of_nat (List.length rewind) <= 89) /\
  Z.of_nat (List.length (Rewind.create_video_with_rewind frame_list))
    <= N + Z.max N 89 /\
  (45 <= N ->
   Z.of_nat (List.length (Rewind.create_video_with_rewind frame_list))
     <= N + 89).
Proof.
  intros N rewind.
  destruct (rewind_positions frame_list) as [Hlen Hnth].
  cbv zeta in Hlen, Hnth. fold N rewind in Hlen, Hnth.
  assert (H90 : N < 90 -> rewind = rev frame_list).
  { intros H90.
    assert (Es : Z.max 1 (N / 45) = 1).
    { assert (N / 45 < 2) by (apply Z.div_lt_upper_bound; lia). lia. }
    rewrite Es in *.
    assert (Hl : List.length rewind = List.length frame_list).
    { unfold ceil_div in Hlen. rewrite Z.div_1_r in Hlen. lia. }
    apply nth_error_ext. intros k. rewrite nth_error_rev.
    destruct (Nat.ltb_spec k (List.length frame_list)) as [Hk|Hk].
    - destruct (Hnth k ltac:(lia)) as [_ Ek]. rewrite Ek. f_equal. lia.
    - apply nth_error_None. lia. }
  assert (H45 : 45 <= N -> 45 <= Z.of_nat (List.length rewind) <= 89).
  { intros H45. rewrite Hlen. apply rewind_count_bounds. exact H45. }
  assert (Hfull :
    Z.of_nat (List.length (Rewind.create_video_with_rewind frame_list)) =
    N + Z.of_nat (List.length rewind)).
  { unfold Rewind.create_video_with_rewind, N, rewind.
    rewrite length_app. lia. }
  split; [exact H90|]. split; [exact H45|]. split.
  - rewrite Hfull. destruct (Z.lt_ge_cases N 45) as [Hs|Hb].
    + rewrite (H90 ltac:(lia)), length_rev. lia.
    + specialize (H45 Hb). lia.
  - intros Hb. rewrite Hfull. specialize (H45 Hb). lia.
Qed.

(** ** The names of the links of [create_overlapping_timelapse] *)

Lemma fixed_digits_zero (k : nat) (acc : string) :
  fixed_digits k 0 acc = Py.zeros k acc.
Proof.
  revert acc. induction k as [|k IH]; intros acc; [reflexivity|].
  cbn [fixed_digits]. change (0 / 10) with 0. rewrite IH.
  clear IH. induction k as [|k IH]; [reflexivity|].
  cbn [Py.zeros]. rewrite IH. reflexivity.
Qed.

Lemma digits_fixed (fuel : nat) :
  forall (k : nat) (n : Z) (acc : string),
    0 <= n < 10 ^ Z.of_nat k -> (1 <= k)%nat ->
    n < 2 ^ Z.of_nat fuel -> (1 <= fuel)%nat ->
    exists j : nat,
      (j <= k)%nat /\
      String.length (Py.digits fuel n acc) = (j + String.length acc)%nat /\
      fixed_digits k n acc = Py.zeros (k - j) (Py.digits fuel n acc).
Proof.
  induction fuel as [|fuel IH]; intros k n acc Hn Hk Hf Hfuel; [lia|].
  destruct k as [|k]; [lia|].
  cbn [Py.digits fixed_digits].
  destruct (Z.ltb_spec n 10) as [Hlt|Hge].
  - exists 1%nat. split; [lia|]. split; [reflexivity|].
    rewrite Z.div_small by lia. rewrite fixed_digits_zero.
    replace (S k - 1)%nat with k by lia. reflexivity.
  - assert (Hk2 : (1 <= k)%nat).
    { destruct k; [|lia]. change (10 ^ Z.of_nat 1) with 10 in Hn. lia. }
    assert (Hf2 : (1 <= fuel)%nat).
    { destruct fuel; [|lia]. change (2 ^ Z.of_nat 1) with 2 in Hf. lia. }
    assert (Hdiv : 0 <= n / 10 < 10 ^ Z.of_nat k).
    { split; [apply Z.div_pos; lia|].
      apply Z.div_lt_upper_bound; [lia|].
      rewrite Nat2Z.inj_succ, Z.pow_succ_r in Hn by lia. lia. }
    assert (Hdf : n / 10 < 2 ^ Z.of_nat fuel).
    { apply Z.div_lt_upper_bound; [lia|].
      rewrite Nat2Z.inj_succ, Z.pow_succ_r in Hf by lia.
      assert (0 < 2 ^ Z.of_nat fuel) by (apply Z.pow_pos_nonneg; lia). lia. }
    destruct (IH k (n / 10) (String (Py.digit (n mod 10)) acc)
                Hdiv Hk2 Hdf Hf2) as (j & Hj & Hlen & Hfix).
    exists (S j). split; [lia|]. split.
    + rewrite Hlen. simpl. lia.
    + rewrite Hfix. replace (S k - S j)%nat with (k - j)%nat by lia.
      reflexivity.
Qed.

Lemma format_09d_fixed (n : Z) :
  0 <= n < 10 ^ 9 -> Py.format_09d n = fixed_digits 9 n "".
Proof.
  intros Hn. unfold Py.format_09d, Py.zero_pad, Py.decimal.
  destruct (Z.ltb_spec n 0); [lia|].
  assert (Hf : n < 2 ^ Z.of_nat (S (Z.to_nat (Z.log2 n)))).
  { rewrite Nat2Z.inj_succ, Z2Nat.id by apply Z.log2_nonneg.
    destruct (Z.eq_dec n 0) as [->|NE]; [reflexivity|].
    apply Z.log2_spec. lia. }
  destruct (digits_fixed (S (Z.to_nat (Z.log2 n))) 9 n ""
              ltac:(simpl; lia) ltac:(lia) Hf ltac:(lia))
    as (j & Hj & Hlen & Hfix).
  rewrite Hfix, Hlen. simpl String.length. rewrite Nat.add_0_r. reflexivity.
Qed.

Lemma digit_compare (x y : Z) :
  0 <= x < 10 -> 0 <= y < 10 ->
  Ascii.compare (Py.digit x) (Py.digit y) = (x ?= y).
Proof.
  intros Hx Hy.
  assert (Ex : x = 0 \/ x = 1 \/ x = 2 \/ x = 3 \/ x = 4 \/ x = 5 \/ x = 6 \/
               x = 7 \/ x = 8 \/ x = 9) by lia.
  assert (Ey : y = 0 \/ y = 1 \/ y = 2 \/ y = 3 \/ y = 4 \/ y = 5 \/ y = 6 \/
               y = 7 \/ y = 8 \/ y = 9) by lia.
  repeat (destruct Ex as [Ex|Ex]; [subst x|]); try subst x;
    repeat (destruct Ey as [Ey|Ey]; [subst y; reflexivity|]);
    subst y; reflexivity.
Qed.

Lemma fixed_digits_compare (k : nat) :
  forall (a b : Z) (sa sb : string),
    0 <= a -> 0 <= b ->
    String.compare (fixed_digits k a sa) (fixed_digits k b sb) =
    match a mod 10 ^ Z.of_nat k ?= b mod 10 ^ Z.of_nat k with
    | Eq => String.compare sa sb
    | c => c
    end.
Proof.
  induction k as [|k IH]; intros a b sa sb Ha Hb.
  - change (10 ^ Z.of_nat 0) with 1. rewrite !Z.mod_1_r. reflexivity.
  - cbn [fixed_digits].
    rewrite IH by (apply Z.div_pos; lia).
    cbn [String.compare].
    pose proof (Z.mod_pos_bound a 10 ltac:(lia)) as Ma.
    pose proof (Z.mod_pos_bound b 10 ltac:(lia)) as Mb.
    rewrite digit_compare by assumption.
    assert (Hp : 0 < 10 ^ Z.of_nat k) by (apply Z.pow_pos_nonneg; lia).
    rewrite Nat2Z.inj_succ, Z.pow_succ_r by lia.
    rewrite (Z.rem_mul_r a 10 (10 ^ Z.of_nat k)) by lia.
    rewrite (Z.rem_mul_r b 10 (10 ^ Z.of_nat k)) by lia.
    set (A := (a / 10) mod 10 ^ Z.of_nat k).
    set (B := (b / 10) mod 10 ^ Z.of_nat k).
    destruct (Z.compare_spec A B) as [E|L|G];
      destruct (Z.compare_spec (a mod 10) (b mod 10)) as [E2|L2|G2];
      destruct (Z.compare_spec (a mod 10 + 10 * A) (b mod 10 + 10 * B));
      try reflexivity; lia.
Qed.

Lemma str_compare_app (p s1 s2 : string) :
  String.compare (p ++ s1) (p ++ s2) = String.compare s1 s2.
Proof.
  induction p as [|c p IH]; [reflexivity|].
  cbn [String.append String.compare].
  assert (E : Ascii.compare c c = Eq).
  { unfold Ascii.compare. apply N.compare_refl. }
  rewrite E. exact IH.
Qed.

Lemma link_name_fixed (i : Z) :
  0 <= i -> i + 1 < 10 ^ 9 ->
  Py.path_join "tmp_frames" (Overlapping.link_name i) =
  ("tmp_frames/TLS_" ++ fixed_digits 9 (i + 1) ".jpg")%string.
Proof.
  intros H0 H1. unfold Overlapping.link_name.
  rewrite format_09d_fixed by lia. reflexivity.
Qed.

Lemma link_name_lt (i j : Z) :
  0 <= i -> i < j -> j + 1 < 10 ^ 9 ->
  Py.str_lt (Py.path_join "tmp_frames" (Overlapping.link_name i))
    (Py.path_join "tmp_frames" (Overlapping.link_name j)) = true.
Proof.
  intros H0 Hij Hj. rewrite !link_name_fixed by lia.
  unfold Py.str_lt, String.ltb. rewrite str_compare_app.
  rewrite fixed_digits_compare by lia.
  change (10 ^ Z.of_nat 9) with (10 ^ 9).
  rewrite !Z.mod_small by lia.
  destruct (Z.compare_spec (i + 1) (j + 1)); [lia|reflexivity|lia].
Qed.

Lemma link_name_is_tls (i : Z) :
  0 <= i -> i + 1 < 10 ^ 9 ->
  Overlapping.is_tls (Overlapping.link_name i) = true /\
  String.length (Overlapping.link_name i) = 17%nat.
Proof.
  intros H0 H1. unfold Overlapping.link_name.
  rewrite format_09d_fixed by lia. split; reflexivity.
Qed.

(** X11.  [create_overlapping_timelapse] links frame [i] of the clip, counted
    from 0, under the name [TLS_] + the number [i + 1] in nine digits +
    [.jpg] in [tmp_frames]; for a clip of fewer than 10^9 frames these names
    are in strictly increasing order, the order of the frames, each one is
    accepted by the [TLS_*.jpg] test of the indexing code, the first one is
    [TLS_000000001.jpg], and the frame numbers 1 to [len(frame_list)] given
    to [./make_timelapse.sh] are exactly the numbers used. *)
Theorem link_names_follow_the_frames (frame_list : list Py.frame) :
  Z.of_nat (List.length frame_list) < 10 ^ 9 ->
  let links := fst (Overlapping.create_overlapping_timelapse frame_list) in
  let numbers := snd (Overlapping.create_overlapping_timelapse frame_list) in
  map fst links = map Py.path frame_list /\
  StronglySorted (fun a b => Py.str_lt a b = true) (map snd links) /\
  Py.sorted (map snd links) = map snd links /\
  (forall (i : nat) (f : Py.frame),
     nth_error frame_list i = Some f ->
     nth_error links i =
       Some (Py.path f,
             Py.path_join "tmp_frames"
               (Overlapping.link_name (Z.of_nat i))) /\
     Overlapping.is_tls (Overlapping.link_name (Z.of_nat i)) = true /\
     fst numbers <= Z.of_nat i + 1 <= snd numbers) /\
  (frame_list <> [] ->
   hd_error (map snd links) =
     Some "tmp_frames/TLS_000000001.jpg"%string) /\
  numbers = (1, Z.of_nat (List.length frame_list)).
Proof.
  intros Hlen links numbers.
  assert (Hnth : forall (i : nat) (f : Py.frame),
            nth_error frame_list i = Some f ->
            nth_error links i =
              Some (Py.path f,
                    Py.path_join "tmp_frames"
                      (Overlapping.link_name (Z.of_nat i)))).
  { intros i f Hf. unfold links, Overlapping.create_overlapping_timelapse.
    cbn [fst]. rewrite nth_error_map, (enumerate_nth _ _ _ Hf). reflexivity. }
  assert (Hlinks : List.length links = List.length frame_list).
  { unfold links, Overlapping.create_overlapping_timelapse, Py.enumerate.
    cbn [fst]. rewrite length_map, length_combine, length_map, length_seq.
    lia. }
  assert (Hsorted : StronglySorted (fun a b => Py.str_lt a b = true)
                      (map snd links)).
  { apply sorted_of_nth. intros i j a b Hij Ha Hb.
    rewrite nth_error_map in Ha, Hb.
    assert (Hj : (j < List.length frame_list)%nat).
    { rewrite <- Hlinks. apply nth_error_Some.
      destruct (nth_error links j); [discriminate|discriminate]. }
    destruct (nth_error frame_list i) as [fi|] eqn:Ei;
      [|apply nth_error_None in Ei; lia].
    destruct (nth_error frame_list j) as [fj|] eqn:Ej;
      [|apply nth_error_None in Ej; lia].
    rewrite (Hnth i fi Ei) in Ha. rewrite (Hnth j fj Ej) in Hb.
    injection Ha as <-. injection Hb as <-.
    apply link_name_lt; lia. }
  split; [|split; [exact Hsorted|split; [|split; [|split]]]].
  - unfold links, Overlapping.create_overlapping_timelapse, Py.enumerate.
    cbn [fst]. rewrite map_map. cbn [fst].
    rewrite <- (map_map snd Py.path). f_equal.
    apply combine_map_snd. rewrite length_map, length_seq. reflexivity.
  - clear - Hsorted. induction Hsorted as [|x l Hs IH Hf]; [reflexivity|].
    unfold Py.sorted, Py.list_sort in *. cbn [fold_right]. rewrite IH.
    destruct l as [|y l]; [reflexivity|].
    cbn [Py.insert]. inversion Hf as [|? ? Hxy _]; subst.
    unfold Py.str_lt, String.ltb in *.
    rewrite String.compare_antisym.
    destruct (String.compare x y); try discriminate. reflexivity.
  - intros i f Hf. split; [exact (Hnth i f Hf)|].
    assert (Hi : (i < List.length frame_list)%nat)
      by (apply nth_error_Some; congruence).
    split; [apply link_name_is_tls; lia|].
    unfold numbers, Overlapping.create_overlapping_timelapse. cbn [fst snd].
    lia.
  - intros Hne. destruct frame_list as [|f rest]; [congruence|].
    pose proof (Hnth 0%nat f eq_refl) as H0.
    destruct links as [|l0 ls]; [discriminate|].
    injection H0 as ->. reflexivity.
  - reflexivity.
Qed.

Lemma link_names_follow_the_frames_witness :
  fst (Overlapping.create_overlapping_timelapse
         [(noon_2025_10_01, "b/TLS_000000007.jpg");
          (twenty_past_noon, "a/TLS_000000003.jpg")]%string) =
    [("b/TLS_000000007.jpg", "tmp_frames/TLS_000000001.jpg");
     ("a/TLS_000000003.jpg", "tmp_frames/TLS_000000002.jpg")]%string /\
  Py.sorted
    (map snd
       (fst (Overlapping.create_overlapping_timelapse
               [(noon_2025_10_01, "b/TLS_000000007.jpg");
                (twenty_past_noon, "a/TLS_000000003.jpg")]%string))) =
  map snd
    (fst (Overlapping.create_overlapping_timelapse
            [(noon_2025_10_01, "b/TLS_000000007.jpg");
             (twenty_past_noon, "a/TLS_000000003.jpg")]%string)).
Proof.
  split; [vm_compute; reflexivity|].
  apply (link_names_follow_the_frames
           [(noon_2025_10_01, "b/TLS_000000007.jpg");
            (twenty_past_noon, "a/TLS_000000003.jpg")]%string).
  vm_compute. reflexivity.
Defined.

(** ** The frame range of automate_timelapse.py *)


Section FrameRangeFacts.
Variable exists_frame : string -> bool.
Variable listdir : string -> option (list string).
Variable exif : string -> option Z.
Variable mtime : string -> Z.
Variable exists_output : Z -> string -> bool.


Lemma float_div_int_zero (n : Z) :
  0 < n -> n < 2 ^ 53 ->
  Py.float_div_int (S754_zero false) n = Some (S754_zero false).
Proof.
  intros H0 H1. unfold Py.float_div_int.
  rewrite float_of_int_canon by lia. reflexivity.
Qed.

Lemma offset_on_the_grid (k s : Z) :
  0 <= k -> 1 <= s -> k * s < 2 ^ 53 -> s < 2 ^ 53 ->
  exists x q,
    Py.total_seconds (k * s * Py.us_per_second) = Some x /\
    Py.float_div_int x s = Some q /\
    Py.int_of_float q = Some k.
Proof.
  intros Hk Hs Hks Hs53. destruct (Z.eq_dec k 0) as [->|NE].
  - exists (S754_zero false), (S754_zero false).
    split; [reflexivity|]. split; [apply float_div_int_zero; lia|reflexivity].
  - exists (canon (s * k)), (canon k).
    split.
    + unfold Py.total_seconds, Py.us_per_second.
      replace (k * s * 1000000) with ((s * k) * 10 ^ 6) by lia.
      apply int_truediv_canon; nia.
    + split.
      * apply float_div_int_canon; nia.
      * apply int_of_float_canon; nia.
Qed.

(** X12.  [find_frames_for_event] maps an event that falls exactly [k]
    capture intervals after the first frame to frame [k + 1], in exact
    arithmetic, and anchors the range on that frame: the range starts
    [frames_before] frames earlier, but not before frame 1, and it has
    [duration_seconds * fps] frames past its start. *)
Theorem find_frames_on_the_grid (folder : string)
    (t0 k duration_seconds fps interval_seconds : Z)
    (center_ratio x : Py.float) (frames_before : Z) :
  exists_frame (Py.path_join folder "TLS_000000001.jpg") = true ->
  exif (Py.path_join folder "TLS_000000001.jpg") = Some t0 ->
  0 <= k -> 1 <= interval_seconds ->
  k * interval_seconds < 2 ^ 53 -> interval_seconds < 2 ^ 53 ->
  Py.int_mul_float (duration_seconds * fps) center_ratio = Some x ->
  Py.int_of_float x = Some frames_before ->
  Timelapse.find_frames_for_event exists_frame exif mtime folder
    (t0 + k * interval_seconds * Py.us_per_second)
    duration_seconds fps interval_seconds center_ratio =
  Some (Some (Z.max 1 (k + 1 - frames_before),
              Z.max 1 (k + 1 - frames_before) + duration_seconds * fps)).
Proof.
  intros Hex Ht0 Hk Hs Hks Hs53 Hx Hb.
  unfold Timelapse.find_frames_for_event. rewrite Hex, Ht0. cbn [negb].
  replace (t0 + k * interval_seconds * Py.us_per_second - t0)
    with (k * interval_seconds * Py.us_per_second) by lia.
  destruct (offset_on_the_grid k interval_seconds Hk Hs Hks Hs53)
    as (y & q & E1 & E2 & E3).
  rewrite E1, E2, E3, Hx, Hb. reflexivity.
Qed.










End FrameRangeFacts.


Lemma find_frames_on_the_grid_witness :
  Timelapse.find_frames_for_event (fun _ => true) short_exif (fun _ => 0) "a"
    (noon_2025_10_01 + 1000 * 10 * Py.us_per_second) 60 30 10
    Timelapse.ratio_sunset =
  Some (Some (Z.max 1 (1000 + 1 - 900), Z.max 1 (1000 + 1 - 900) + 60 * 30)).
Proof.
  eapply (find_frames_on_the_grid (fun _ => true) short_exif (fun _ => 0)
            "a"%string noon_2025_10_01 1000 60 30 10).
  - reflexivity.
  - reflexivity.
  - lia.
  - lia.
  - lia.
  - lia.
  - vm_compute. reflexivity.
  - vm_compute. reflexivity.
Defined.


(** ** The offset of a date *)

Lemma lex_compare_cons (x y : Z) (a b : list Z) :
  Calendar.lex_compare (x :: a) (y :: b) =
  match x ?= y with
  | Eq => Calendar.lex_compare a b
  | c => c
  end.
Proof. reflexivity. Qed.

Ltac lex_cases :=
  unfold Calendar.dt_le, Calendar.dt_lt, Calendar.fields, Calendar.date_hour,
    Calendar.date;
  cbn [Calendar.year Calendar.month Calendar.day Calendar.hour
       Calendar.minute Calendar.second Calendar.microsecond];
  rewrite !lex_compare_cons; rewrite Z.compare_refl;
  repeat match goal with
         | |- context [?a ?= ?b] => destruct (Z.compare_spec a b)
         | |- context [?a <? ?b] => destruct (Z.ltb_spec a b)
         | |- context [?a <=? ?b] => destruct (Z.leb_spec a b)
         | |- context [?a =? ?b] => destruct (Z.eqb_spec a b)
         end;
  try reflexivity; try lia.

Lemma two_am_le_midnight (Y M D m d : Z) :
  Calendar.dt_le (Calendar.date_hour Y M D 2) (Calendar.date Y m d) =
  (M <? m) || ((M =? m) && (D <? d)).
Proof. lex_cases. Qed.

Lemma midnight_lt_two_am (Y M D m d : Z) :
  Calendar.dt_lt (Calendar.date Y m d) (Calendar.date_hour Y M D 2) =
  (m <? M) || ((m =? M) && (d <=? D)).
Proof. lex_cases. Qed.

Lemma two_am_le_later (Y M D m d h mi s us : Z) :
  3 <= h ->
  Calendar.dt_le (Calendar.date_hour Y M D 2)
    (Calendar.mkDatetime Y m d h mi s us) =
  (M <? m) || ((M =? m) && (D <=? d)).
Proof. intros Hh. lex_cases. Qed.

Lemma later_lt_two_am (Y M D m d h mi s us : Z) :
  3 <= h ->
  Calendar.dt_lt (Calendar.mkDatetime Y m d h mi s us)
    (Calendar.date_hour Y M D 2) =
  (m <? M) || ((m =? M) && (d <? D)).
Proof. intros Hh. lex_cases. Qed.

(** X20.  [get_sun_time] asks [get_local_offset] for the offset of the date
    at 00:00.  For a date of 2025 or 2026 this is the offset in force in
    San Francisco from 03:00 on, on that date, except on the four Sundays
    on which the clocks change: on those the events of the day are given
    with the offset of the night before, the standard one in March and the
    daylight one in November. *)
Theorem offset_of_a_date_is_the_one_at_midnight (y m d h mi s us : Z) :
  y = 2025 \/ y = 2026 ->
  3 <= h ->
  let date := Calendar.date y m d in
  let later := Calendar.mkDatetime y m d h mi s us in
  (Overlapping.get_local_offset date <> los_angeles_offset later <->
   (y, m, d) = (2025, 3, 9) \/ (y, m, d) = (2025, 11, 2) \/
   (y, m, d) = (2026, 3, 8) \/ (y, m, d) = (2026, 11, 1)) /\
  ((y, m, d) = (2025, 3, 9) \/ (y, m, d) = (2026, 3, 8) ->
   Overlapping.get_local_offset date = -8 /\ los_angeles_offset later = -7) /\
  ((y, m, d) = (2025, 11, 2) \/ (y, m, d) = (2026, 11, 1) ->
   Overlapping.get_local_offset date = -7 /\ los_angeles_offset later = -8).
Proof.
  intros Hy Hh date later.
  pose proof table_is_the_rule as (S25 & E25 & S26 & E26).
  unfold Overlapping.get_local_offset, los_angeles_offset, date, later.
  cbn [Calendar.year Calendar.date].
  destruct Hy as [-> | ->].
  - rewrite S25, E25. change (2025 =? 2025) with true. cbv iota.
    rewrite two_am_le_midnight, midnight_lt_two_am.
    rewrite (two_am_le_later 2025 3 9 m d h mi s us Hh).
    rewrite (later_lt_two_am 2025 11 2 m d h mi s us Hh).
    repeat match goal with
           | |- context [?a <? ?b] => destruct (Z.ltb_spec a b)
           | |- context [?a <=? ?b] => destruct (Z.leb_spec a b)
           | |- context [?a =? ?b] => destruct (Z.eqb_spec a b)
           end; cbn [orb andb];
    (split; [split; [intros Hne; try (exfalso; apply Hne; reflexivity);
                     try (left; f_equal; [f_equal|]; lia);
                     try (right; left; f_equal; [f_equal|]; lia)
                    |intros [E|[E|[E|E]]]; inversion E; try lia; discriminate]
            |split; intros [E|E]; inversion E; try lia; split; reflexivity]).
  - rewrite S26, E26. change (2026 =? 2025) with false.
    change (2026 =? 2026) with true. cbv iota.
    rewrite two_am_le_midnight, midnight_lt_two_am.
    rewrite (two_am_le_later 2026 3 8 m d h mi s us Hh).
    rewrite (later_lt_two_am 2026 11 1 m d h mi s us Hh).
    repeat match goal with
           | |- context [?a <? ?b] => destruct (Z.ltb_spec a b)
           | |- context [?a <=? ?b] => destruct (Z.leb_spec a b)
           | |- context [?a =? ?b] => destruct (Z.eqb_spec a b)
           end; cbn [orb andb];
    (split; [split; [intros Hne; try (exfalso; apply Hne; reflexivity);
                     try (right; right; left; f_equal; [f_equal|]; lia);
                     try (right; right; right; f_equal; [f_equal|]; lia)
                    |intros [E|[E|[E|E]]]; inversion E; try lia; discriminate]
            |split; intros [E|E]; inversion E; try lia; split; reflexivity]).
Qed.

Lemma offset_of_a_date_is_the_one_at_midnight_witness :
  Overlapping.get_local_offset (Calendar.date 2025 3 9) = -8 /\
  los_angeles_offset (Calendar.mkDatetime 2025 3 9 7 27 0 0) = -7.
Proof.
  apply (offset_of_a_date_is_the_one_at_midnight 2025 3 9 7 27 0 0).
  - left. reflexivity.
  - lia.
  - left. reflexivity.
Defined.

(** ** The two clocks of the sun-event time *)

Section ClockFacts.
Import Solar.
Local Open Scope R_scope.

Lemma floordiv_add_60 (x : R) :
  int (floordiv (x + 60) 60) = (int (floordiv x 60) + 1)%Z.
Proof.
  unfold floordiv. rewrite !int_IZR.
  replace ((x + 60) / 60) with (x / 60 + IZR 1) by (simpl; lra).
  apply Zfloor_addz.
Qed.

Lemma modulo_add_60 (x : R) : modulo (x + 60) 60 = modulo x 60.
Proof.
  unfold modulo.
  replace ((x + 60) / 60) with (x / 60 + IZR 1) by (simpl; lra).
  rewrite Zfloor_addz, plus_IZR. simpl. lra.
Qed.

(** X15.  On a date for which [get_local_offset] answers -7, the event time of
    automate_overlapping_timelapse.py is the event time of
    automate_timelapse.py, which always subtracts eight hours, moved one
    hour later on the clock: same date, same minute, the hour one more. *)
Theorem daylight_time_is_one_hour_later (date : Calendar.datetime)
    (event : string) :
  event = "sunrise"%string \/ event = "sunset"%string ->
  Overlapping.get_local_offset date = (-7)%Z ->
  exists t,
    Timelapse.get_sun_time date event = Instant t /\
    Overlapping.get_sun_time date event =
      Instant (Calendar.mkDatetime (Calendar.year t) (Calendar.month t)
                 (Calendar.day t) (Calendar.hour t + 1) (Calendar.minute t)
                 0 0) /\
    (0 <= Calendar.hour t <= 22)%Z.
Proof.
  intros Hev Hoff.
  destruct (timelapse_sunrise_sunset date) as (Tr & Ts & TD & T0 & T1).
  destruct (overlapping_sunrise_sunset date) as (Or & Os & OD & O0 & O1).
  cbv zeta in *. rewrite Hoff in *.
  set (g := gamma (Calendar.tm_yday date)) in *.
  set (D := degrees (acos (hour_angle_cosine 90.833 date))) in *.
  assert (Hshift : forall x, x - - (IZR (-7) * 60) = x - 480 + 60)
    by (intros x; lra).
  rewrite !Hshift in *.
  assert (Hclock : forall x,
    0 <= x -> x + 60 < 1440 ->
    exists t,
      make_datetime date (int (floordiv x 60)) (int (modulo x 60)) = Instant t /\
      make_datetime date (int (floordiv (x + 60) 60)) (int (modulo (x + 60) 60)) =
        Instant (Calendar.mkDatetime (Calendar.year t) (Calendar.month t)
                   (Calendar.day t) (Calendar.hour t + 1) (Calendar.minute t)
                   0 0) /\
      (0 <= Calendar.hour t <= 22)%Z).
  { intros x Hx0 Hx1.
    rewrite (make_datetime_clock date x) by lra.
    rewrite (make_datetime_clock date (x + 60)) by lra.
    eexists. split; [reflexivity|]. cbn.
    rewrite floordiv_add_60, modulo_add_60. split; [reflexivity|].
    destruct (clock_fields x ltac:(lra)) as (Hh & _ & Hb).
    cbv zeta in Hb.
    split; [lia|].
    apply le_IZR. enough (IZR (int (floordiv x 60)) < 23)
      by (apply lt_IZR in H; apply IZR_le; lia).
    lra. }
  destruct Hev as [-> | ->].
  - rewrite Tr, Or. apply Hclock; lra.
  - rewrite Ts, Os. apply Hclock; lra.
Qed.

Lemma daylight_time_is_one_hour_later_witness :
  exists t,
    Timelapse.get_sun_time (Calendar.date 2025 7 1) "sunset" = Instant t /\
    Overlapping.get_sun_time (Calendar.date 2025 7 1) "sunset" =
      Instant (Calendar.mkDatetime (Calendar.year t) (Calendar.month t)
                 (Calendar.day t) (Calendar.hour t + 1) (Calendar.minute t)
                 0 0).
Proof.
  destruct (daylight_time_is_one_hour_later (Calendar.date 2025 7 1)
              "sunset"%string) as (t & H1 & H2 & _).
  - right. reflexivity.
  - reflexivity.
  - exists t. split; assumption.
Defined.

End ClockFacts.

(** ** The length of the golden-hour window *)

(** X16.  With 21:00 four hours after 17:00, the window of
    automate_goldenhour.py starts at 17:00 or earlier and ends at 21:00 or
    earlier, it lasts at least four hours and at most four and a half, it
    starts before the sunset, and it holds the sunset exactly when the
    sunset is not after 21:00. *)
Theorem golden_window_length (sunset target_5pm target_9pm : Z) :
  target_9pm = target_5pm + Goldenhour.minutes 240 ->
  let final_start :=
    fst (Goldenhour.final_window sunset target_5pm target_9pm) in
  let final_end :=
    snd (Goldenhour.final_window sunset target_5pm target_9pm) in
  final_start <= target_5pm /\
  final_end <= target_9pm /\
  Goldenhour.minutes 240 <= final_end - final_start <= Goldenhour.minutes 270 /\
  final_start + Goldenhour.minutes 150 <= sunset /\
  (sunset <= final_end <-> sunset <= target_9pm).
Proof.
  intros H. unfold Goldenhour.final_window, Goldenhour.minutes,
    Py.us_per_minute in *. cbn [fst snd]. lia.
Qed.

Lemma golden_window_length_witness :
  Goldenhour.minutes 240 <=
    snd (Goldenhour.final_window
           (Calendar.to_us (Calendar.mkDatetime 2025 12 15 16 53 0 0))
           (Calendar.to_us (Calendar.date_hour 2025 12 15 17))
           (Calendar.to_us (Calendar.date_hour 2025 12 15 21)))
    - fst (Goldenhour.final_window
             (Calendar.to_us (Calendar.mkDatetime 2025 12 15 16 53 0 0))
             (Calendar.to_us (Calendar.date_hour 2025 12 15 17))
             (Calendar.to_us (Calendar.date_hour 2025 12 15 21)))
    <= Goldenhour.minutes 270.
Proof.
  apply (golden_window_length
           (Calendar.to_us (Calendar.mkDatetime 2025 12 15 16 53 0 0))
           (Calendar.to_us (Calendar.date_hour 2025 12 15 17))
           (Calendar.to_us (Calendar.date_hour 2025 12 15 21))).
  reflexivity.
Defined.

(** ** Nautical dusk *)

Section DuskFacts.
Import Solar.
Local Open Scope R_scope.

Lemma PI_tight : 3.13 < PI < 3.15.
Proof.
  pose proof (PI_2_3_7_ineq 0) as [Hl _].
  pose proof (PI_2_3_7_ineq 1) as [_ Hu].
  unfold sum_f_R0, tg_alt, PI_2_3_7_tg, Ratan_seq in Hl, Hu.
  simpl in Hl, Hu. lra.
Qed.

Lemma rad_lat_tight : 0.657 <= radians LATITUDE <= 0.662.
Proof. unfold radians, LATITUDE. pose proof PI_tight. lra. Qed.

Lemma cos_lat_tight : 0.78 <= cos (radians LATITUDE) <= 1.
Proof.
  pose proof rad_lat_tight. pose proof (cos_ge_parabola (radians LATITUDE)).
  pose proof (COS_bound (radians LATITUDE)). nra.
Qed.

Lemma tan_lat_tight : 0 <= tan (radians LATITUDE) <= 0.85.
Proof.
  pose proof cos_lat_tight as Hc. pose proof rad_lat_tight as Hr.
  assert (Hs : 0 <= sin (radians LATITUDE) <= 0.662).
  { split.
    - apply sin_ge_0; [lra|]. pose proof PI_tight. lra.
    - pose proof (sin_lt_x (radians LATITUDE)). lra. }
  unfold tan.
  assert (Hi : 0 < / cos (radians LATITUDE)) by (apply Rinv_0_lt_compat; lra).
  assert (Hu : / cos (radians LATITUDE) * cos (radians LATITUDE) = 1)
    by (apply Rinv_l; lra).
  unfold Rdiv. nra.
Qed.

Lemma cos_dusk_bound : -0.21 <= cos (radians 102) <= 0.
Proof.
  assert (E : radians 102 = PI / 2 + radians 12) by (unfold radians; lra).
  rewrite E, <- (Ropp_involutive (cos _)), <- sin_cos.
  assert (Hr : 0 < radians 12 <= 0.21).
  { unfold radians. pose proof PI_tight. lra. }
  pose proof (sin_lt_x (radians 12) ltac:(lra)).
  assert (0 < sin (radians 12)).
  { apply sin_gt_0; [lra|]. pose proof PI_tight. lra. }
  lra.
Qed.

Lemma cos_ha_dusk_bound (g c : R) :
  cos_ha 102 g = Some c -> -0.8 <= c <= 0.8.
Proof.
  rewrite cos_ha_defined. intros [= <-].
  pose proof cos_lat_tight as Hl. pose proof (cos_decl_bound g) as Hd.
  pose proof tan_lat_tight as Htl. pose proof (tan_decl_bound g) as Htd.
  pose proof cos_dusk_bound as Hz.
  set (den := cos (radians LATITUDE) * cos (decl g)) in *.
  assert (Hden : 0.678 <= den) by (unfold den; nra).
  assert (Hi : 0 < / den) by (apply Rinv_0_lt_compat; lra).
  assert (Hu : / den * den = 1) by (apply Rinv_l; lra).
  assert (Hq : -0.31 <= cos (radians 102) / den <= 0).
  { unfold Rdiv. split; nra. }
  assert (Ht : -0.4845 <= tan (radians LATITUDE) * tan (decl g) <= 0.4845) by nra.
  lra.
Qed.

Lemma acos_decreasing (a b : R) :
  -1 <= a <= 1 -> -1 <= b <= 1 -> a < b -> acos b < acos a.
Proof.
  intros Ha Hb Hab.
  destruct (Rlt_le_dec (acos b) (acos a)) as [H|H]; [exact H|].
  exfalso.
  pose proof (acos_bound a) as [A0 A1]. pose proof (acos_bound b) as [B0 B1].
  pose proof (cos_decr_1 (acos a) (acos b) A0 A1 B0 B1 H) as Hc.
  rewrite !cos_acos in Hc by assumption. lra.
Qed.

Lemma round_half_even_mono (x y : R) :
  x <= y -> (round_half_even x <= round_half_even y)%Z.
Proof.
  intros Hxy. unfold round_half_even.
  pose proof (Zfloor_le x y Hxy) as Hf.
  pose proof (Zfloor_bound x) as [Hx0 Hx1].
  pose proof (Zfloor_bound y) as [Hy0 Hy1].
  destruct (Z.eq_dec (Zfloor x) (Zfloor y)) as [E|NE].
  - rewrite <- E in *.
    destruct (Rlt_dec (x - IZR (Zfloor x)) (1 / 2)) as [X1|X1];
    destruct (Rlt_dec (y - IZR (Zfloor x)) (1 / 2)) as [Y1|Y1];
    destruct (Rlt_dec (1 / 2) (x - IZR (Zfloor x))) as [X2|X2];
    destruct (Rlt_dec (1 / 2) (y - IZR (Zfloor x))) as [Y2|Y2];
    destruct (Z.even (Zfloor x)); try lia; lra.
  - assert (Zfloor x + 1 <= Zfloor y)%Z by lia.
    destruct (Rlt_dec (x - IZR (Zfloor x)) (1 / 2));
    destruct (Rlt_dec (y - IZR (Zfloor y)) (1 / 2));
    destruct (Rlt_dec (1 / 2) (x - IZR (Zfloor x)));
    destruct (Rlt_dec (1 / 2) (y - IZR (Zfloor y)));
    destruct (Z.even (Zfloor x)); destruct (Z.even (Zfloor y)); lia.
Qed.

Lemma cos_lipschitz (a b : R) : a <= b -> cos a - cos b <= b - a.
Proof.
  intros Hab. rewrite form2.
  pose proof (sin_sqr_le ((a - b) / 2)) as H1.
  pose proof (SIN_bound ((a + b) / 2)) as H2.
  set (s1 := sin ((a - b) / 2)) in *. set (s2 := sin ((a + b) / 2)) in *.
  assert (Hd : 0 <= (b - a) / 2) by lra.
  assert (H3 : - ((b - a) / 2) <= s1 <= (b - a) / 2) by nra.
  assert (H4 : - ((b - a) / 2) <= s1 * s2 <= (b - a) / 2) by nra.
  lra.
Qed.

Lemma sin_ge_cubic (x : R) : 0 <= x <= 1 -> x - x * x * x / 6 <= sin x.
Proof.
  intros Hx. pose proof PI_gt_3.
  pose proof (SIN x ltac:(lra) ltac:(lra)) as [Hl _].
  unfold sin_lb, sin_approx in Hl. cbn [sum_f_R0] in Hl.
  unfold sin_term in Hl.
  assert (F1 : INR (fact (2 * 0 + 1)) = 1) by (rewrite INR_IZR_INZ; reflexivity).
  assert (F3 : INR (fact (2 * 1 + 1)) = 6) by (rewrite INR_IZR_INZ; reflexivity).
  assert (F5 : INR (fact (2 * 2 + 1)) = 120) by (rewrite INR_IZR_INZ; reflexivity).
  assert (F7 : INR (fact (2 * 3 + 1)) = 5040) by (rewrite INR_IZR_INZ; reflexivity).
  rewrite F1, F3, F5, F7 in Hl. simpl in Hl.
  assert (0 <= x * x * x * x * x) by (repeat apply Rmult_le_pos; lra).
  assert (x * x <= 1) by nra.
  nra.
Qed.

Lemma cos_zenith_gap : 0.19 <= cos (radians 90.833) - cos (radians 102).
Proof.
  pose proof PI_tight as HP.
  assert (E1 : radians 102 = PI / 2 + radians 12) by (unfold radians; lra).
  assert (E2 : radians 90.833 = PI / 2 + radians 0.833)
    by (unfold radians; lra).
  rewrite E1, E2.
  rewrite <- (Ropp_involutive (cos (PI / 2 + radians 12))).
  rewrite <- (Ropp_involutive (cos (PI / 2 + radians 0.833))).
  rewrite <- !sin_cos.
  assert (H12 : 0.2086 <= radians 12 <= 0.21) by (unfold radians; lra).
  assert (H08 : 0 < radians 0.833 <= 0.0146) by (unfold radians; lra).
  pose proof (sin_ge_cubic (radians 12) ltac:(lra)) as Hs12.
  pose proof (sin_lt_x (radians 0.833) ltac:(lra)) as Hs08.
  assert (radians 12 * radians 12 * radians 12 <= 0.21 * 0.21 * 0.21).
  { assert (radians 12 * radians 12 <= 0.21 * 0.21) by nra. nra. }
  lra.
Qed.

Lemma cos_ha_gap (g c1 c2 : R) :
  cos_ha 90.833 g = Some c1 -> cos_ha 102 g = Some c2 -> 0.19 <= c1 - c2.
Proof.
  rewrite !cos_ha_defined. intros [= <-] [= <-].
  pose proof cos_lat_tight as Hl. pose proof (cos_decl_bound g) as Hd.
  pose proof cos_zenith_gap as Hz.
  set (den := cos (radians LATITUDE) * cos (decl g)) in *.
  assert (Hden : 0 < den <= 1) by (unfold den; nra).
  assert (Hi : 1 <= / den).
  { rewrite <- Rinv_1. apply Rinv_le_contravar; lra. }
  unfold Rdiv. nra.
Qed.

Lemma round_half_even_near (x : R) :
  x - 1 / 2 <= IZR (round_half_even x) <= x + 1 / 2.
Proof.
  unfold round_half_even. pose proof (Zfloor_bound x) as [H0 H1].
  destruct (Rlt_dec (x - IZR (Zfloor x)) (1 / 2)) as [A|A]; [lra|].
  destruct (Rlt_dec (1 / 2) (x - IZR (Zfloor x))) as [B|B];
    [rewrite plus_IZR; simpl; lra|].
  destruct (Z.even (Zfloor x)); [lra|rewrite plus_IZR; simpl; lra].
Qed.

Lemma rewind_sun_time_defined (date : Calendar.datetime) (zenith_deg c : R) :
  cos_ha zenith_deg (gamma (Calendar.tm_yday date)) = Some c ->
  -1 <= c <= 1 ->
  Rewind.get_sun_time date zenith_deg =
  Instant (utc_instant date
             (solar_noon_utc (gamma (Calendar.tm_yday date))
              + 4 * degrees (acos c))).
Proof.
  intros Hc Hb. unfold Rewind.get_sun_time. rewrite Hc.
  destruct (Rgt_dec c 1) as [H|_]; [lra|].
  destruct (Rlt_dec c (-1)) as [H|_]; [lra|]. reflexivity.
Qed.

(** X17.  On every date both events of automate_rewind.py exist, the sunset
    is the one of automate_goldenhour.py, and nautical dusk comes at least
    42 minutes after the sunset; so the window of [__main__], which ends at
    nautical dusk, holds every indexed frame from two and a half hours
    before the sunset to 42 minutes after it. *)
Theorem nautical_dusk_follows_sunset (date : Calendar.datetime) :
  exists sunset nautical_dusk : Z,
    Rewind.get_sun_time date 90.833 = Instant sunset /\
    Rewind.get_sun_time date 102 = Instant nautical_dusk /\
    Goldenhour.get_sunset_time date = Instant sunset /\
    (sunset + Goldenhour.minutes 42 <= nautical_dusk)%Z /\
    forall (frames : list Py.frame) (target_5pm : Z) (f : Py.frame),
      In f frames ->
      (sunset - Goldenhour.minutes 150 <= Py.ts f
         <= sunset + Goldenhour.minutes 42)%Z ->
      In f (Rewind.window_frames frames sunset nautical_dusk target_5pm).
Proof.
  set (g := gamma (Calendar.tm_yday date)).
  pose proof (cos_ha_defined 90.833 g) as E1.
  pose proof (cos_ha_defined 102 g) as E2.
  pose proof (cos_ha_sunset_bound g _ E1) as B1.
  pose proof (cos_ha_dusk_bound g _ E2) as B2.
  pose proof (cos_ha_gap g _ _ E1 E2) as Hgap.
  set (c1 := cos (radians 90.833) / (cos (radians LATITUDE) * cos (decl g))
             - tan (radians LATITUDE) * tan (decl g)) in *.
  set (c2 := cos (radians 102) / (cos (radians LATITUDE) * cos (decl g))
             - tan (radians LATITUDE) * tan (decl g)) in *.
  pose proof (acos_decreasing c2 c1 ltac:(lra) ltac:(lra) ltac:(lra)) as Hacos.
  pose proof (cos_lipschitz (acos c1) (acos c2) ltac:(lra)) as Hlip.
  rewrite !cos_acos in Hlip by lra.
  set (u1 := solar_noon_utc g + 4 * degrees (acos c1)).
  set (u2 := solar_noon_utc g + 4 * degrees (acos c2)).
  assert (Hu : u1 + 43 <= u2).
  { unfold u1, u2, degrees. pose proof PI_tight as HP.
    assert (Hk : 57 <= 180 / PI).
    { apply Rmult_le_reg_r with PI; [lra|].
      unfold Rdiv. rewrite Rmult_assoc, Rinv_l by lra. lra. }
    nra. }
  assert (Hle : (utc_instant date u1 + Goldenhour.minutes 42
                 <= utc_instant date u2)%Z).
  { unfold utc_instant, Goldenhour.minutes, Py.us_per_minute.
    pose proof (round_half_even_near (u1 * 60000000)) as [_ N1].
    pose proof (round_half_even_near (u2 * 60000000)) as [N2 _].
    enough (round_half_even (u1 * 60000000) + 42 * 60000000
            <= round_half_even (u2 * 60000000))%Z by lia.
    apply le_IZR. rewrite plus_IZR, mult_IZR. lra. }
  exists (utc_instant date u1), (utc_instant date u2).
  split; [apply rewind_sun_time_defined; [exact E1|lra]|].
  split; [apply rewind_sun_time_defined; [exact E2|lra]|].
  split; [apply (rewind_sun_time_defined date 90.833 c1 E1); lra|].
  split; [exact Hle|].
  intros frames target_5pm f Hin Hts.
  unfold Rewind.window_frames, Rewind.final_window, Rewind.get_time_window,
    Goldenhour.get_time_window.
  apply filter_In. split; [exact Hin|].
  apply andb_true_iff. split; apply Z.leb_le; lia.
Qed.

Lemma round_half_even_IZR (z : Z) : round_half_even (IZR z) = z.
Proof.
  unfold round_half_even. rewrite ZfloorZ.
  destruct (Rlt_dec (IZR z - IZR z) (1 / 2)) as [_|H]; [reflexivity|lra].
Qed.

Lemma clock_minutes (x : R) :
  (int (floordiv x 60) * 60 + Zfloor (modulo x 60))%Z = Zfloor x.
Proof.
  unfold floordiv, modulo. rewrite int_IZR.
  replace (x - 60 * IZR (Zfloor (x / 60)))
    with (x + IZR (- (60 * Zfloor (x / 60))))
    by (rewrite opp_IZR, mult_IZR; lra).
  rewrite Zfloor_addz. lia.
Qed.

(** X18.  The sunset of automate_timelapse.py is the sunset instant of
    automate_goldenhour.py (and of automate_rewind.py), read on a clock
    eight hours behind UTC and cut to the whole minute: taken as a time at
    UTC-8 it is at most one minute before that instant and never after
    it. *)
Theorem timelapse_sunset_is_the_truncated_instant (date : Calendar.datetime) :
  exists (t : Calendar.datetime) (sunset : Z),
    Timelapse.get_sun_time date "sunset" = Instant t /\
    Goldenhour.get_sunset_time date = Instant sunset /\
    Rewind.get_sun_time date 90.833 = Instant sunset /\
    Calendar.second t = 0%Z /\ Calendar.microsecond t = 0%Z /\
    (Calendar.to_us t + Timelapse.hours 8 <= sunset
       <= Calendar.to_us t + Timelapse.hours 8 + Goldenhour.minutes 1)%Z.
Proof.
  destruct (timelapse_sunrise_sunset date) as (_ & Ts & TD & T0 & T1).
  cbv zeta in *.
  set (g := gamma (Calendar.tm_yday date)) in *.
  pose proof (cos_ha_defined 90.833 g) as E1.
  pose proof (cos_ha_sunset_bound g _ E1) as B1.
  change (cos (radians 90.833) / (cos (radians LATITUDE) * cos (decl g))
          - tan (radians LATITUDE) * tan (decl g))
    with (hour_angle_cosine 90.833 date) in E1, B1.
  set (D := degrees (acos (hour_angle_cosine 90.833 date))) in *.
  set (x := solar_noon_utc g + 4 * D - 480) in *.
  assert (Hx : 0 <= x < 1440) by (unfold x in *; lra).
  rewrite (make_datetime_clock date x Hx) in Ts.
  eexists. exists (utc_instant date (solar_noon_utc g + 4 * D)).
  split; [exact Ts|].
  split; [apply (rewind_sun_time_defined date 90.833 _ E1); lra|].
  split; [apply (rewind_sun_time_defined date 90.833 _ E1); lra|].
  split; [reflexivity|]. split; [reflexivity|].
  pose proof (clock_minutes x) as Hm.
  pose proof (modulo_bound x 60 ltac:(lra)) as Hmb.
  rewrite <- (int_nonneg (modulo x 60)) in Hm by lra.
  pose proof (Zfloor_bound x) as [F0 F1].
  unfold utc_instant, Calendar.to_us, Timelapse.hours, Goldenhour.minutes,
    Py.us_per_minute, Calendar.date.
  cbn [Calendar.year Calendar.month Calendar.day Calendar.hour
       Calendar.minute Calendar.second Calendar.microsecond].
  set (o := Calendar.ymd2ord (Calendar.year date) (Calendar.month date)
              (Calendar.day date)).
  set (h := int (floordiv x 60)) in *. set (mi := int (modulo x 60)) in *.
  replace (solar_noon_utc g + 4 * D) with (x + 480) by (unfold x; lra).
  pose proof (round_half_even_mono
                (IZR ((Zfloor x + 480) * 60000000)) ((x + 480) * 60000000)
                ltac:(rewrite mult_IZR, plus_IZR; lra)) as R0.
  pose proof (round_half_even_mono
                ((x + 480) * 60000000) (IZR ((Zfloor x + 481) * 60000000))
                ltac:(rewrite mult_IZR, plus_IZR; lra)) as R1.
  rewrite round_half_even_IZR in R0, R1.
  lia.
Qed.

End DuskFacts.
